(** * Employee performance report generator: model and verification

    Shallow embedding of [report_generator.py].  The analysis functions
    ([calculate_statistics], [department_wise_average]) are embedded over
    Python's numeric tower (unbounded [int], IEEE binary64 [float]); the
    loader and the controller run in a state-and-exception monad over a
    small world (file system, standard output, wall clock); the frame
    properties are stated over a store of mutable Python objects. *)

From Stdlib Require Import ZArith Lia List String Ascii SpecFloat DecimalString.
From stdpp Require Import base option list gmap strings.
Import ListNotations.
Open Scope Z_scope.

(* ================================================================== *)
(** * Part I. Definitions                                              *)
(* ================================================================== *)

(** ** Exceptions and results *)

(** The exceptions the program can raise.  [SystemExit] is what the
    [exit()] builtin raises; its argument is the exit status handed to the
    interpreter ([None] when [exit] is called without argument). *)
Inductive exn : Type :=
| SystemExit (code : option Z)
| FileNotFoundError (path : string)
| UnicodeDecodeError
| KeyError (key : string)
| TypeError
| ValueError
| StatisticsError
| OverflowError
| ZeroDivisionError.

Inductive result (A : Type) : Type :=
| Ok (a : A)
| Raise (e : exn).
Arguments Ok {A} a.
Arguments Raise {A} e.

Definition rbind {A B} (r : result A) (k : A -> result B) : result B :=
  match r with
  | Ok a => k a
  | Raise e => Raise e
  end.

(** ** Numbers *)

(** A Python number as the program meets it: an unbounded [int] or a
    binary64 [float]. *)
Inductive pynum : Type :=
| PyInt (z : Z)
| PyFloat (f : spec_float).

Module Float.

(** binary64: 53 bits of precision, infinities at exponent 1024. *)
Definition prec : Z := 53.
Definition emax : Z := 1024.

(** [pow2 k] is [2^k] for [k >= 0] and [1] below: the factor by which
    one side of a comparison is scaled to clear a power of two. *)
Definition pow2 (k : Z) : Z := 2 ^ Z.max 0 k.

(** Nearest integer to [a / b] ([0 < b]), ties to the even one. *)
Definition div_half_even (a b : Z) : Z :=
  let q := a / b in
  let r := a mod b in
  match 2 * r ?= b with
  | Lt => q
  | Gt => q + 1
  | Eq => if Z.even q then q else q + 1
  end.

(** [floor (log2 (a / b))] for [0 < a], [0 < b]. *)
Definition ilog2_ratio (a b : Z) : Z :=
  let d := Z.log2 a - Z.log2 b in
  if b * pow2 d <=? a * pow2 (- d) then d else d - 1.

(** The binary64 magnitude nearest to [a / b] ([0 < a], [0 < b]), ties
    to even, as mantissa and exponent [(m, u)] standing for [m * 2^u];
    the exponent range is not yet checked. *)
Definition round_mag (a b : Z) : Z * Z :=
  let e := ilog2_ratio a b in
  let u := Z.max (e - (prec - 1)) (emin prec emax) in
  let m := div_half_even (a * pow2 (- u)) (b * pow2 u) in
  if m =? 2 ^ prec then (2 ^ (prec - 1), u + 1) else (m, u).

(** Correct rounding of the rational [(-1)^s * a / b] ([0 <= a],
    [0 < b]) to binary64; a magnitude past the largest finite float
    rounds to infinity, one below half the smallest subnormal to a
    signed zero. *)
Definition round_binary64 (s : bool) (a b : Z) : spec_float :=
  if a =? 0 then S754_zero s
  else
    let '(m, u) := round_mag a b in
    match m with
    | Zpos p => if u <=? emax - prec then S754_finite s p u else S754_infinity s
    | _ => S754_zero s
    end.

(** [int / int]: the correctly rounded quotient; [OverflowError] when
    it is too large for a float. *)
Definition int_true_div (a b : Z) : result spec_float :=
  if b =? 0 then Raise ZeroDivisionError
  else
    match round_binary64 (xorb (a <? 0) (b <? 0)) (Z.abs a) (Z.abs b) with
    | S754_infinity _ => Raise OverflowError
    | f => Ok f
    end.

(** [float.__round__(ndigits)] for [ndigits >= 0]: the exact value is
    rounded half-even to [ndigits] decimals, and that decimal is read
    back as the nearest float.  Zeros, infinities and NaN round to
    themselves. *)
Definition round (f : spec_float) (ndigits : nat) : spec_float :=
  match f with
  | S754_finite s m e =>
      let p := 10 ^ Z.of_nat ndigits in
      let k := div_half_even (Zpos m * pow2 e * p) (pow2 (- e)) in
      round_binary64 s k p
  | _ => f
  end.

(** [float(z)], an infinity where Python raises [OverflowError]; it
    serves to write float literals such as [80.0]. *)
Definition of_int (z : Z) : spec_float :=
  round_binary64 (z <? 0) (Z.abs z) 1.

(** The value of a float on the extended line, as a scaled integer
    [m * 2^e]; [None] for NaN. *)
Inductive ext : Type :=
| NegInf
| Fin (m e : Z)
| PosInf.

Definition value (f : spec_float) : option ext :=
  match f with
  | S754_zero _ => Some (Fin 0 0)
  | S754_infinity s => Some (if s then NegInf else PosInf)
  | S754_nan => None
  | S754_finite s m e => Some (Fin (cond_Zopp s (Zpos m)) e)
  end.

Definition ext_leb (x y : ext) : bool :=
  match x, y with
  | NegInf, _ => true
  | _, PosInf => true
  | Fin m1 e1, Fin m2 e2 => m1 * pow2 (e1 - e2) <=? m2 * pow2 (e2 - e1)
  | _, _ => false
  end.

Definition ext_eqb (x y : ext) : bool :=
  match x, y with
  | NegInf, NegInf => true
  | PosInf, PosInf => true
  | Fin m1 e1, Fin m2 e2 => m1 * pow2 (e1 - e2) =? m2 * pow2 (e2 - e1)
  | _, _ => false
  end.

End Float.

(** Exact numeric value of a number; Python compares an [int] and a
    [float] by value, without converting the [int]. *)
Definition num_value (x : pynum) : option Float.ext :=
  match x with
  | PyInt z => Some (Float.Fin z 0)
  | PyFloat f => Float.value f
  end.

(** [x <= y] *)
Definition py_le (x y : pynum) : bool :=
  match num_value x, num_value y with
  | Some a, Some b => Float.ext_leb a b
  | _, _ => false
  end.

(** [x == y] *)
Definition py_eq (x y : pynum) : bool :=
  match num_value x, num_value y with
  | Some a, Some b => Float.ext_eqb a b
  | _, _ => false
  end.

(** [round(x, ndigits)]: an [int] rounds to itself for [ndigits >= 0]. *)
Definition py_round (x : pynum) (ndigits : nat) : pynum :=
  match x with
  | PyInt z => PyInt z
  | PyFloat f => PyFloat (Float.round f ndigits)
  end.

(** [len] *)
Definition len {A} (l : list A) : Z := Z.of_nat (length l).

(** [sum] of a list of ints *)
Definition py_sum (data : list Z) : Z := fold_left Z.add data 0.

(** [max] and [min] of a list of ints; [ValueError] on an empty one. *)
Definition py_max (data : list Z) : result Z :=
  match data with
  | [] => Raise ValueError
  | x :: t => Ok (fold_left Z.max t x)
  end.

Definition py_min (data : list Z) : result Z :=
  match data with
  | [] => Raise ValueError
  | x :: t => Ok (fold_left Z.min t x)
  end.

(** [fractions.Fraction(n, d)] for [0 < d], in lowest terms. *)
Definition Fraction (n d : Z) : Z * Z :=
  let g := Z.gcd n d in (n / g, d / g).

(** [statistics.mean] on a list of ints.  The sum is exact; the mean is
    the exact fraction [total / n], returned as an [int] when its
    denominator is 1 and converted to [float] (numerator / denominator,
    correctly rounded) otherwise. *)
Definition mean (data : list Z) : result pynum :=
  let n := len data in
  let total := py_sum data in
  if n <? 1 then Raise StatisticsError
  else
    let '(num, den) := Fraction total n in
    if den =? 1 then Ok (PyInt num)
    else rbind (Float.int_true_div num den) (fun f => Ok (PyFloat f)).

(** ** Dictionaries *)

(** A Python [dict]: a finite map that iterates in insertion order.
    Assigning to a key that is present replaces its value in place;
    assigning to a new key appends the entry. *)
Module Dict.
Section WithKey.
Context {K : Type} `{EqDecision K} {V : Type}.

Definition t : Type := list (K * V).

Definition empty : t := [].

Fixpoint get (k : K) (d : t) : option V :=
  match d with
  | [] => None
  | (k', v) :: rest => if bool_decide (k' = k) then Some v else get k rest
  end.

(** [k in d] *)
Definition contains (k : K) (d : t) : bool :=
  match get k d with
  | Some _ => true
  | None => false
  end.

(** [d[k] = v] *)
Fixpoint set (k : K) (v : V) (d : t) : t :=
  match d with
  | [] => [(k, v)]
  | (k', v') :: rest =>
      if bool_decide (k' = k) then (k', v) :: rest
      else (k', v') :: set k v rest
  end.

Definition keys (d : t) : list K := map fst d.
Definition items (d : t) : list (K * V) := d.
End WithKey.
Arguments t : clear implicits.
End Dict.

(** ** The world and the monad of the program *)

(** The wall clock as [datetime.now()] returns it. *)
Record datetime : Type := {
  year : Z; month : Z; day : Z;
  hour : Z; minute : Z; second : Z; microsecond : Z
}.

(** A text argument as the program passes it: a [str], or [None] where a
    short CSV row left a field unset. *)
Abbreviation pytext := (option string).

(** One call on the [ReportPDF] object.  Arguments the program leaves
    out take the defaults of the method's signature. *)
Inductive pdf_op : Type :=
| set_auto_page_break (auto : bool) (margin : Z)
| add_page
| set_font (family style : string) (size : Z)
| cell (w h : Z) (txt : pytext) (border : Z) (ln : bool) (align : string)
| ln (h : option Z)
| multi_cell (w h : Z) (txt : string)
| set_y (y : Z).

(** The [ReportPDF] object is the sequence of calls made on it, oldest
    first; [output] hands that sequence to the FPDF library, which lays it
    out and runs the class's [header] and [footer] on every page. *)
Definition pdf : Type := list pdf_op.

(** A file: text seen as the rows the [csv] reader yields from it, or a
    document written by [output]. *)
Inductive file : Type :=
| TextFile (rows : list (list string))
| PdfFile (doc : pdf).

Record world : Type := {
  fs : gmap string file;
  stdout : list string;
  now : datetime
}.

(** The program's computations: a state, here the world, is threaded
    through, and an exception ends the run where it is raised. *)
Definition St (S A : Type) : Type := S -> result A * S.

Definition ret {S A} (a : A) : St S A := fun w => (Ok a, w).

Definition bind {S A B} (c : St S A) (k : A -> St S B) : St S B :=
  fun w =>
    match c w with
    | (Ok a, w') => k a w'
    | (Raise e, w') => (Raise e, w')
    end.

Definition raise {S A} (e : exn) : St S A := fun w => (Raise e, w).

Definition lift {S A} (r : result A) : St S A := fun w => (r, w).

Notation "x <- c1 ;; c2" := (bind c1 (fun x => c2))
  (at level 100, c1 at next level, right associativity).
Notation "c1 ;; c2" := (bind c1 (fun _ => c2))
  (at level 100, right associativity).

Definition M : Type -> Type := St world.

(** [print(s)] *)
Definition print (s : string) : M unit :=
  fun w => (Ok tt, {| fs := fs w; stdout := stdout w ++ [s]; now := now w |}).

(** [os.path.exists(filename)] *)
Definition path_exists (filename : string) : M bool :=
  fun w => (Ok (bool_decide (is_Some (fs w !! filename))), w).

(** [open(filename, newline="", encoding="utf-8")] read through
    [csv.reader]. *)
Definition open_csv (filename : string) : M (list (list string)) :=
  fun w =>
    match fs w !! filename with
    | None => (Raise (FileNotFoundError filename), w)
    | Some (TextFile rows) => (Ok rows, w)
    | Some (PdfFile _) => (Raise UnicodeDecodeError, w)
    end.

(** [datetime.now()] *)
Definition datetime_now : M datetime := fun w => (Ok (now w), w).

(** [pdf.output(filename)]: creates or overwrites the file. *)
Definition output (doc : pdf) (filename : string) : M unit :=
  fun w => (Ok tt, {| fs := <[filename := PdfFile doc]> (fs w);
                      stdout := stdout w; now := now w |}).

(** A loop whose body can raise: the first exception ends it. *)
Fixpoint for_each {A B} (body : B -> A -> result B) (l : list A) (acc : B)
  : result B :=
  match l with
  | [] => Ok acc
  | x :: rest => rbind (body acc x) (for_each body rest)
  end.

(** ** Data analysis *)

(** An employee record, the dict [{"name": .., "department": ..,
    "score": ..}]. *)
Record employee : Type := {
  name : pytext;
  department : pytext;
  score : Z
}.

(** The dict [calculate_statistics] returns. *)
Record statistics : Type := {
  total_employees : Z;
  average_score : pynum;
  highest_score : Z;
  lowest_score : Z
}.

(** [d[k]], raising [KeyError] on a missing key. *)
Definition getitem {V} (k : pytext) (d : Dict.t pytext V) : result V :=
  match Dict.get k d with
  | Some v => Ok v
  | None => Raise (KeyError (default "None"%string k))
  end.

(** [round(statistics.mean(scores), 2)] *)
Definition rounded_mean (scores : list Z) : result pynum :=
  rbind (mean scores) (fun m => Ok (py_round m 2)).

Definition calculate_statistics (employees : list employee) : M statistics :=
  let scores := map score employees in
  let total := len employees in
  average <- lift (rounded_mean scores) ;;
  highest <- lift (py_max scores) ;;
  lowest <- lift (py_min scores) ;;
  let stats := {| total_employees := total;
                  average_score := average;
                  highest_score := highest;
                  lowest_score := lowest |} in
  print "Statistics calculated successfully." ;;
  ret stats.

(** The body of the first loop of [department_wise_average]: the
    record's score joins the list of its department, which is created
    when the department is new. *)
Definition group_score (dept_data : Dict.t pytext (list Z)) (emp : employee)
  : result (Dict.t pytext (list Z)) :=
  let dept := department emp in
  let score := score emp in
  let dept_data :=
    if negb (Dict.contains dept dept_data)
    then Dict.set dept [] dept_data
    else dept_data in
  rbind (getitem dept dept_data) (fun scores =>
  Ok (Dict.set dept (scores ++ [score]) dept_data)).

(** The first loop: scores grouped by department, departments in
    first-seen order. *)
Definition group_scores (employees : list employee)
  : result (Dict.t pytext (list Z)) :=
  for_each group_score employees Dict.empty.

(** The body of the second loop: the rounded mean of one group. *)
Definition average_group (dept_avg : Dict.t pytext pynum)
           (group : pytext * list Z) : result (Dict.t pytext pynum) :=
  let '(dept, scores) := group in
  rbind (rounded_mean scores) (fun avg => Ok (Dict.set dept avg dept_avg)).

Definition average_groups (dept_data : Dict.t pytext (list Z))
  : result (Dict.t pytext pynum) :=
  for_each average_group (Dict.items dept_data) Dict.empty.

Definition department_wise_average (employees : list employee)
  : M (Dict.t pytext pynum) :=
  dept_data <- lift (group_scores employees) ;;
  dept_avg <- lift (average_groups dept_data) ;;
  print "Department-wise averages calculated." ;;
  ret dept_avg.

(** ** Loader, renderer and controller *)

Definition DATA_FILE : string := "data.csv".
Definition OUTPUT_FILE : string := "employee_performance_report.pdf".
Definition PAGE_MARGIN : Z := 15.

(** [str(z)] for an [int]. *)
Definition str_int (z : Z) : string :=
  DecimalString.NilZero.string_of_int (Z.to_int z).

(** A [str] or [None] interpolated in an f-string. *)
Definition str_text (t : pytext) : string := default "None"%string t.

(** [csv.DictReader]: the first row gives the field names; every later
    row that is not blank becomes a dict from field name to field.  A row
    shorter than the header leaves the remaining fields [None]; the
    surplus of a longer row is filed under the key [None], which no lookup
    of the program reaches and which is left out here. *)
Definition DictReader_row (fieldnames row : list string)
  : Dict.t pytext pytext :=
  let d :=
    fold_left (fun d '(k, v) => Dict.set (Some k) (Some v) d)
              (zip fieldnames row) Dict.empty in
  fold_left (fun d k => Dict.set (Some k) None d)
            (drop (length row) fieldnames) d.

Definition is_blank (row : list string) : bool :=
  match row with
  | [] => true
  | _ => false
  end.

Definition DictReader (rows : list (list string))
  : list (Dict.t pytext pytext) :=
  match rows with
  | [] => []
  | fieldnames :: data =>
      map (DictReader_row fieldnames)
          (List.filter (fun row => negb (is_blank row)) data)
  end.

Section Program.

(** The builtins the program relies on and whose definition lies in
    the Python runtime: [int] applied to a [str] ([None] when it raises
    [ValueError]), [str] of a [float], and [strftime]. *)
Variable int_of_str : string -> option Z.
Variable str_float : spec_float -> string.
Variable strftime : datetime -> string -> string.

(** [int(x)] for a CSV field. *)
Definition py_int (x : pytext) : result Z :=
  match x with
  | None => Raise TypeError
  | Some s =>
      match int_of_str s with
      | Some z => Ok z
      | None => Raise ValueError
      end
  end.

(** A number interpolated in an f-string. *)
Definition str_num (x : pynum) : string :=
  match x with
  | PyInt z => str_int z
  | PyFloat f => str_float f
  end.

Definition check_file_exists (filename : string) : M unit :=
  found <- path_exists filename ;;
  if negb found then
    print ("ERROR: " +:+ filename +:+ " not found!") ;;
    raise (SystemExit None)
  else
    print (filename +:+ " found successfully.").

(** The body of the loading loop: one row becomes one record, appended
    to the list. *)
Definition load_row (employees : list employee)
           (row : Dict.t pytext pytext) : result (list employee) :=
  rbind (getitem (Some "Name"%string) row) (fun name =>
  rbind (getitem (Some "Department"%string) row) (fun department =>
  rbind (getitem (Some "Score"%string) row) (fun score_field =>
  rbind (py_int score_field) (fun score =>
  Ok (employees ++ [{| name := name;
                       department := department;
                       score := score |}]))))).

Definition read_csv_data (filename : string) : M (list employee) :=
  rows <- open_csv filename ;;
  employees <- lift (for_each load_row (DictReader rows) []) ;;
  print "CSV data read successfully." ;;
  ret employees.

(** The hooks of class [ReportPDF]; the library calls them for every
    page it starts and ends. *)
Definition ReportPDF_header (doc : pdf) : pdf :=
  doc ++ [set_font "Arial" "B" 14;
          cell 0 10 (Some "Employee Performance Analysis Report"%string)
               0 false "C";
          ln (Some 15)].

Definition ReportPDF_footer (page_no : Z) (doc : pdf) : pdf :=
  doc ++ [set_y (-15);
          set_font "Arial" "" 9;
          cell 0 10 (Some ("Page " +:+ str_int page_no)) 0 false "C"].

Definition add_report_metadata (doc : pdf) : M pdf :=
  let doc := doc ++ [set_font "Arial" "" 11] in
  t <- datetime_now ;;
  let date_str := strftime t "%B %d, %Y" in
  ret (doc ++ [cell 0 8 (Some ("Report Generated On: " +:+ date_str))
                    0 true "";
               ln (Some 5)]).

Definition add_summary_section (doc : pdf) (stats : statistics) : pdf :=
  doc ++ [set_font "Arial" "B" 12;
          cell 0 10 (Some "1. Summary Statistics"%string) 0 true "";
          set_font "Arial" "" 11;
          cell 0 8 (Some ("Total Employees: "
                          +:+ str_int (total_employees stats))) 0 true "";
          cell 0 8 (Some ("Average Score: "
                          +:+ str_num (average_score stats))) 0 true "";
          cell 0 8 (Some ("Highest Score: "
                          +:+ str_int (highest_score stats))) 0 true "";
          cell 0 8 (Some ("Lowest Score: "
                          +:+ str_int (lowest_score stats))) 0 true "";
          ln (Some 5)].

Definition add_department_analysis (doc : pdf)
           (dept_avg : Dict.t pytext pynum) : pdf :=
  let doc :=
    doc ++ [set_font "Arial" "B" 12;
            cell 0 10 (Some "2. Department-wise Performance"%string)
                 0 true "";
            set_font "Arial" "" 11] in
  let doc :=
    fold_left
      (fun doc '(dept, avg) =>
         doc ++ [cell 0 8 (Some (str_text dept +:+ ": Average Score = "
                                 +:+ str_num avg)) 0 true ""])
      (Dict.items dept_avg) doc in
  doc ++ [ln (Some 5)].

Definition add_employee_table (doc : pdf) (employees : list employee) : pdf :=
  let doc :=
    doc ++ [set_font "Arial" "B" 12;
            cell 0 10 (Some "3. Employee-wise Detailed Scores"%string)
                 0 true "";
            set_font "Arial" "B" 11] in
  let col_widths := [60; 60; 30] in
  let headers := ["Name"; "Department"; "Score"]%string in
  let doc :=
    fold_left
      (fun doc i =>
         doc ++ [cell (nth i col_widths 0) 10 (Some (nth i headers ""%string))
                      1 false "C"])
      (seq 0 (length headers)) doc in
  let doc := doc ++ [ln None; set_font "Arial" "" 11] in
  let doc :=
    fold_left
      (fun doc emp =>
         doc ++ [cell 60 10 (name emp) 1 false "";
                 cell 60 10 (department emp) 1 false "";
                 cell 30 10 (Some (str_int (score emp))) 1 false "C";
                 ln None])
      employees doc in
  doc ++ [ln (Some 5)].

Definition add_conclusion (doc : pdf) (stats : statistics) : pdf :=
  doc ++ [set_font "Arial" "B" 12;
          cell 0 10 (Some "4. Conclusion"%string) 0 true "";
          set_font "Arial" "" 11;
          multi_cell 0 8
            ("The overall average performance score of employees is "
             +:+ str_num (average_score stats)
             +:+ ". Continuous monitoring and "
             +:+ "targeted improvements can help increase overall productivity.")].

Definition generate_report : M unit :=
  check_file_exists DATA_FILE ;;
  employees <- read_csv_data DATA_FILE ;;
  stats <- calculate_statistics employees ;;
  dept_avg <- department_wise_average employees ;;
  let doc : pdf := [] in
  let doc := doc ++ [set_auto_page_break true PAGE_MARGIN] in
  let doc := doc ++ [add_page] in
  doc <- add_report_metadata doc ;;
  let doc := add_summary_section doc stats in
  let doc := add_department_analysis doc dept_avg in
  let doc := add_employee_table doc employees in
  let doc := add_conclusion doc stats in
  output doc OUTPUT_FILE ;;
  print "PDF report generated successfully!".

End Program.

(** ** The builtins on ASCII text *)

(** Instances of the runtime's builtins, used to run the program on
    concrete inputs.  [int] follows the grammar of an ASCII decimal
    literal: surrounding whitespace, an optional sign, digits with single
    underscores between them. *)
Module Builtins.

Definition is_space (c : ascii) : bool :=
  let n := nat_of_ascii c in
  ((9 <=? n) && (n <=? 13) || (28 <=? n) && (n <=? 32))%nat.

Definition digit_value (c : ascii) : option Z :=
  let n := nat_of_ascii c in
  if ((48 <=? n) && (n <=? 57))%nat then Some (Z.of_nat n - 48) else None.

Fixpoint lstrip (s : string) : string :=
  match s with
  | String c rest => if is_space c then lstrip rest else s
  | EmptyString => s
  end.

Definition strip (s : string) : string :=
  String.rev (lstrip (String.rev (lstrip s))).

Fixpoint digits (s : string) (acc : Z) (after_digit : bool) : option Z :=
  match s with
  | EmptyString => if after_digit then Some acc else None
  | String c rest =>
      if Ascii.eqb c "_" then
        if after_digit then digits rest acc false else None
      else
        match digit_value c with
        | Some d => digits rest (10 * acc + d) true
        | None => None
        end
  end.

Definition int_of_str (s : string) : option Z :=
  match strip s with
  | String "-" rest => option_map Z.opp (digits rest 0 false)
  | String "+" rest => digits rest 0 false
  | body => digits body 0 false
  end.

Definition two_digits (z : Z) : string :=
  if z <? 10 then "0" +:+ str_int z else str_int z.

Definition month_name (m : Z) : string :=
  nth (Z.to_nat (m - 1))
      ["January"; "February"; "March"; "April"; "May"; "June"; "July";
       "August"; "September"; "October"; "November"; "December"]%string
      ""%string.

(** [strftime] in the C locale for the one format the program uses. *)
Definition strftime (t : datetime) (format : string) : string :=
  if String.eqb format "%B %d, %Y"
  then month_name (month t) +:+ " " +:+ two_digits (day t) +:+ ", "
       +:+ str_int (year t)
  else format.

(** A stand-in for [str] of a float: sign, mantissa and exponent. *)
Definition str_float (f : spec_float) : string :=
  match f with
  | S754_zero s => if s then "-0.0" else "0.0"
  | S754_infinity s => if s then "-inf" else "inf"
  | S754_nan => "nan"
  | S754_finite s m e =>
      (if s then "-" else "") +:+ str_int (Zpos m) +:+ "*2**" +:+ str_int e
  end.

End Builtins.

(** ** The store of Python objects *)

(** [calculate_statistics] and [department_wise_average] receive a
    reference to a list of dicts that their caller goes on using.  The
    store model embeds the two functions over a heap of mutable objects,
    so that what they write, and where, is part of the model. *)
Module Store.

Definition loc : Type := positive.

Inductive value : Type :=
| VNone
| VInt (z : Z)
| VFloat (f : spec_float)
| VStr (s : string)
| VRef (l : loc).

#[global] Instance spec_float_eq_dec : EqDecision spec_float.
Proof. solve_decision. Defined.

#[global] Instance value_eq_dec : EqDecision value.
Proof. solve_decision. Defined.

(** Mutable objects: lists, and dicts in insertion order.  The keys of
    the program's dicts are strings or [None]; they are compared
    structurally. *)
Inductive object : Type :=
| OList (items : list value)
| ODict (items : Dict.t value value).

Record store : Type := {
  objs : gmap loc object;
  out : list string
}.

Definition H : Type -> Type := St store.

Definition print (s : string) : H unit :=
  fun h => (Ok tt, {| objs := objs h; out := out h ++ [s] |}).

(** Allocation of a new object, at an address not in use. *)
Definition alloc (o : object) : H value :=
  fun h =>
    let l := fresh (dom (objs h)) in
    (Ok (VRef l), {| objs := <[l := o]> (objs h); out := out h |}).

Definition load (v : value) : H object :=
  fun h =>
    match v with
    | VRef l =>
        match objs h !! l with
        | Some o => (Ok o, h)
        | None => (Raise TypeError, h)
        end
    | _ => (Raise TypeError, h)
    end.

Definition store_at (l : loc) (o : object) : H unit :=
  fun h => (Ok tt, {| objs := <[l := o]> (objs h); out := out h |}).

(** The items of a list object. *)
Definition list_items (v : value) : H (list value) :=
  o <- load v ;;
  match o with
  | OList items => ret items
  | ODict _ => raise TypeError
  end.

Definition dict_items (v : value) : H (Dict.t value value) :=
  o <- load v ;;
  match o with
  | ODict items => ret items
  | OList _ => raise TypeError
  end.

Definition key_name (k : value) : string :=
  match k with
  | VStr s => s
  | _ => "None"
  end.

(** [d[k]] *)
Definition dict_getitem (d k : value) : H value :=
  items <- dict_items d ;;
  match Dict.get k items with
  | Some v => ret v
  | None => raise (KeyError (key_name k))
  end.

(** [k in d] *)
Definition dict_contains (d k : value) : H bool :=
  items <- dict_items d ;;
  ret (Dict.contains k items).

(** [d[k] = v]: writes the dict object in place. *)
Definition dict_setitem (d k v : value) : H unit :=
  items <- dict_items d ;;
  match d with
  | VRef l => store_at l (ODict (Dict.set k v items))
  | _ => raise TypeError
  end.

(** [lst.append(x)]: writes the list object in place. *)
Definition list_append (lst x : value) : H unit :=
  items <- list_items lst ;;
  match lst with
  | VRef l => store_at l (OList (items ++ [x]))
  | _ => raise TypeError
  end.

(** A [for] loop over a list object.  The list is read again at every
    iteration, as Python's list iterator does; the fuel is the length
    of the list when the loop starts, plus one for the read that finds
    the end. *)
Fixpoint iterate (fuel : nat) (lst : value) (i : nat)
         (body : value -> H unit) : H unit :=
  match fuel with
  | O => ret tt
  | S fuel' =>
      items <- list_items lst ;;
      match items !! i with
      | None => ret tt
      | Some x => body x ;; iterate fuel' lst (S i) body
      end
  end.

Definition for_in (lst : value) (body : value -> H unit) : H unit :=
  items <- list_items lst ;;
  iterate (S (length items)) lst 0%nat body.

(** A loop over values already read, collecting results. *)
Fixpoint collect {A B} (f : A -> H B) (l : list A) : H (list B) :=
  match l with
  | [] => ret []
  | x :: rest => y <- f x ;; ys <- collect f rest ;; ret (y :: ys)
  end.

(** The scores the program computes with are ints. *)
Definition as_int (v : value) : result Z :=
  match v with
  | VInt z => Ok z
  | _ => Raise TypeError
  end.

Fixpoint as_ints (l : list value) : result (list Z) :=
  match l with
  | [] => Ok []
  | v :: rest =>
      rbind (as_int v) (fun z =>
      rbind (as_ints rest) (fun zs => Ok (z :: zs)))
  end.

Definition of_num (x : pynum) : value :=
  match x with
  | PyInt z => VInt z
  | PyFloat f => VFloat f
  end.

(** [round(statistics.mean(scores), 2)] on a list object. *)
Definition rounded_mean_at (scores : value) : H value :=
  items <- list_items scores ;;
  data <- lift (as_ints items) ;;
  average <- lift (rounded_mean data) ;;
  ret (of_num average).

Definition calculate_statistics (employees : value) : H value :=
  emps <- list_items employees ;;
  score_items <- collect (fun emp => dict_getitem emp (VStr "score")) emps ;;
  scores <- alloc (OList score_items) ;;
  total <- (items <- list_items employees ;; ret (VInt (len items))) ;;
  average <- rounded_mean_at scores ;;
  data <- (items <- list_items scores ;; lift (as_ints items)) ;;
  highest <- lift (py_max data) ;;
  lowest <- lift (py_min data) ;;
  stats <- alloc (ODict [(VStr "total_employees", total);
                         (VStr "average_score", average);
                         (VStr "highest_score", VInt highest);
                         (VStr "lowest_score", VInt lowest)]) ;;
  print "Statistics calculated successfully." ;;
  ret stats.

(** The body of the grouping loop. *)
Definition group_score (dept_data emp : value) : H unit :=
  dept <- dict_getitem emp (VStr "department") ;;
  score <- dict_getitem emp (VStr "score") ;;
  present <- dict_contains dept_data dept ;;
  (if negb present
   then (fresh_list <- alloc (OList []) ;;
         dict_setitem dept_data dept fresh_list)
   else ret tt) ;;
  scores <- dict_getitem dept_data dept ;;
  list_append scores score.

(** The body of the averaging loop. *)
Definition average_group (dept_avg : value) (group : value * value)
  : H unit :=
  let '(dept, scores) := group in
  average <- rounded_mean_at scores ;;
  dict_setitem dept_avg dept average.

Definition department_wise_average (employees : value) : H value :=
  dept_data <- alloc (ODict []) ;;
  for_in employees (group_score dept_data) ;;
  dept_avg <- alloc (ODict []) ;;
  groups <- dict_items dept_data ;;
  collect (average_group dept_avg) groups ;;
  print "Department-wise averages calculated." ;;
  ret dept_avg.

(** How the records of the value-level model lie in the store. *)
Definition of_text (t : pytext) : value :=
  match t with
  | Some s => VStr s
  | None => VNone
  end.

Definition employee_object (emp : employee) : object :=
  ODict [(VStr "name", of_text (name emp));
         (VStr "department", of_text (department emp));
         (VStr "score", VInt (score emp))].

End Store.

(** ** Vocabulary of the specification *)

(** [z] is the least element of [l]. *)
Definition is_minimum (z : Z) (l : list Z) : Prop :=
  In z l /\ Forall (fun x => z <= x) l.

(** [z] is the greatest element of [l]. *)
Definition is_maximum (z : Z) (l : list Z) : Prop :=
  In z l /\ Forall (fun x => x <= z) l.

(** The integers every binary64 float represents exactly. *)
Definition safe_score (z : Z) : Prop := - 2 ^ 53 <= z <= 2 ^ 53.

(** The value of a float lies between the integers [lo] and [hi]. *)
Definition between (lo hi : Z) (f : spec_float) : Prop :=
  exists m e, Float.value f = Some (Float.Fin m e)
              /\ lo * Float.pow2 (- e) <= m * Float.pow2 e <= hi * Float.pow2 (- e).

(** A number lies between two integers. *)
Definition num_between (lo hi : Z) (x : pynum) : Prop :=
  match x with
  | PyInt z => lo <= z <= hi
  | PyFloat f => between lo hi f
  end.

(** What [calculate_statistics] returns, as a function of the scores. *)
Definition statistics_of (scores : list Z) : result statistics :=
  rbind (rounded_mean scores) (fun average =>
  rbind (py_max scores) (fun highest =>
  rbind (py_min scores) (fun lowest =>
  Ok {| total_employees := len scores;
        average_score := average;
        highest_score := highest;
        lowest_score := lowest |}))).

(** The distinct elements of a list, in the order of their first
    occurrence. *)
Fixpoint first_seen {K} `{EqDecision K} (l : list K) : list K :=
  match l with
  | [] => []
  | x :: rest =>
      x :: List.filter (fun y => negb (bool_decide (y = x))) (first_seen rest)
  end.

(** The records of a department, and their scores, in input order. *)
Definition records_of (dept : pytext) (employees : list employee)
  : list employee :=
  List.filter (fun emp => bool_decide (department emp = dept)) employees.

Definition scores_of (dept : pytext) (employees : list employee) : list Z :=
  map score (records_of dept employees).

(** The groups the first loop builds. *)
Definition grouped (employees : list employee) : Dict.t pytext (list Z) :=
  map (fun dept => (dept, scores_of dept employees))
      (first_seen (map department employees)).

(** A map over a list that stops at the first exception. *)
Fixpoint traverse {A B} (f : A -> result B) (l : list A) : result (list B) :=
  match l with
  | [] => Ok []
  | x :: rest =>
      rbind (f x) (fun y => rbind (traverse f rest) (fun ys => Ok (y :: ys)))
  end.

(** The averages the second loop builds. *)
Definition averaged (employees : list employee)
  : result (Dict.t pytext pynum) :=
  traverse (fun dept =>
              rbind (rounded_mean (scores_of dept employees)) (fun avg =>
              Ok (dept, avg)))
           (first_seen (map department employees)).

(** [d1 == d2] for dicts of numbers: the same keys, with equal values. *)
Definition dict_eq (d1 d2 : Dict.t pytext pynum) : bool :=
  (length d1 =? length d2)%nat
  && forallb (fun '(k, v) =>
                match Dict.get k d2 with
                | Some v' => py_eq v v'
                | None => false
                end) d1.

(** [s1 == s2] for the statistics dict. *)
Definition statistics_eq (s1 s2 : statistics) : bool :=
  (total_employees s1 =? total_employees s2)
  && py_eq (average_score s1) (average_score s2)
  && (highest_score s1 =? highest_score s2)
  && (lowest_score s1 =? lowest_score s2).

(** ** Sample inputs *)

Definition epoch : datetime :=
  {| year := 1970; month := 1; day := 1;
     hour := 0; minute := 0; second := 0; microsecond := 0 |}.

Definition empty_world : world := {| fs := ∅; stdout := []; now := epoch |}.

Definition record (n d : string) (s : Z) : employee :=
  {| name := Some n; department := Some d; score := s |}.

Definition sample_records : list employee :=
  [record "Ann" "A" 80; record "Bob" "A" 90; record "Cy" "B" 70].

Definition wide_records : list employee :=
  [record "Ann" "A" (2 ^ 54 + 1); record "Bob" "A" (2 ^ 54 + 2)].


(** ** Vocabulary of the loader and the controller *)

Definition required_columns : list string := ["Name"; "Department"; "Score"]%string.

(** The header of the input: the field names [csv.DictReader] takes from
    the first row. *)
Definition header (rows : list (list string)) : list string := hd [] rows.

(** The exceptions by which a malformed record shows: a column that is
    not there, a field left unset, a score that is not a number. *)
Definition malformed_record (e : exn) : Prop :=
  (exists column, In column required_columns /\ e = KeyError column)
  \/ e = TypeError \/ e = ValueError.

Section Vocabulary.
Variable int_of_str : string -> option Z.

(** The row has a [Score] field and [int] raises on it. *)
Definition unparsable_score (row : Dict.t pytext pytext) : Prop :=
  exists field e,
    Dict.get (Some "Score"%string) row = Some field
    /\ py_int int_of_str field = Raise e.

(** The input has a data row whose score does not parse, or it has
    data rows and its header lacks a required column. *)
Definition malformed_input (rows : list (list string)) : Prop :=
  (exists row, In row (DictReader rows) /\ unparsable_score row)
  \/ (DictReader rows <> []
      /\ exists column, In column required_columns /\ ~ In column (header rows)).
End Vocabulary.

Definition with_file (path : string) (f : file) (w : world) : world :=
  {| fs := <[path := f]> (fs w); stdout := stdout w; now := now w |}.

Definition printed (s : string) (w : world) : world :=
  {| fs := fs w; stdout := stdout w ++ [s]; now := now w |}.

Definition bad_score_world : world :=
  with_file DATA_FILE
    (TextFile [["Name"; "Department"; "Score"]; ["Ann"; "A"; "eighty"]]%string)
    empty_world.

Definition header_only_world : world :=
  with_file DATA_FILE (TextFile [["Name"; "Department"]]%string) empty_world.

Definition sample_world : world :=
  with_file DATA_FILE
    (TextFile [["Name"; "Department"; "Score"];
               ["Ann"; "A"; "80"]; ["Bob"; "A"; "90"]; ["Cy"; "B"; "70"]]%string)
    empty_world.

Definition next_day : datetime :=
  {| year := 1970; month := 1; day := 2;
     hour := 0; minute := 0; second := 0; microsecond := 0 |}.

(** The world at another time of day. *)
Definition at_time (t : datetime) (w : world) : world :=
  {| fs := fs w; stdout := stdout w; now := t |}.

(** The line of the document that carries the generation date. *)
Definition date_line (date_str : string) : pdf_op :=
  cell 0 8 (Some ("Report Generated On: " +:+ date_str)) 0 true "".

(** A stage that neither reads the clock nor writes a file. *)
Definition clock_blind {A} (c : M A) : Prop :=
  forall w,
    fs (snd (c w)) = fs w
    /\ now (snd (c w)) = now w
    /\ forall t, c (at_time t w) = (fst (c w), at_time t (snd (c w))).

Section Stages.
Variable int_of_str : string -> option Z.
Variable str_float : spec_float -> string.

(** The stages of the controller up to the rendering. *)
Definition analysis : M (list employee * statistics * Dict.t pytext pynum) :=
  check_file_exists DATA_FILE ;;
  employees <- read_csv_data int_of_str DATA_FILE ;;
  stats <- calculate_statistics employees ;;
  dept_avg <- department_wise_average employees ;;
  ret (employees, stats, dept_avg).

(** What the renderer appends after the date line. *)
Definition report_tail (employees : list employee) (stats : statistics)
           (dept_avg : Dict.t pytext pynum) : pdf :=
  add_conclusion str_float
    (add_employee_table
       (add_department_analysis str_float
          (add_summary_section str_float [ln (Some 5)] stats) dept_avg)
       employees)
    stats.
End Stages.

(** ** Vocabulary of the store *)

Module StoreSpec.
Import Store.

(** [keeps m0 P c Q]: run from a store that still holds every object of
    [m0] as it was and satisfies [P], the computation [c] ends in a
    store that still holds every object of [m0] as it was, and that
    satisfies [Q] when [c] returns. *)
Definition keeps {A} (m0 : gmap loc object) (P : gmap loc object -> Prop)
           (c : H A) (Q : A -> gmap loc object -> Prop) : Prop :=
  forall h,
    m0 ⊆ objs h -> P (objs h) ->
    m0 ⊆ objs (snd (c h))
    /\ forall a, fst (c h) = Ok a -> Q a (objs (snd (c h))).

(** The dict at [dd] was allocated after [m0] was taken, and so was
    every list it refers to. *)
Definition groups_fresh (m0 : gmap loc object) (dd : loc)
           (m : gmap loc object) : Prop :=
  exists items,
    m !! dd = Some (ODict items)
    /\ forall k v, Dict.get k items = Some v ->
                   exists l, v = VRef l /\ m0 !! l = None.

(** The list object at [l] holds references to dict objects that are the
    records [employees], in order. *)
Definition holds_records (m : gmap loc object) (l : loc)
           (employees : list employee) : Prop :=
  exists locs,
    m !! l = Some (OList (map VRef locs))
    /\ Forall2 (fun r emp => m !! r = Some (employee_object emp)) locs employees.

(** The dict object [calculate_statistics] returns. *)
Definition statistics_object (stats : statistics) : object :=
  ODict [(VStr "total_employees", VInt (total_employees stats));
         (VStr "average_score", of_num (average_score stats));
         (VStr "highest_score", VInt (highest_score stats));
         (VStr "lowest_score", VInt (lowest_score stats))].

(** The dict object of an index from departments to addresses. *)
Definition dict_of (idx : Dict.t pytext loc) : Dict.t value value :=
  map (fun '(dept, r) => (of_text dept, VRef r)) idx.

(** The dict object [department_wise_average] returns. *)
Definition averages_object (dept_avg : Dict.t pytext pynum) : object :=
  ODict (map (fun '(dept, avg) => (of_text dept, of_num avg)) dept_avg).

(** The state of the grouping loop after the records [done]: the dict at
    [dd] maps every department seen to a list object that holds the
    scores of the department so far; these objects are the call's own. *)
Definition groups_at (m0 : gmap loc object) (dd : loc)
           (done : list employee) (idx : Dict.t pytext loc)
           (m : gmap loc object) : Prop :=
  m0 ⊆ m
  /\ m0 !! dd = None
  /\ m !! dd = Some (ODict (dict_of idx))
  /\ Dict.keys idx = first_seen (map department done)
  /\ NoDup (map snd idx)
  /\ forall dept r, (dept, r) ∈ idx ->
       m0 !! r = None
       /\ m !! r = Some (OList (map VInt (scores_of dept done))).

(** The sample records in a store: the list at address 1, its records
    at addresses 2 to 4. *)
Definition sample_store : store :=
  {| objs :=
       <[1%positive := OList [VRef 2%positive; VRef 3%positive; VRef 4%positive]]>
       (<[2%positive := employee_object (record "Ann" "A" 80)]>
       (<[3%positive := employee_object (record "Bob" "A" 90)]>
       (<[4%positive := employee_object (record "Cy" "B" 70)]> ∅)));
     out := [] |}.
End StoreSpec.

(** ** Vocabulary of the further properties *)

(** Two records whose scores have a mean too large for a float. *)
Definition overflow_records : list employee :=
  [record "Ann" "A" (2 ^ 1100); record "Bob" "A" (2 ^ 1100 + 1)].

(** The record that a data row stands for, given the positions of the
    three columns in the header. *)
Definition row_record (int_of_str : string -> option Z) (iN iD iS : nat)
           (row : list string) (emp : employee) : Prop :=
  name emp = row !! iN
  /\ department emp = row !! iD
  /\ exists s, row !! iS = Some s /\ int_of_str s = Some (score emp).

(** The data rows [csv.DictReader] does not skip. *)
Definition data_rows (data : list (list string)) : list (list string) :=
  List.filter (fun row => negb (is_blank row)) data.

(** A data file that holds the header and a blank line. *)
Definition empty_table_world : world :=
  with_file DATA_FILE (TextFile [["Name"; "Department"; "Score"]; []]%string)
            empty_world.

(** The diagnostics of a run that succeeds, in the order printed. *)
Definition success_messages : list string :=
  ["data.csv found successfully.";
   "CSV data read successfully.";
   "Statistics calculated successfully.";
   "Department-wise averages calculated.";
   "PDF report generated successfully!"]%string.

(** The calls that open the employee table: heading and header row. *)
Definition table_heading : pdf :=
  [set_font "Arial" "B" 12;
   cell 0 10 (Some "3. Employee-wise Detailed Scores"%string) 0 true "";
   set_font "Arial" "B" 11;
   cell 60 10 (Some "Name"%string) 1 false "C";
   cell 60 10 (Some "Department"%string) 1 false "C";
   cell 30 10 (Some "Score"%string) 1 false "C";
   ln None;
   set_font "Arial" "" 11].

(** The calls that draw the table row of one record. *)
Definition table_row (emp : employee) : pdf :=
  [cell 60 10 (name emp) 1 false "";
   cell 60 10 (department emp) 1 false "";
   cell 30 10 (Some (str_int (score emp))) 1 false "C";
   ln None].

(** The calls that open the department section. *)
Definition department_heading : pdf :=
  [set_font "Arial" "B" 12;
   cell 0 10 (Some "2. Department-wise Performance"%string) 0 true "";
   set_font "Arial" "" 11].

(** The world after a run on the sample input, a day later: the first
    report is in the file system, the diagnostics are on the output. *)
Definition rerun_world : world :=
  at_time next_day
    (snd (generate_report Builtins.int_of_str Builtins.str_float
            Builtins.strftime sample_world)).

(* ================================================================== *)
(** * Part II. Properties                                              *)
(* ================================================================== *)


(** ** Rounding to binary64 *)

Module FloatFacts.
Import Float.

Lemma pow2_pos k : 0 < pow2 k.
Proof. unfold pow2. apply Z.pow_pos_nonneg; lia. Qed.

Lemma pow2_nonpos k : k <= 0 -> pow2 k = 1.
Proof. intros Hk. unfold pow2. now replace (Z.max 0 k) with 0 by lia. Qed.

Lemma pow2_nonneg k : 0 <= k -> pow2 k = 2 ^ k.
Proof. intros Hk. unfold pow2. now replace (Z.max 0 k) with k by lia. Qed.

Lemma pow2_succ k : 0 <= k -> pow2 (k + 1) = 2 * pow2 k.
Proof.
  intros Hk. rewrite !pow2_nonneg by lia.
  rewrite Z.pow_add_r by lia. lia.
Qed.

Lemma pow2_add j k : 0 <= j -> 0 <= k -> pow2 (j + k) = pow2 j * pow2 k.
Proof.
  intros Hj Hk. rewrite !pow2_nonneg by lia. now apply Z.pow_add_r.
Qed.

(** [div_half_even a b] lies between the floor and the ceiling of
    [a / b]. *)
Lemma div_half_even_lower a b z :
  0 < b -> z * b <= a -> z <= div_half_even a b.
Proof.
  intros Hb Hz. unfold div_half_even.
  assert (z <= a / b) by (apply Z.div_le_lower_bound; lia).
  destruct (2 * (a mod b) ?= b); [destruct (Z.even (a / b))|..]; lia.
Qed.

Lemma div_half_even_upper a b w :
  0 < b -> a <= w * b -> div_half_even a b <= w.
Proof.
  intros Hb Hw. unfold div_half_even.
  pose proof (Z.div_mod a b ltac:(lia)) as Hdm.
  pose proof (Z.mod_pos_bound a b Hb) as Hr.
  destruct (Z.eq_dec (a mod b) 0) as [H0 | H0].
  - rewrite H0. replace (2 * 0 ?= b) with Lt by (symmetry; apply Z.compare_lt_iff; lia).
    nia.
  - assert (a / b < w) by nia.
    destruct (2 * (a mod b) ?= b); [destruct (Z.even (a / b))|..]; lia.
Qed.

Lemma div_half_even_nonneg a b : 0 <= a -> 0 < b -> 0 <= div_half_even a b.
Proof. intros Ha Hb. apply div_half_even_lower; lia. Qed.

(** The exponent found by [ilog2_ratio] is not above the ratio. *)
Lemma ilog2_ratio_lower a b :
  0 < a -> 0 < b ->
  b * pow2 (ilog2_ratio a b) <= a * pow2 (- ilog2_ratio a b).
Proof.
  intros Ha Hb. unfold ilog2_ratio.
  set (d := Z.log2 a - Z.log2 b).
  destruct (Z.leb_spec (b * pow2 d) (a * pow2 (- d))) as [Hle | Hgt]; [exact Hle|].
  pose proof (Z.log2_spec a Ha) as [Ha1 Ha2].
  pose proof (Z.log2_spec b Hb) as [Hb1 Hb2].
  pose proof (Z.log2_nonneg a) as Hla.
  pose proof (Z.log2_nonneg b) as Hlb.
  destruct (Z_le_gt_dec 1 d) as [Hd | Hd].
  - (* a's exponent is above b's: compare [b * 2^(d-1)] with [a] *)
    rewrite (pow2_nonneg (d - 1)) by lia.
    rewrite (pow2_nonpos (- (d - 1))) by lia.
    assert (Hs : 2 ^ Z.log2 a = 2 ^ (d - 1) * 2 ^ (Z.log2 b + 1)).
    { rewrite <- Z.pow_add_r by lia. f_equal. unfold d. lia. }
    assert (0 < 2 ^ (d - 1)) by (apply Z.pow_pos_nonneg; lia).
    nia.
  - rewrite (pow2_nonpos (d - 1)) by lia.
    rewrite (pow2_nonneg (- (d - 1))) by lia.
    assert (Hs : 2 ^ (Z.log2 b + 1) = 2 ^ (- (d - 1)) * 2 ^ Z.log2 a).
    { rewrite <- Z.pow_add_r by lia. f_equal. unfold d. lia. }
    assert (0 < 2 ^ (- (d - 1))) by (apply Z.pow_pos_nonneg; lia).
    nia.
Qed.

(** Moving the mantissa [2^53] to the next exponent keeps the value. *)
Lemma renorm_lower z m u :
  z * pow2 (- u) <= 2 * m * pow2 u ->
  z * pow2 (- (u + 1)) <= m * pow2 (u + 1).
Proof.
  intros H. destruct (Z_le_gt_dec 0 u) as [Hu | Hu].
  - rewrite pow2_succ by lia.
    rewrite (pow2_nonpos (- (u + 1))) by lia.
    rewrite (pow2_nonpos (- u)) in H by lia. lia.
  - rewrite (pow2_nonpos (u + 1)) by lia.
    rewrite (pow2_nonpos u) in H by lia.
    replace (- u) with (- (u + 1) + 1) in H by lia.
    rewrite pow2_succ in H by lia. lia.
Qed.

Lemma renorm_upper w m u :
  2 * m * pow2 u <= w * pow2 (- u) ->
  m * pow2 (u + 1) <= w * pow2 (- (u + 1)).
Proof.
  intros H. destruct (Z_le_gt_dec 0 u) as [Hu | Hu].
  - rewrite pow2_succ by lia.
    rewrite (pow2_nonpos (- (u + 1))) by lia.
    rewrite (pow2_nonpos (- u)) in H by lia. lia.
  - rewrite (pow2_nonpos (u + 1)) by lia.
    rewrite (pow2_nonpos u) in H by lia.
    replace (- u) with (- (u + 1) + 1) in H by lia.
    rewrite pow2_succ in H by lia. lia.
Qed.

Lemma emin_value : emin prec emax = -1074.
Proof. reflexivity. Qed.

(** An integer of at most 53 bits that is not above [a / b] is not above
    the float nearest to [a / b]. *)
Lemma round_mag_lower a b z :
  0 < a -> 0 < b -> 0 <= z <= 2 ^ 53 -> z * b <= a ->
  z * pow2 (- snd (round_mag a b)) <= fst (round_mag a b) * pow2 (snd (round_mag a b)).
Proof.
  intros Ha Hb Hz Hza. unfold round_mag.
  pose proof (ilog2_ratio_lower a b Ha Hb) as He.
  set (e := ilog2_ratio a b) in *.
  set (u := Z.max (e - (prec - 1)) (emin prec emax)).
  set (m := div_half_even (a * pow2 (- u)) (b * pow2 u)).
  assert (Hm : z * pow2 (- u) <= m * pow2 u).
  { subst m. destruct (Z_le_gt_dec u 0) as [Hu | Hu].
    - rewrite (pow2_nonpos u) by lia. rewrite !Z.mul_1_r.
      pose proof (pow2_pos (- u)).
      apply div_half_even_lower; nia.
    - assert (Hue : e = u + 52) by (subst u; rewrite emin_value in *; unfold prec in *; lia).
      rewrite (pow2_nonpos (- u)) by lia. rewrite !Z.mul_1_r.
      rewrite (pow2_nonneg u) by lia.
      rewrite (pow2_nonneg e), (pow2_nonpos (- e)) in He by lia.
      rewrite Hue, Z.pow_add_r in He by lia.
      assert (0 < 2 ^ u) by (apply Z.pow_pos_nonneg; lia).
      assert (2 ^ 1 <= 2 ^ u) by (apply Z.pow_le_mono_r; lia).
      assert (2 ^ 52 <= div_half_even a (b * 2 ^ u))
        by (apply div_half_even_lower; nia).
      change (2 ^ 53) with (2 ^ 52 * 2 ^ 1) in Hz. nia. }
  destruct (Z.eqb_spec m (2 ^ prec)) as [Hn | Hn]; cbn [fst snd]; [|exact Hm].
  apply renorm_lower. rewrite Hn in Hm.
  change (2 * 2 ^ (prec - 1)) with (2 ^ prec). exact Hm.
Qed.

(** An integer of at most 53 bits that is not below [a / b] is not below
    the float nearest to [a / b], which is therefore finite. *)
Lemma round_mag_upper a b w :
  0 < a -> 0 < b -> 0 <= w <= 2 ^ 53 -> a <= w * b ->
  fst (round_mag a b) * pow2 (snd (round_mag a b)) <= w * pow2 (- snd (round_mag a b))
  /\ snd (round_mag a b) <= 2.
Proof.
  intros Ha Hb Hw Haw. unfold round_mag.
  pose proof (ilog2_ratio_lower a b Ha Hb) as He.
  set (e := ilog2_ratio a b) in *.
  set (u := Z.max (e - (prec - 1)) (emin prec emax)).
  set (m := div_half_even (a * pow2 (- u)) (b * pow2 u)).
  assert (Hm : m * pow2 u <= w * pow2 (- u) /\ u <= 1).
  { subst m. destruct (Z_le_gt_dec u 0) as [Hu | Hu].
    - split; [|lia].
      rewrite (pow2_nonpos u) by lia. rewrite !Z.mul_1_r.
      pose proof (pow2_pos (- u)).
      apply div_half_even_upper; nia.
    - assert (Hue : e = u + 52) by (subst u; rewrite emin_value in *; unfold prec in *; lia).
      rewrite (pow2_nonpos (- u)) by lia. rewrite !Z.mul_1_r.
      rewrite (pow2_nonneg u) by lia.
      rewrite (pow2_nonneg e), (pow2_nonpos (- e)) in He by lia.
      assert (Hu1 : u <= 1).
      { destruct (Z_le_gt_dec u 1) as [|Hu2]; [assumption|exfalso].
        assert (2 ^ 54 <= 2 ^ e) by (apply Z.pow_le_mono_r; lia).
        change (2 ^ 54) with (2 * 2 ^ 53) in *. nia. }
      assert (u = 1) by lia. subst u. split; [|lia].
      replace e with 53 in He by lia.
      match goal with H : _ = 1 |- _ => rewrite H end.
      change (2 ^ 1) with 2.
      assert (div_half_even a (b * 2) <= 2 ^ 52).
      { apply div_half_even_upper; [lia|]. change (2 ^ 53) with (2 ^ 52 * 2) in *. nia. }
      change (2 ^ 53) with (2 ^ 52 * 2) in *. nia. }
  destruct Hm as [Hm Hu].
  destruct (Z.eqb_spec m (2 ^ prec)) as [Hn | Hn]; cbn [fst snd]; [|split; [exact Hm | lia]].
  split; [|lia].
  apply renorm_upper. rewrite Hn in Hm.
  change (2 * 2 ^ (prec - 1)) with (2 ^ prec). exact Hm.
Qed.

Lemma round_mag_nonneg a b : 0 <= a -> 0 < b -> 0 <= fst (round_mag a b).
Proof.
  intros Ha Hb. unfold round_mag.
  set (u := Z.max (ilog2_ratio a b - (prec - 1)) (emin prec emax)).
  set (m := div_half_even (a * pow2 (- u)) (b * pow2 u)).
  assert (0 <= m).
  { pose proof (pow2_pos u). pose proof (pow2_pos (- u)).
    apply div_half_even_nonneg; nia. }
  destruct (Z.eqb_spec m (2 ^ prec)); cbn [fst]; [unfold prec|]; lia.
Qed.

(** Correct rounding keeps a rational between two integers of at most 53
    bits between them: such integers are floats themselves. *)
Lemma round_binary64_between s a b lo hi :
  0 <= a -> 0 < b -> - 2 ^ 53 <= lo -> hi <= 2 ^ 53 ->
  lo * b <= cond_Zopp s a <= hi * b ->
  between lo hi (round_binary64 s a b).
Proof.
  intros Ha Hb Hlo Hhi Hab. unfold round_binary64, between.
  destruct (Z.eqb_spec a 0) as [-> | Hne].
  { exists 0, 0. split; [reflexivity|].
    rewrite !pow2_nonpos by lia.
    destruct s; cbn [cond_Zopp] in Hab; nia. }
  assert (Hpos : 0 < a) by lia.
  pose proof (round_mag_nonneg a b Ha Hb) as Hm0.
  destruct (round_mag a b) as [m u] eqn:Hr.
  assert (Hbounds : lo * pow2 (- u) <= cond_Zopp s m * pow2 u <= hi * pow2 (- u)
                    /\ u <= 2).
  { pose proof (pow2_pos u). pose proof (pow2_pos (- u)).
    cbn [fst] in Hm0.
    destruct s; cbn [cond_Zopp] in *.
    - assert (Hw : 0 <= - lo <= 2 ^ 53) by nia.
      assert (Haw : a <= - lo * b) by nia.
      destruct (round_mag_upper a b (- lo) Hpos Hb Hw Haw) as [Hu1 Hu2].
      rewrite Hr in Hu1, Hu2. cbn [fst snd] in Hu1, Hu2.
      split; [split; [nia|] | exact Hu2].
      destruct (Z_le_gt_dec 0 hi); [nia|].
      assert (Hz : 0 <= - hi <= 2 ^ 53) by nia.
      assert (Hza : - hi * b <= a) by nia.
      pose proof (round_mag_lower a b (- hi) Hpos Hb Hz Hza) as Hl.
      rewrite Hr in Hl. cbn [fst snd] in Hl. nia.
    - assert (Hw : 0 <= hi <= 2 ^ 53) by nia.
      assert (Haw : a <= hi * b) by nia.
      destruct (round_mag_upper a b hi Hpos Hb Hw Haw) as [Hu1 Hu2].
      rewrite Hr in Hu1, Hu2. cbn [fst snd] in Hu1, Hu2.
      split; [split; [|nia] | exact Hu2].
      destruct (Z_le_gt_dec lo 0); [nia|].
      pose proof (round_mag_lower a b lo Hpos Hb) as Hl.
      rewrite Hr in Hl. cbn [fst snd] in Hl. nia. }
  destruct Hbounds as [Hb1 Hu]. cbn [fst] in Hm0.
  destruct m as [|p|p]; [| |lia].
  - exists 0, 0. split; [reflexivity|].
    rewrite !pow2_nonpos by lia.
    pose proof (pow2_pos (- u)). destruct s; cbn [cond_Zopp] in Hb1; nia.
  - replace (u <=? emax - prec) with true
      by (symmetry; apply Z.leb_le; unfold emax, prec; lia).
    exists (cond_Zopp s (Zpos p)), u. split; [reflexivity | exact Hb1].
Qed.

(** [float.__round__] keeps the float between the same integers. *)
Lemma round_between f ndigits lo hi :
  - 2 ^ 53 <= lo -> hi <= 2 ^ 53 ->
  between lo hi f -> between lo hi (round f ndigits).
Proof.
  intros Hlo Hhi (m & e & Hv & Hb). destruct f as [s0| |  |s p e']; cbn in Hv; try discriminate.
  { exists m, e. split; [exact Hv | exact Hb]. }
  { destruct s; discriminate. }
  injection Hv as <- <-. cbn [round].
  set (p10 := 10 ^ Z.of_nat ndigits).
  assert (Hp10 : 0 < p10) by (apply Z.pow_pos_nonneg; lia).
  pose proof (pow2_pos e'). pose proof (pow2_pos (- e')).
  apply round_binary64_between; [|assumption..|].
  - apply div_half_even_nonneg; nia.
  - destruct s; cbn [cond_Zopp] in *.
    + split.
      * enough (div_half_even (Z.pos p * pow2 e' * p10) (pow2 (- e')) <= - lo * p10) by lia.
        apply div_half_even_upper; nia.
      * enough (- hi * p10 <= div_half_even (Z.pos p * pow2 e' * p10) (pow2 (- e'))) by lia.
        apply div_half_even_lower; nia.
    + split.
      * apply div_half_even_lower; nia.
      * apply div_half_even_upper; nia.
Qed.

Lemma int_true_div_between num den lo hi :
  0 < den -> - 2 ^ 53 <= lo -> hi <= 2 ^ 53 ->
  lo * den <= num <= hi * den ->
  exists f, int_true_div num den = Ok f /\ between lo hi f.
Proof.
  intros Hden Hlo Hhi Hb. unfold int_true_div.
  destruct (Z.eqb_spec den 0); [lia|].
  replace (den <? 0) with false by (symmetry; apply Z.ltb_ge; lia).
  rewrite xorb_false_r, (Z.abs_eq den) by lia.
  assert (Hbt : between lo hi (round_binary64 (num <? 0) (Z.abs num) den)).
  { apply round_binary64_between; try assumption; [lia|].
    destruct (Z.ltb_spec num 0); cbn [cond_Zopp]; lia. }
  destruct (round_binary64 (num <? 0) (Z.abs num) den) as [s| s| |s p e] eqn:Hf;
    try (eexists; split; [reflexivity | exact Hbt]).
  destruct Hbt as (m & e & Hv & _). cbn in Hv. destruct s; discriminate.
Qed.
End FloatFacts.

Import FloatFacts.

(** ** Sums, minima and maxima *)

Lemma fold_add_shift (l : list Z) (a : Z) :
  fold_left Z.add l a = a + fold_left Z.add l 0.
Proof.
  revert a. induction l as [|x l IH]; intros a; cbn; [lia|].
  rewrite (IH (a + x)), (IH (0 + x)). lia.
Qed.

Lemma py_sum_cons x l : py_sum (x :: l) = x + py_sum l.
Proof. unfold py_sum. cbn. apply fold_add_shift. Qed.

Lemma py_sum_bounds lo hi (l : list Z) :
  Forall (fun x => lo <= x <= hi) l ->
  lo * len l <= py_sum l <= hi * len l.
Proof.
  unfold len. induction 1 as [|x l Hx _ IH]; [cbn; lia|].
  rewrite py_sum_cons. cbn [length]. lia.
Qed.

Lemma fold_min_spec (l : list Z) (a : Z) :
  (fold_left Z.min l a = a \/ In (fold_left Z.min l a) l)
  /\ fold_left Z.min l a <= a
  /\ Forall (fun x => fold_left Z.min l a <= x) l.
Proof.
  revert a. induction l as [|x l IH]; intros a; cbn.
  - repeat split; [now left | lia | constructor].
  - destruct (IH (Z.min a x)) as (Hin & Hle & Hall). repeat split.
    + destruct Hin as [Heq | Hin]; [|now right; right].
      rewrite Heq. destruct (Z.min_spec a x) as [[_ ->] | [_ ->]]; auto.
    + lia.
    + constructor; [lia | exact Hall].
Qed.

Lemma fold_max_spec (l : list Z) (a : Z) :
  (fold_left Z.max l a = a \/ In (fold_left Z.max l a) l)
  /\ a <= fold_left Z.max l a
  /\ Forall (fun x => x <= fold_left Z.max l a) l.
Proof.
  revert a. induction l as [|x l IH]; intros a; cbn.
  - repeat split; [now left | lia | constructor].
  - destruct (IH (Z.max a x)) as (Hin & Hle & Hall). repeat split.
    + destruct Hin as [Heq | Hin]; [|now right; right].
      rewrite Heq. destruct (Z.max_spec a x) as [[_ ->] | [_ ->]]; auto.
    + lia.
    + constructor; [lia | exact Hall].
Qed.

Lemma py_min_spec (l : list Z) :
  l <> [] -> exists z, py_min l = Ok z /\ is_minimum z l.
Proof.
  destruct l as [|x l]; [congruence|]. intros _.
  exists (fold_left Z.min l x). split; [reflexivity|].
  destruct (fold_min_spec l x) as (Hin & Hle & Hall). split.
  - destruct Hin as [-> | Hin]; [now left | now right].
  - constructor; assumption.
Qed.

Lemma py_max_spec (l : list Z) :
  l <> [] -> exists z, py_max l = Ok z /\ is_maximum z l.
Proof.
  destruct l as [|x l]; [congruence|]. intros _.
  exists (fold_left Z.max l x). split; [reflexivity|].
  destruct (fold_max_spec l x) as (Hin & Hle & Hall). split.
  - destruct Hin as [-> | Hin]; [now left | now right].
  - constructor; assumption.
Qed.

(** ** The mean *)

Lemma len_pos {A} (l : list A) : l <> [] -> 0 < len l.
Proof. destruct l; [congruence|]. unfold len. cbn [length]. lia. Qed.

(** A fraction in lowest terms has the bounds of the fraction. *)
Lemma Fraction_spec n d :
  0 < d ->
  let '(num, den) := Fraction n d in
  0 < den /\ forall z, (z * d <= n <-> z * den <= num) /\ (n <= z * d <-> num <= z * den).
Proof.
  intros Hd. unfold Fraction.
  pose proof (Z.gcd_nonneg n d) as Hg0.
  assert (Hg : 0 < Z.gcd n d).
  { destruct (Z.eq_dec (Z.gcd n d) 0) as [H0|]; [|lia].
    apply Z.gcd_eq_0_r in H0. lia. }
  destruct (Z.gcd_divide_l n d) as [n' Hn'].
  destruct (Z.gcd_divide_r n d) as [d' Hd'].
  set (g := Z.gcd n d) in *.
  assert (Hq1 : n / g = n') by (rewrite Hn'; apply Z.div_mul; lia).
  assert (Hq2 : d / g = d') by (rewrite Hd'; apply Z.div_mul; lia).
  rewrite Hq1, Hq2. split; [nia|].
  intros z. rewrite Hn', Hd'. split; split; intros; nia.
Qed.

Lemma num_between_le lo hi x :
  num_between lo hi x ->
  py_le (PyInt lo) x = true /\ py_le x (PyInt hi) = true.
Proof.
  destruct x as [z | f]; cbn.
  - intros H. unfold py_le. cbn. rewrite !pow2_nonpos by lia.
    split; apply Z.leb_le; lia.
  - intros (m & e & Hv & Hb). unfold py_le. cbn. rewrite Hv. cbn.
    rewrite !Z.sub_0_l, !Z.sub_0_r. split; apply Z.leb_le; lia.
Qed.

Lemma mean_between (data : list Z) lo hi :
  data <> [] -> - 2 ^ 53 <= lo -> hi <= 2 ^ 53 ->
  Forall (fun x => lo <= x <= hi) data ->
  exists m, mean data = Ok m /\ num_between lo hi m.
Proof.
  intros Hne Hlo Hhi Hall. unfold mean.
  pose proof (len_pos data Hne) as Hn.
  pose proof (py_sum_bounds lo hi data Hall) as Hsum.
  destruct (Z.ltb_spec (len data) 1); [lia|].
  pose proof (Fraction_spec (py_sum data) (len data) Hn) as HF.
  destruct (Fraction (py_sum data) (len data)) as [num den].
  destruct HF as [Hden HF].
  assert (Hb : lo * den <= num <= hi * den).
  { split; [apply (HF lo) | apply (HF hi)]; lia. }
  destruct (Z.eqb_spec den 1) as [-> | Hd1].
  - exists (PyInt num). split; [reflexivity|]. cbn. lia.
  - destruct (int_true_div_between num den lo hi Hden Hlo Hhi Hb) as (f & -> & Hf).
    exists (PyFloat f). split; [reflexivity | exact Hf].
Qed.

Lemma py_round_between x ndigits lo hi :
  - 2 ^ 53 <= lo -> hi <= 2 ^ 53 ->
  num_between lo hi x -> num_between lo hi (py_round x ndigits).
Proof.
  intros Hlo Hhi. destruct x as [z | f]; cbn; [auto|].
  now apply round_between.
Qed.

(** The mean of a non-empty list fails only by overflow. *)
Lemma mean_raise (data : list Z) e :
  data <> [] -> mean data = Raise e -> e = OverflowError.
Proof.
  intros Hne. unfold mean.
  pose proof (len_pos data Hne) as Hn.
  destruct (Z.ltb_spec (len data) 1); [lia|].
  pose proof (Fraction_spec (py_sum data) (len data) Hn) as HF.
  destruct (Fraction (py_sum data) (len data)) as [num den].
  destruct HF as [Hden _].
  destruct (den =? 1); [discriminate|].
  unfold Float.int_true_div.
  destruct (Z.eqb_spec den 0); [lia|].
  destruct (Float.round_binary64 _ _ _); cbn; congruence.
Qed.

Lemma mean_nil : mean [] = Raise StatisticsError.
Proof. reflexivity. Qed.

(** ** [calculate_statistics] *)

Lemma calculate_statistics_result employees w :
  fst (calculate_statistics employees w) = statistics_of (map score employees).
Proof.
  unfold calculate_statistics, statistics_of, bind, lift, ret, print, len.
  rewrite length_map.
  destruct (rounded_mean (map score employees)); cbn; [|reflexivity].
  destruct (py_max (map score employees)); cbn; [|reflexivity].
  destruct (py_min (map score employees)); cbn; reflexivity.
Qed.

(** C1, as amended.  For every non-empty list of records whose scores lie
    within [-2^53, 2^53], [calculate_statistics] returns statistics whose
    [lowest_score] and [highest_score] are the minimum and the maximum of
    the scores and which satisfy, in Python's comparison of numbers,
    [lowest_score <= average_score <= highest_score]. *)
Theorem calculate_statistics_ordered (employees : list employee) (w : world) :
  employees <> [] ->
  Forall (fun emp => safe_score (score emp)) employees ->
  exists stats,
    fst (calculate_statistics employees w) = Ok stats
    /\ is_minimum (lowest_score stats) (map score employees)
    /\ is_maximum (highest_score stats) (map score employees)
    /\ py_le (PyInt (lowest_score stats)) (average_score stats) = true
    /\ py_le (average_score stats) (PyInt (highest_score stats)) = true.
Proof.
  intros Hne Hsafe. rewrite calculate_statistics_result. unfold statistics_of.
  set (scores := map score employees).
  assert (Hs : scores <> []) by (subst scores; destruct employees; [congruence | discriminate]).
  destruct (py_min_spec scores Hs) as (lo & Hmin & Hlo).
  destruct (py_max_spec scores Hs) as (hi & Hmax & Hhi).
  assert (Hsafe' : Forall safe_score scores).
  { subst scores. apply List.Forall_forall. intros z Hz. apply in_map_iff in Hz.
    destruct Hz as (emp & <- & Hemp). rewrite List.Forall_forall in Hsafe. now apply Hsafe. }
  assert (Hlo53 : - 2 ^ 53 <= lo).
  { destruct Hlo as [Hin _]. rewrite List.Forall_forall in Hsafe'. apply (Hsafe' lo Hin). }
  assert (Hhi53 : hi <= 2 ^ 53).
  { destruct Hhi as [Hin _]. rewrite List.Forall_forall in Hsafe'. apply (Hsafe' hi Hin). }
  assert (Hall : Forall (fun x => lo <= x <= hi) scores).
  { destruct Hlo as [_ Hlo], Hhi as [_ Hhi]. rewrite List.Forall_forall in *.
    intros x Hx. split; [now apply Hlo | now apply Hhi]. }
  destruct (mean_between scores lo hi Hs Hlo53 Hhi53 Hall) as (m & Hm & Hbt).
  unfold rounded_mean. rewrite Hm, Hmax, Hmin. cbn.
  eexists. split; [reflexivity|]. cbn.
  repeat split; try apply Hlo; try apply Hhi;
    apply (num_between_le lo hi), py_round_between; assumption.
Qed.


(** ** Departments in first-seen order *)
Section FirstSeen.
Context {K : Type} `{EqDecision K}.

Lemma first_seen_In (l : list K) x : In x (first_seen l) <-> In x l.
Proof.
  induction l as [|y l IH]; cbn; [tauto|].
  rewrite filter_In, IH. destruct (decide (x = y)) as [-> | Hne].
  - tauto.
  - rewrite bool_decide_eq_false_2 by assumption. cbn.
    split; [intros [-> | [? _]]; auto | intros [-> | ?]; auto].
Qed.

Lemma first_seen_NoDup (l : list K) : NoDup (first_seen l).
Proof.
  apply NoDup_ListNoDup.
  induction l as [|y l IH]; cbn; constructor.
  - rewrite filter_In. intros [_ Hy].
    rewrite bool_decide_eq_true_2 in Hy by reflexivity. discriminate.
  - now apply List.NoDup_filter.
Qed.

Lemma first_seen_snoc (l : list K) x :
  first_seen (l ++ [x])
  = first_seen l ++ (if decide (x ∈ l) then [] else [x]).
Proof.
  induction l as [|y l IH]; cbn.
  - destruct (decide (x ∈ [])) as [Hin | _]; [inversion Hin | reflexivity].
  - rewrite IH, List.filter_app. f_equal. f_equal.
    destruct (decide (x ∈ l)) as [Hin | Hin].
    + rewrite decide_True by (now right). reflexivity.
    + cbn. destruct (decide (x = y)) as [-> | Hne].
      * rewrite bool_decide_eq_true_2 by reflexivity.
        rewrite decide_True by left. reflexivity.
      * rewrite bool_decide_eq_false_2 by assumption.
        rewrite decide_False; [reflexivity|].
        intros Hc. apply elem_of_cons in Hc. tauto.
Qed.
End FirstSeen.

(** ** Dictionaries tabulated over distinct keys *)
Section DictFacts.
Context {K : Type} `{EqDecision K} {V : Type}.
Implicit Types (d : Dict.t K V) (k : K) (v : V).

Lemma get_app d1 d2 k :
  Dict.get k (d1 ++ d2)
  = match Dict.get k d1 with Some v => Some v | None => Dict.get k d2 end.
Proof.
  induction d1 as [|[k' v'] d1 IH]; cbn; [reflexivity|].
  destruct (bool_decide (k' = k)); [reflexivity | exact IH].
Qed.

Lemma get_None_notin d k : Dict.get k d = None <-> ~ In k (Dict.keys d).
Proof.
  induction d as [|[k' v'] d IH]; cbn; [tauto|].
  destruct (decide (k' = k)) as [-> | Hne].
  - rewrite bool_decide_eq_true_2 by reflexivity. split; [discriminate | tauto].
  - rewrite bool_decide_eq_false_2 by assumption. rewrite IH. tauto.
Qed.

Lemma set_absent d k v : Dict.get k d = None -> Dict.set k v d = d ++ [(k, v)].
Proof.
  induction d as [|[k' v'] d IH]; cbn; [reflexivity|].
  destruct (bool_decide (k' = k)); [discriminate|].
  intros Hg. now rewrite IH.
Qed.

Lemma keys_set d k v :
  Dict.keys (Dict.set k v d)
  = if Dict.contains k d then Dict.keys d else Dict.keys d ++ [k].
Proof.
  unfold Dict.contains, Dict.keys.
  induction d as [|[k' v'] d IH]; cbn; [reflexivity|].
  destruct (bool_decide (k' = k)); cbn; [reflexivity|].
  rewrite IH. now destruct (Dict.get k d).
Qed.

Variable f : K -> V.

Lemma get_tabulate (ks : list K) k :
  Dict.get k (map (fun k' => (k', f k')) ks)
  = if decide (k ∈ ks) then Some (f k) else None.
Proof.
  induction ks as [|k' ks IH]; cbn.
  - destruct (decide (k ∈ [])) as [Hin | _]; [inversion Hin | reflexivity].
  - destruct (decide (k' = k)) as [-> | Hne].
    + rewrite bool_decide_eq_true_2 by reflexivity.
      now rewrite decide_True by left.
    + rewrite bool_decide_eq_false_2 by assumption. rewrite IH.
      destruct (decide (k ∈ ks)) as [Hin | Hin].
      * now rewrite decide_True by (now right).
      * rewrite decide_False; [reflexivity|].
        intros Hc. apply elem_of_cons in Hc. destruct Hc; congruence.
Qed.

Lemma set_tabulate (ks : list K) k v :
  NoDup ks -> k ∈ ks ->
  Dict.set k v (map (fun k' => (k', f k')) ks)
  = map (fun k' => (k', if bool_decide (k' = k) then v else f k')) ks.
Proof.
  induction 1 as [|k' ks Hnotin Hnd IH]; [inversion 1|].
  intros Hin. cbn. destruct (decide (k' = k)) as [-> | Hne].
  - rewrite bool_decide_eq_true_2 by reflexivity. f_equal.
    apply map_ext_in. intros a Ha.
    rewrite bool_decide_eq_false_2; [reflexivity|].
    intros ->. apply Hnotin. now apply list_elem_of_In.
  - rewrite bool_decide_eq_false_2 by assumption. f_equal.
    apply IH. apply elem_of_cons in Hin. destruct Hin; congruence.
Qed.
End DictFacts.

(** ** Grouping *)

Lemma scores_of_snoc dept employees emp :
  scores_of dept (employees ++ [emp])
  = scores_of dept employees
    ++ (if bool_decide (department emp = dept) then [score emp] else []).
Proof.
  unfold scores_of, records_of. rewrite List.filter_app, map_app. cbn.
  now destruct (bool_decide (department emp = dept)).
Qed.

Lemma scores_of_absent dept employees :
  dept ∉ map department employees -> scores_of dept employees = [].
Proof.
  unfold scores_of, records_of. induction employees as [|emp l IH]; cbn; [reflexivity|].
  intros Hn. rewrite not_elem_of_cons in Hn. destruct Hn as [Hne Hn].
  rewrite bool_decide_eq_false_2 by congruence. auto.
Qed.

Lemma first_seen_elem_of {K} `{EqDecision K} (l : list K) x :
  x ∈ first_seen l <-> x ∈ l.
Proof. rewrite !list_elem_of_In. apply first_seen_In. Qed.

(** One turn of the grouping loop takes the groups of a prefix to the
    groups of the prefix extended by the record. *)
Lemma group_score_grouped employees emp :
  group_score (grouped employees) emp = Ok (grouped (employees ++ [emp])).
Proof.
  unfold group_score. cbn zeta. unfold grouped at 1 2 3 4, Dict.contains, getitem.
  rewrite (get_tabulate (fun d => scores_of d employees)).
  set (depts := first_seen (map department employees)).
  unfold grouped. rewrite map_app. cbn [map]. rewrite first_seen_snoc. fold depts.
  destruct (decide (department emp ∈ depts)) as [Hin | Hin].
  - cbn. rewrite (get_tabulate (fun d => scores_of d employees)).
    rewrite decide_True by assumption. cbn.
    rewrite (set_tabulate (fun d => scores_of d employees))
      by (first [assumption | apply (first_seen_NoDup (map department employees))]).
    rewrite decide_True by (now apply first_seen_elem_of).
    rewrite app_nil_r. f_equal. apply map_ext. intros d.
    rewrite scores_of_snoc. f_equal.
    destruct (decide (d = department emp)) as [-> | Hne].
    + now rewrite !bool_decide_eq_true_2.
    + rewrite !bool_decide_eq_false_2 by congruence. now rewrite app_nil_r.
  - assert (Hnone : Dict.get (department emp)
                      (map (fun d => (d, scores_of d employees)) depts) = None).
    { rewrite (get_tabulate (fun d => scores_of d employees)).
      now rewrite decide_False. }
    cbn. rewrite (set_absent _ _ _ Hnone), get_app, Hnone. cbn.
    rewrite bool_decide_eq_true_2 by reflexivity. cbn.
    rewrite decide_False by (now rewrite <- first_seen_elem_of).
    assert (Hset : forall v v' : list Z,
               Dict.set (department emp) v
                 (map (fun d => (d, scores_of d employees)) depts
                  ++ [(department emp, v')])
               = map (fun d => (d, scores_of d employees)) depts
                 ++ [(department emp, v)]).
    { intros v v'. induction depts as [|d ds IH]; cbn.
      - now rewrite bool_decide_eq_true_2.
      - rewrite not_elem_of_cons in Hin. destruct Hin as [Hne Hin'].
        rewrite bool_decide_eq_false_2 by congruence. f_equal.
        apply IH; [assumption|].
        cbn in Hnone. rewrite bool_decide_eq_false_2 in Hnone by congruence.
        exact Hnone. }
    rewrite Hset, map_app. cbn. f_equal. f_equal.
    + apply map_ext_in. intros d Hd. rewrite scores_of_snoc.
      rewrite (bool_decide_eq_false_2 (department emp = d));
        [now rewrite app_nil_r|].
      intros Heq. apply Hin. rewrite Heq. now apply list_elem_of_In.
    + rewrite scores_of_snoc, bool_decide_eq_true_2 by reflexivity.
      rewrite scores_of_absent; [reflexivity|].
      now rewrite <- first_seen_elem_of.
Qed.

Lemma group_scores_from prefix rest :
  for_each group_score rest (grouped prefix) = Ok (grouped (prefix ++ rest)).
Proof.
  revert prefix. induction rest as [|emp rest IH]; intros prefix.
  - now rewrite app_nil_r.
  - cbn [for_each]. rewrite group_score_grouped. cbn [rbind].
    rewrite IH. now rewrite <- app_assoc.
Qed.

Lemma group_scores_grouped employees :
  group_scores employees = Ok (grouped employees).
Proof. apply (group_scores_from [] employees). Qed.

(** ** Averaging the groups *)

Lemma traverse_map {A B C} (g : B -> result C) (h : A -> B) (l : list A) :
  traverse g (map h l) = traverse (fun x => g (h x)) l.
Proof.
  induction l as [|x l IH]; cbn; [reflexivity|]. now rewrite IH.
Qed.

Lemma traverse_ok {A B} (f : A -> result B) (l : list A) ys :
  traverse f l = Ok ys -> Forall2 (fun x y => f x = Ok y) l ys.
Proof.
  revert ys. induction l as [|x l IH]; cbn; intros ys.
  - intros [= <-]. constructor.
  - destruct (f x) as [y|] eqn:Hx; cbn; [|discriminate].
    destruct (traverse f l) as [ys'|]; cbn; [|discriminate].
    intros [= <-]. constructor; auto.
Qed.

Lemma traverse_raise {A B} (f : A -> result B) (l : list A) e :
  traverse f l = Raise e -> exists x, x ∈ l /\ f x = Raise e.
Proof.
  induction l as [|x l IH]; cbn; [discriminate|].
  destruct (f x) as [y|e'] eqn:Hx; cbn.
  - destruct (traverse f l) as [ys'|e']; cbn; [discriminate|].
    intros [= <-]. destruct IH as (x' & Hin & Hx'); [reflexivity|].
    exists x'. split; [now right | assumption].
  - intros [= <-]. exists x. split; [left | assumption].
Qed.

Lemma traverse_all_ok {A B} (f : A -> result B) (l : list A) :
  (forall x, x ∈ l -> exists y, f x = Ok y) -> exists ys, traverse f l = Ok ys.
Proof.
  intros Hall. destruct (traverse f l) as [ys|e] eqn:Ht; [eauto|].
  apply traverse_raise in Ht. destruct Ht as (x & Hin & Hx).
  destruct (Hall x Hin) as [y Hy]. congruence.
Qed.

(** The second loop appends one entry per group when the departments
    are distinct. *)
Lemma average_groups_from (groups : Dict.t pytext (list Z)) dept_avg :
  NoDup (Dict.keys groups) ->
  (forall dept, dept ∈ Dict.keys groups -> Dict.get dept dept_avg = None) ->
  for_each average_group groups dept_avg
  = rbind (traverse (fun '(dept, scores) =>
                       rbind (rounded_mean scores) (fun avg => Ok (dept, avg)))
                    groups)
          (fun entries => Ok (dept_avg ++ entries)).
Proof.
  revert dept_avg. induction groups as [|[dept scores] groups IH]; intros dept_avg Hnd Hfresh.
  - cbn. now rewrite app_nil_r.
  - cbn [for_each traverse average_group].
    cbn in Hnd. apply NoDup_cons in Hnd. destruct Hnd as [Hnotin Hnd].
    destruct (rounded_mean scores) as [avg|e]; cbn [rbind]; [|reflexivity].
    rewrite set_absent by (apply Hfresh; left).
    rewrite IH; [|assumption|].
    + destruct (traverse _ groups); cbn; [|reflexivity].
      now rewrite <- app_assoc.
    + intros d Hd. rewrite get_app, Hfresh by (now right). cbn.
      rewrite bool_decide_eq_false_2; [reflexivity|].
      intros ->. contradiction.
Qed.

Lemma grouped_keys employees :
  Dict.keys (grouped employees) = first_seen (map department employees).
Proof.
  unfold grouped, Dict.keys. rewrite map_map. cbn. apply map_id.
Qed.

Lemma average_groups_grouped employees :
  average_groups (grouped employees) = averaged employees.
Proof.
  unfold average_groups, Dict.items.
  rewrite (average_groups_from (grouped employees) Dict.empty).
  - unfold averaged, grouped. rewrite traverse_map.
    destruct (traverse _ _); reflexivity.
  - rewrite grouped_keys. apply first_seen_NoDup.
  - reflexivity.
Qed.

(** What [department_wise_average] returns. *)
Lemma department_wise_average_result employees w :
  fst (department_wise_average employees w) = averaged employees.
Proof.
  unfold department_wise_average, bind, lift, ret, print.
  rewrite group_scores_grouped, average_groups_grouped.
  destruct (averaged employees); reflexivity.
Qed.

Lemma records_of_nonempty dept employees :
  dept ∈ map department employees -> records_of dept employees <> [].
Proof.
  unfold records_of. induction employees as [|emp l IH]; cbn.
  - inversion 1.
  - intros Hin. destruct (decide (department emp = dept)) as [Heq | Hne].
    + rewrite bool_decide_eq_true_2 by assumption. discriminate.
    + rewrite bool_decide_eq_false_2 by assumption. apply IH.
      apply elem_of_cons in Hin. destruct Hin; congruence.
Qed.

Lemma scores_of_nonempty dept employees :
  dept ∈ map department employees -> scores_of dept employees <> [].
Proof.
  intros Hin Hnil. apply (records_of_nonempty dept employees Hin).
  unfold scores_of in Hnil. now apply map_eq_nil in Hnil.
Qed.

Lemma rounded_mean_raise scores e :
  scores <> [] -> rounded_mean scores = Raise e -> e = OverflowError.
Proof.
  intros Hne. unfold rounded_mean.
  destruct (mean scores) eqn:Hm; cbn; [discriminate|].
  intros [= <-]. now apply (mean_raise scores).
Qed.

(** On a non-empty list, [calculate_statistics] succeeds exactly when the
    rounded mean does. *)
Lemma statistics_of_rounded_mean scores :
  scores <> [] ->
  match rounded_mean scores with
  | Ok avg => exists stats, statistics_of scores = Ok stats
                            /\ average_score stats = avg
  | Raise e => statistics_of scores = Raise e
  end.
Proof.
  intros Hne. unfold statistics_of.
  destruct (rounded_mean scores) as [avg|e]; cbn; [|reflexivity].
  destruct (py_max_spec scores Hne) as (hi & -> & _).
  destruct (py_min_spec scores Hne) as (lo & -> & _). cbn. eauto.
Qed.


(** ** What the averages are *)

Lemma averaged_ok employees dept_avg :
  averaged employees = Ok dept_avg ->
  Dict.keys dept_avg = first_seen (map department employees)
  /\ forall dept, dept ∈ map department employees ->
       exists avg, rounded_mean (scores_of dept employees) = Ok avg
                   /\ Dict.get dept dept_avg = Some avg.
Proof.
  unfold averaged. intros Ht. apply traverse_ok in Ht.
  assert (Hgen : forall ks (d : Dict.t pytext pynum),
             Forall2 (fun dept y =>
                        rbind (rounded_mean (scores_of dept employees))
                              (fun avg => Ok (dept, avg)) = Ok y) ks d ->
             Dict.keys d = ks
             /\ forall dept, dept ∈ ks ->
                  exists avg, rounded_mean (scores_of dept employees) = Ok avg
                              /\ Dict.get dept d = Some avg).
  { induction 1 as [|k [k' v] ks d Hk _ IH]; cbn.
    - split; [reflexivity | inversion 1].
    - destruct (rounded_mean (scores_of k employees)) as [avg|] eqn:Hm;
        cbn in Hk; [|discriminate].
      injection Hk as <- <-. destruct IH as [IHk IHg]. split; [now f_equal|].
      intros dept Hin. destruct (decide (k = dept)) as [<- | Hne].
      + rewrite bool_decide_eq_true_2 by reflexivity. eauto.
      + rewrite bool_decide_eq_false_2 by assumption. apply IHg.
        apply elem_of_cons in Hin. destruct Hin; congruence. }
  destruct (Hgen _ _ Ht) as [Hk Hg]. split; [exact Hk|].
  intros dept Hin. apply Hg. now apply first_seen_elem_of.
Qed.

Lemma averaged_raise employees e :
  averaged employees = Raise e ->
  exists dept, dept ∈ map department employees
               /\ rounded_mean (scores_of dept employees) = Raise e.
Proof.
  unfold averaged. intros Ht. apply traverse_raise in Ht.
  destruct Ht as (dept & Hin & Hr). exists dept.
  split; [now apply first_seen_elem_of|].
  destruct (rounded_mean (scores_of dept employees)); cbn in Hr; congruence.
Qed.

(** C3.  For every department occurring in the records, the value that
    [department_wise_average] assigns to it is the [average_score] that
    [calculate_statistics] computes over the records of that department;
    and when [department_wise_average] raises, it is the [OverflowError]
    that [calculate_statistics] raises over the records of some
    department. *)
Theorem department_average_is_partition_average
        (employees : list employee) (dept : pytext) (w w' : world) :
  In dept (map department employees) ->
  match fst (department_wise_average employees w) with
  | Ok dept_avg =>
      exists stats,
        fst (calculate_statistics (records_of dept employees) w') = Ok stats
        /\ Dict.get dept dept_avg = Some (average_score stats)
  | Raise e =>
      e = OverflowError
      /\ exists dept',
           In dept' (map department employees)
           /\ fst (calculate_statistics (records_of dept' employees) w')
              = Raise OverflowError
  end.
Proof.
  intros Hin. apply list_elem_of_In in Hin.
  rewrite department_wise_average_result.
  destruct (averaged employees) as [dept_avg|e] eqn:Ha.
  - destruct (averaged_ok _ _ Ha) as [_ Hg].
    destruct (Hg dept Hin) as (avg & Hm & Hget).
    rewrite calculate_statistics_result. fold (scores_of dept employees).
    pose proof (statistics_of_rounded_mean _ (scores_of_nonempty _ _ Hin)) as Hs.
    rewrite Hm in Hs. destruct Hs as (stats & Hs & <-). eauto.
  - destruct (averaged_raise _ _ Ha) as (dept' & Hin' & Hr).
    pose proof (rounded_mean_raise _ _ (scores_of_nonempty _ _ Hin') Hr) as ->.
    split; [reflexivity|]. exists dept'. split; [now apply list_elem_of_In|].
    rewrite calculate_statistics_result. fold (scores_of dept' employees).
    pose proof (statistics_of_rounded_mean _ (scores_of_nonempty _ _ Hin')) as Hs.
    now rewrite Hr in Hs.
Qed.

(** C3 on the sample records, for department A. *)
Lemma department_average_is_partition_average_witness :
  In (Some "A"%string) (map department sample_records)
  /\ match fst (department_wise_average sample_records empty_world) with
     | Ok dept_avg =>
         exists stats,
           fst (calculate_statistics (records_of (Some "A"%string) sample_records)
                                     empty_world) = Ok stats
           /\ Dict.get (Some "A"%string) dept_avg = Some (average_score stats)
     | Raise e =>
         e = OverflowError
         /\ exists dept',
              In dept' (map department sample_records)
              /\ fst (calculate_statistics (records_of dept' sample_records)
                                           empty_world)
                 = Raise OverflowError
     end.
Proof.
  split; [now left|].
  apply (department_average_is_partition_average
           sample_records (Some "A"%string) empty_world empty_world).
  now left.
Defined.


(** C2.  On the empty list of records [calculate_statistics] raises the
    [StatisticsError] of the mean of no data, prints nothing and returns
    no statistics. *)
Theorem calculate_statistics_empty (w : world) :
  calculate_statistics [] w = (Raise StatisticsError, w)
  /\ mean [] = Raise StatisticsError.
Proof. split; reflexivity. Qed.

(** C7.  On records with the scores [80, 90, 70], [calculate_statistics]
    returns [{total_employees: 3, average_score: 80, highest_score: 90,
    lowest_score: 70}], which Python's [==] identifies with the dict whose
    [average_score] is [80.0]: the mean of ints with an integral value is
    returned as an [int]. *)
Theorem calculate_statistics_example (employees : list employee) (w : world) :
  map score employees = [80; 90; 70] ->
  exists stats,
    fst (calculate_statistics employees w) = Ok stats
    /\ stats = {| total_employees := 3; average_score := PyInt 80;
                  highest_score := 90; lowest_score := 70 |}
    /\ statistics_eq stats
         {| total_employees := 3; average_score := PyFloat (Float.of_int 80);
            highest_score := 90; lowest_score := 70 |} = true.
Proof.
  intros Hs. rewrite calculate_statistics_result, Hs.
  eexists. split; [reflexivity|]. split; reflexivity.
Qed.

(** C7 on the sample records. *)
Lemma calculate_statistics_example_witness :
  map score sample_records = [80; 90; 70]
  /\ exists stats,
       fst (calculate_statistics sample_records empty_world) = Ok stats
       /\ stats = {| total_employees := 3; average_score := PyInt 80;
                     highest_score := 90; lowest_score := 70 |}
       /\ statistics_eq stats
            {| total_employees := 3; average_score := PyFloat (Float.of_int 80);
               highest_score := 90; lowest_score := 70 |} = true.
Proof.
  split; [reflexivity|].
  apply (calculate_statistics_example sample_records empty_world). reflexivity.
Defined.

(** C1 as stated fails without the bound: the mean of the scores
    [2^54 + 1] and [2^54 + 2] is [2^54 + 1.5], which no float holds; the
    nearest float is [2^54], below the lowest score. *)
Lemma calculate_statistics_unordered :
  wide_records <> []
  /\ exists stats,
       fst (calculate_statistics wide_records empty_world) = Ok stats
       /\ py_le (PyInt (lowest_score stats)) (average_score stats) = false.
Proof.
  split; [discriminate|]. eexists. split; [reflexivity|]. reflexivity.
Qed.

(** C1: the amended statement on the sample records. *)
Lemma calculate_statistics_ordered_witness :
  sample_records <> []
  /\ Forall (fun emp => safe_score (score emp)) sample_records
  /\ exists stats,
    fst (calculate_statistics sample_records empty_world) = Ok stats
    /\ is_minimum (lowest_score stats) (map score sample_records)
    /\ is_maximum (highest_score stats) (map score sample_records)
    /\ py_le (PyInt (lowest_score stats)) (average_score stats) = true
    /\ py_le (average_score stats) (PyInt (highest_score stats)) = true.
Proof.
  assert (H1 : sample_records <> []) by discriminate.
  assert (H2 : Forall (fun emp => safe_score (score emp)) sample_records).
  { repeat constructor; cbn; lia. }
  split; [exact H1|]. split; [exact H2|].
  exact (calculate_statistics_ordered sample_records empty_world H1 H2).
Defined.


(** A duplicate-free list with exactly two members. *)
Lemma two_keys {K} (ks : list K) (a b : K) :
  a <> b -> NoDup ks -> (forall k, k ∈ ks <-> k = a \/ k = b) ->
  ks = [a; b] \/ ks = [b; a].
Proof.
  intros Hab Hnd Hin.
  assert (Ha : a ∈ ks) by (apply Hin; auto).
  assert (Hb : b ∈ ks) by (apply Hin; auto).
  destruct ks as [|x [|y [|z ks]]].
  - inversion Ha.
  - apply list_elem_of_singleton in Ha, Hb. congruence.
  - assert (Hx : x = a \/ x = b) by (apply Hin; left).
    assert (Hy : y = a \/ y = b) by (apply Hin; right; left).
    apply NoDup_cons in Hnd. destruct Hnd as [Hxy _].
    rewrite list_elem_of_singleton in Hxy.
    destruct Hx as [-> | ->], Hy as [-> | ->]; auto; congruence.
  - exfalso.
    assert (Hx : x = a \/ x = b) by (apply Hin; left).
    assert (Hy : y = a \/ y = b) by (apply Hin; right; left).
    assert (Hz : z = a \/ z = b) by (apply Hin; right; right; left).
    apply NoDup_cons in Hnd. destruct Hnd as [Hx' Hnd].
    apply NoDup_cons in Hnd. destruct Hnd as [Hy' _].
    rewrite not_elem_of_cons in Hy'. rewrite !not_elem_of_cons in Hx'.
    destruct Hx' as (Hxy & Hxz & _), Hy' as (Hyz & _).
    destruct Hx as [-> | ->], Hy as [-> | ->], Hz as [-> | ->]; congruence.
Qed.

(** C8.  On records of the departments A, with the scores [80, 90], and
    B, with the score [70], [department_wise_average] returns a dict with
    the entries [A: 85] and [B: 70], which Python's [==] identifies with
    [{A: 85.0, B: 70.0}]. *)
Theorem department_wise_average_example (employees : list employee) (w : world) :
  scores_of (Some "A"%string) employees = [80; 90] ->
  scores_of (Some "B"%string) employees = [70] ->
  Forall (fun emp => department emp = Some "A"%string
                     \/ department emp = Some "B"%string) employees ->
  exists dept_avg,
    fst (department_wise_average employees w) = Ok dept_avg
    /\ Dict.get (Some "A"%string) dept_avg = Some (PyInt 85)
    /\ Dict.get (Some "B"%string) dept_avg = Some (PyInt 70)
    /\ dict_eq dept_avg [(Some "A"%string, PyFloat (Float.of_int 85));
                         (Some "B"%string, PyFloat (Float.of_int 70))] = true.
Proof.
  intros HA HB Hall. rewrite department_wise_average_result.
  set (A := Some "A"%string) in *. set (B := Some "B"%string) in *.
  assert (Hmem : forall dept, dept ∈ map department employees <-> dept = A \/ dept = B).
  { intros dept. split.
    - intros Hin. apply list_elem_of_In, in_map_iff in Hin.
      destruct Hin as (emp & <- & Hemp).
      rewrite List.Forall_forall in Hall. now apply Hall.
    - intros Hd.
      destruct (decide (dept ∈ map department employees)) as [|Hn]; [assumption|].
      apply scores_of_absent in Hn. destruct Hd as [-> | ->]; congruence. }
  assert (Hmean : forall dept, dept ∈ map department employees ->
                    rounded_mean (scores_of dept employees)
                    = Ok (if bool_decide (dept = A) then PyInt 85 else PyInt 70)).
  { intros dept Hin. apply Hmem in Hin. destruct Hin as [-> | ->].
    - rewrite HA. reflexivity.
    - rewrite HB. reflexivity. }
  destruct (averaged employees) as [dept_avg|e] eqn:Ha.
  - exists dept_avg. split; [reflexivity|].
    destruct (averaged_ok _ _ Ha) as [Hk Hg].
    destruct (Hg A) as (avgA & HmA & HgA); [apply Hmem; auto|].
    destruct (Hg B) as (avgB & HmB & HgB); [apply Hmem; auto|].
    rewrite Hmean in HmA, HmB by (apply Hmem; auto).
    injection HmA as <-. injection HmB as <-.
    split; [exact HgA|]. split; [exact HgB|].
    assert (Hks : Dict.keys dept_avg = [A; B] \/ Dict.keys dept_avg = [B; A]).
    { apply two_keys; [discriminate | rewrite Hk; apply first_seen_NoDup |].
      intros k. rewrite Hk, first_seen_elem_of. apply Hmem. }
    destruct dept_avg as [|[k1 v1] [|[k2 v2] [|? ?]]];
      destruct Hks as [Hks | Hks]; try discriminate Hks;
      injection Hks as -> ->; cbn in HgA, HgB;
      injection HgA as ->; injection HgB as ->; reflexivity.
  - exfalso. destruct (averaged_raise _ _ Ha) as (dept & Hin & Hr).
    rewrite Hmean in Hr by assumption. discriminate.
Qed.

(** C8 on the sample records. *)
Lemma department_wise_average_example_witness :
  scores_of (Some "A"%string) sample_records = [80; 90]
  /\ scores_of (Some "B"%string) sample_records = [70]
  /\ Forall (fun emp => department emp = Some "A"%string
                        \/ department emp = Some "B"%string) sample_records
  /\ exists dept_avg,
       fst (department_wise_average sample_records empty_world) = Ok dept_avg
       /\ Dict.get (Some "A"%string) dept_avg = Some (PyInt 85)
       /\ Dict.get (Some "B"%string) dept_avg = Some (PyInt 70)
       /\ dict_eq dept_avg [(Some "A"%string, PyFloat (Float.of_int 85));
                            (Some "B"%string, PyFloat (Float.of_int 70))] = true.
Proof.
  assert (H3 : Forall (fun emp => department emp = Some "A"%string
                                  \/ department emp = Some "B"%string)
                      sample_records).
  { repeat (apply List.Forall_cons;
              [first [left; reflexivity | right; reflexivity]|]).
    apply List.Forall_nil. }
  split; [reflexivity|]. split; [reflexivity|]. split; [exact H3|].
  exact (department_wise_average_example sample_records empty_world
           eq_refl eq_refl H3).
Defined.


(** ** The loader *)

Section DictGet.
Context {K : Type} `{EqDecision K} {V : Type}.

Lemma get_set (d : Dict.t K V) k k' v :
  Dict.get k (Dict.set k' v d)
  = if bool_decide (k' = k) then Some v else Dict.get k d.
Proof.
  induction d as [|[k0 v0] d IH]; cbn.
  - reflexivity.
  - destruct (decide (k0 = k')) as [-> | Hne].
    + rewrite bool_decide_eq_true_2 by reflexivity. cbn.
      destruct (bool_decide (k' = k)); reflexivity.
    + rewrite bool_decide_eq_false_2 by assumption. cbn. rewrite IH.
      destruct (decide (k0 = k)) as [-> | Hne'].
      * rewrite bool_decide_eq_true_2 by reflexivity.
        now rewrite bool_decide_eq_false_2 by congruence.
      * now rewrite (bool_decide_eq_false_2 (k0 = k)) by assumption.
Qed.
End DictGet.

(** A row dict has no key outside the header. *)
Lemma DictReader_row_missing fieldnames row column :
  ~ In column fieldnames ->
  Dict.get (Some column) (DictReader_row fieldnames row) = None.
Proof.
  intros Hnot. unfold DictReader_row.
  assert (Hzip : forall (pairs : list (string * string)) (d : Dict.t pytext pytext),
             (forall k v, In (k, v) pairs -> In k fieldnames) ->
             Dict.get (Some column) d = None ->
             Dict.get (Some column)
               (fold_left (fun d '(k, v) => Dict.set (Some k) (Some v) d) pairs d)
             = None).
  { induction pairs as [|[k v] pairs IH]; intros d Hk Hd; cbn; [exact Hd|].
    apply IH; [intros k' v' Hin; apply (Hk k' v'); now right|].
    rewrite get_set, Hd. rewrite bool_decide_eq_false_2; [reflexivity|].
    intros [= ->]. apply Hnot, (Hk column v). now left. }
  assert (Hrest : forall (ks : list string) (d : Dict.t pytext pytext),
             (forall k, In k ks -> In k fieldnames) ->
             Dict.get (Some column) d = None ->
             Dict.get (Some column)
               (fold_left (fun d k => Dict.set (Some k) None d) ks d) = None).
  { induction ks as [|k ks IH]; intros d Hk Hd; cbn; [exact Hd|].
    apply IH; [intros k' Hin; apply Hk; now right|].
    rewrite get_set, Hd. rewrite bool_decide_eq_false_2; [reflexivity|].
    intros [= ->]. apply Hnot, Hk. now left. }
  apply Hrest.
  - intros k Hin. apply list_elem_of_In in Hin. apply list_elem_of_In.
    apply (subseteq_drop (length row) fieldnames k Hin).
  - apply Hzip; [|reflexivity].
    intros k v Hin. apply list_elem_of_In in Hin. apply list_elem_of_In.
    apply (elem_of_zip_l _ _ _ _ Hin).
Qed.

Lemma for_each_raises {A B} (body : B -> A -> result B) (l : list A) (acc : B) x :
  In x l -> (forall acc', exists e, body acc' x = Raise e) ->
  exists e, for_each body l acc = Raise e
            /\ exists acc' x', body acc' x' = Raise e.
Proof.
  intros Hin Hbad. revert acc.
  induction l as [|y l IH]; intros acc; [destruct Hin|].
  cbn [for_each]. destruct (body acc y) as [acc1|e] eqn:Hy; cbn [rbind].
  - destruct Hin as [-> | Hin].
    + destruct (Hbad acc) as [e He]. congruence.
    + apply IH, Hin.
  - exists e. split; [reflexivity|]. eauto.
Qed.

Lemma DictReader_rows rows row :
  In row (DictReader rows) ->
  exists fields, row = DictReader_row (header rows) fields.
Proof.
  destruct rows as [|fieldnames data]; cbn; [tauto|].
  intros Hin. apply in_map_iff in Hin. destruct Hin as (fields & <- & _). eauto.
Qed.

Section Loader.
Variable int_of_str : string -> option Z.
Variable str_float : spec_float -> string.
Variable strftime : datetime -> string -> string.

Lemma py_int_raise field e :
  py_int int_of_str field = Raise e -> e = TypeError \/ e = ValueError.
Proof.
  unfold py_int. destruct field as [s|]; [|intros [= <-]; now left].
  destruct (int_of_str s); intros Hr; [discriminate|].
  injection Hr as <-. now right.
Qed.

Lemma getitem_raise {V} (column : string) (row : Dict.t pytext V) e :
  getitem (Some column) row = Raise e -> e = KeyError column.
Proof.
  unfold getitem. destruct (Dict.get _ _); intros Hr; [discriminate|].
  cbn in Hr. now injection Hr as <-.
Qed.

(** Whatever a row raises is the exception of a malformed record. *)
Lemma load_row_raise employees row e :
  load_row int_of_str employees row = Raise e -> malformed_record e.
Proof.
  unfold load_row, malformed_record, required_columns.
  destruct (getitem (Some "Name"%string) row) eqn:H1; cbn [rbind].
  2:{ intros [= <-]. apply getitem_raise in H1. left. eexists. split; [|eassumption]. cbn; auto. }
  destruct (getitem (Some "Department"%string) row) eqn:H2; cbn [rbind].
  2:{ intros [= <-]. apply getitem_raise in H2. left. eexists. split; [|eassumption]. cbn; auto. }
  destruct (getitem (Some "Score"%string) row) as [field|] eqn:H3; cbn [rbind].
  2:{ intros [= <-]. apply getitem_raise in H3. left. eexists. split; [|eassumption]. cbn; auto. }
  destruct (py_int int_of_str field) eqn:H4; cbn [rbind]; [discriminate|].
  intros [= <-]. right. now apply py_int_raise in H4.
Qed.

Lemma load_row_unparsable employees row :
  unparsable_score int_of_str row ->
  exists e, load_row int_of_str employees row = Raise e.
Proof.
  intros (field & e & Hget & Hint). unfold load_row.
  destruct (getitem (Some "Name"%string) row); cbn [rbind]; [|eauto].
  destruct (getitem (Some "Department"%string) row); cbn [rbind]; [|eauto].
  unfold getitem at 1. rewrite Hget. cbn [rbind]. rewrite Hint. cbn. eauto.
Qed.

Lemma load_row_missing employees row column :
  In column required_columns ->
  Dict.get (Some column) row = None ->
  exists e, load_row int_of_str employees row = Raise e.
Proof.
  intros Hcol Hget. unfold load_row.
  destruct (getitem (Some "Name"%string) row) eqn:H1; cbn [rbind]; [|eauto].
  destruct (getitem (Some "Department"%string) row) eqn:H2; cbn [rbind]; [|eauto].
  destruct (getitem (Some "Score"%string) row) eqn:H3; cbn [rbind]; [|eauto].
  exfalso. unfold getitem in H1, H2, H3.
  destruct Hcol as [<- | [<- | [<- | []]]]; rewrite Hget in *; discriminate.
Qed.

Lemma malformed_input_load rows :
  malformed_input int_of_str rows ->
  exists e, for_each (load_row int_of_str) (DictReader rows) [] = Raise e
            /\ malformed_record e.
Proof.
  intros Hbad.
  assert (Hrow : exists row, In row (DictReader rows)
                   /\ forall acc, exists e, load_row int_of_str acc row = Raise e).
  { destruct Hbad as [(row & Hin & Hs) | (Hne & column & Hcol & Hmiss)].
    - exists row. split; [exact Hin|]. intros acc. now apply load_row_unparsable.
    - destruct (DictReader rows) as [|row rest] eqn:Hr; [congruence|].
      exists row. split; [now left|]. intros acc.
      destruct (DictReader_rows rows row) as (fields & ->); [rewrite Hr; now left|].
      apply (load_row_missing _ _ column Hcol).
      now apply DictReader_row_missing. }
  destruct Hrow as (row & Hin & Hraise).
  destruct (for_each_raises _ _ [] row Hin Hraise) as (e & He & acc' & row' & Hb).
  exists e. split; [exact He|]. now apply (load_row_raise acc' row').
Qed.

(** C4, as amended.  When the input has a data row whose [Score] field
    does not parse as an integer, or has data rows and lacks a required
    column, loading raises the exception of a malformed record and
    returns no list of records; the run ends with that exception after
    the existence check alone has printed: no statistics are computed
    and no file is written. *)
Theorem malformed_input_aborts (w : world) (rows : list (list string)) :
  fs w !! DATA_FILE = Some (TextFile rows) ->
  malformed_input int_of_str rows ->
  exists e,
    malformed_record e
    /\ read_csv_data int_of_str DATA_FILE w = (Raise e, w)
    /\ generate_report int_of_str str_float strftime w
       = (Raise e, printed "data.csv found successfully." w).
Proof.
  intros Hfile Hbad.
  destruct (malformed_input_load rows Hbad) as (e & Hload & He).
  exists e. split; [exact He|]. split.
  - unfold read_csv_data, bind, open_csv, lift. rewrite Hfile, Hload. reflexivity.
  - unfold generate_report, check_file_exists, bind, path_exists.
    rewrite Hfile. rewrite bool_decide_eq_true_2 by eauto. cbn [negb].
    unfold read_csv_data, bind, open_csv, lift, print. cbn [fs].
    rewrite Hfile, Hload. reflexivity.
Qed.

(** C5.  When the input file does not exist, the run prints the
    diagnostic and ends at once by the [SystemExit] that [exit()]
    raises: nothing is loaded, computed or rendered, nothing else is
    printed, and the file system is left as it was. *)
Theorem missing_input_exits (w : world) :
  fs w !! DATA_FILE = None ->
  generate_report int_of_str str_float strftime w
  = (Raise (SystemExit None), printed "ERROR: data.csv not found!" w).
Proof.
  intros Hfile.
  unfold generate_report, check_file_exists, bind, path_exists.
  rewrite Hfile. rewrite bool_decide_eq_false_2 by (intros [? ?]; discriminate).
  reflexivity.
Qed.
End Loader.

(** C4 as stated fails on an input that lacks the [Score] column and has
    no data row: loading succeeds, with the empty list of records. *)
Lemma header_only_loads :
  ~ In "Score"%string (header [["Name"; "Department"]]%string)
  /\ fs header_only_world !! DATA_FILE = Some (TextFile [["Name"; "Department"]]%string)
  /\ fst (read_csv_data Builtins.int_of_str DATA_FILE header_only_world) = Ok [].
Proof.
  split; [|split; reflexivity].
  cbn. intros [H | [H | []]]; discriminate.
Qed.

(** C5 in the world without files. *)
Lemma missing_input_exits_witness :
  fs empty_world !! DATA_FILE = None
  /\ generate_report Builtins.int_of_str Builtins.str_float Builtins.strftime
       empty_world
     = (Raise (SystemExit None), printed "ERROR: data.csv not found!" empty_world).
Proof.
  split; [reflexivity|].
  apply (missing_input_exits Builtins.int_of_str Builtins.str_float
           Builtins.strftime empty_world).
  reflexivity.
Defined.

(** C4: the amended statement on an input whose score reads "eighty". *)
Lemma malformed_input_aborts_witness :
  fs bad_score_world !! DATA_FILE
  = Some (TextFile [["Name"; "Department"; "Score"]; ["Ann"; "A"; "eighty"]]%string)
  /\ malformed_input Builtins.int_of_str
       [["Name"; "Department"; "Score"]; ["Ann"; "A"; "eighty"]]%string
  /\ exists e,
       malformed_record e
       /\ read_csv_data Builtins.int_of_str DATA_FILE bad_score_world
          = (Raise e, bad_score_world)
       /\ generate_report Builtins.int_of_str Builtins.str_float
            Builtins.strftime bad_score_world
          = (Raise e, printed "data.csv found successfully." bad_score_world).
Proof.
  assert (H1 : fs bad_score_world !! DATA_FILE
               = Some (TextFile [["Name"; "Department"; "Score"];
                                 ["Ann"; "A"; "eighty"]]%string))
    by reflexivity.
  assert (H2 : malformed_input Builtins.int_of_str
                 [["Name"; "Department"; "Score"]; ["Ann"; "A"; "eighty"]]%string).
  { left. eexists. split; [left; reflexivity|].
    exists (Some "eighty"%string), ValueError. split; reflexivity. }
  split; [exact H1|]. split; [exact H2|].
  exact (malformed_input_aborts Builtins.int_of_str Builtins.str_float
           Builtins.strftime bad_score_world _ H1 H2).
Defined.


(** ** Stages that do not read the clock *)

Lemma clock_blind_ret {A} (a : A) : clock_blind (ret a).
Proof. intros w. split; [reflexivity|]. split; [reflexivity|]. intros t. reflexivity. Qed.

Lemma clock_blind_raise {A} e : clock_blind (raise (A := A) e).
Proof. intros w. split; [reflexivity|]. split; [reflexivity|]. intros t. reflexivity. Qed.

Lemma clock_blind_lift {A} (r : result A) : clock_blind (lift r).
Proof. intros w. split; [reflexivity|]. split; [reflexivity|]. intros t. reflexivity. Qed.

Lemma clock_blind_print s : clock_blind (print s).
Proof. intros w. split; [reflexivity|]. split; [reflexivity|]. intros t. reflexivity. Qed.

Lemma clock_blind_path_exists filename : clock_blind (path_exists filename).
Proof. intros w. split; [reflexivity|]. split; [reflexivity|]. intros t. reflexivity. Qed.

Lemma clock_blind_open_csv filename : clock_blind (open_csv filename).
Proof.
  intros w. unfold open_csv. cbn [fs at_time].
  destruct (fs w !! filename) as [[rows|doc]|];
    (split; [reflexivity|]; split; [reflexivity|]; intros t; reflexivity).
Qed.

Lemma clock_blind_bind {A B} (c : M A) (k : A -> M B) :
  clock_blind c -> (forall a, clock_blind (k a)) -> clock_blind (bind c k).
Proof.
  intros Hc Hk w. unfold bind.
  destruct (Hc w) as (Hfs & Hnow & Ht).
  split; [|split].
  - destruct (c w) as [[a|e] w1]; cbn [fst snd] in *; [|exact Hfs].
    destruct (Hk a w1) as (Hfs1 & _). congruence.
  - destruct (c w) as [[a|e] w1]; cbn [fst snd] in *; [|exact Hnow].
    destruct (Hk a w1) as (_ & Hnow1 & _). congruence.
  - intros t. rewrite Ht.
    destruct (c w) as [[a|e] w1]; cbn [fst snd]; [|reflexivity].
    destruct (Hk a w1) as (_ & _ & Ht1). rewrite Ht1.
    now destruct (k a w1).
Qed.

Lemma clock_blind_calculate_statistics employees :
  clock_blind (calculate_statistics employees).
Proof.
  unfold calculate_statistics.
  repeat (apply clock_blind_bind; [|intros ?]);
    auto using clock_blind_lift, clock_blind_print, clock_blind_ret.
Qed.

Lemma clock_blind_department_wise_average employees :
  clock_blind (department_wise_average employees).
Proof.
  unfold department_wise_average.
  repeat (apply clock_blind_bind; [|intros ?]);
    auto using clock_blind_lift, clock_blind_print, clock_blind_ret.
Qed.

Lemma fold_left_appends {A B} (g : list B -> A -> list B) (f : A -> list B)
      (l : list A) (doc : list B) :
  (forall doc x, g doc x = doc ++ f x) ->
  fold_left g l doc = doc ++ concat (map f l).
Proof.
  intros Hg. revert doc. induction l as [|x l IH]; intros doc; cbn.
  - now rewrite app_nil_r.
  - now rewrite IH, Hg, <- app_assoc.
Qed.

Section Controller.
Variable int_of_str : string -> option Z.
Variable str_float : spec_float -> string.
Variable strftime : datetime -> string -> string.

Lemma clock_blind_check_file_exists filename :
  clock_blind (check_file_exists filename).
Proof.
  unfold check_file_exists.
  apply clock_blind_bind; [apply clock_blind_path_exists|].
  intros found. destruct (negb found).
  - apply clock_blind_bind; [apply clock_blind_print|].
    intros _. apply clock_blind_raise.
  - apply clock_blind_print.
Qed.

Lemma clock_blind_read_csv_data filename :
  clock_blind (read_csv_data int_of_str filename).
Proof.
  unfold read_csv_data.
  repeat (apply clock_blind_bind; [|intros ?]);
    auto using clock_blind_lift, clock_blind_print, clock_blind_ret,
               clock_blind_open_csv.
Qed.

Lemma clock_blind_analysis : clock_blind (analysis int_of_str).
Proof.
  unfold analysis.
  apply clock_blind_bind; [apply clock_blind_check_file_exists | intros _].
  apply clock_blind_bind; [apply clock_blind_read_csv_data | intros employees].
  apply clock_blind_bind; [apply clock_blind_calculate_statistics | intros stats].
  apply clock_blind_bind; [apply clock_blind_department_wise_average | intros dept_avg].
  apply clock_blind_ret.
Qed.

Lemma add_department_analysis_app doc dept_avg :
  add_department_analysis str_float doc dept_avg
  = doc ++ add_department_analysis str_float [] dept_avg.
Proof.
  unfold add_department_analysis, Dict.items.
  rewrite !(fold_left_appends _
              (fun '(dept, avg) =>
                 [cell 0 8 (Some (str_text dept +:+ ": Average Score = "
                                  +:+ str_num str_float avg)) 0 true ""]))
    by (intros ? [? ?]; reflexivity).
  cbn [app]. now rewrite <- !app_assoc.
Qed.

Lemma add_employee_table_app doc employees :
  add_employee_table doc employees = doc ++ add_employee_table [] employees.
Proof.
  unfold add_employee_table.
  rewrite !(fold_left_appends _
              (fun i => [cell (nth i [60; 60; 30] 0) 10
                              (Some (nth i ["Name"; "Department"; "Score"]%string
                                         ""%string)) 1 false "C"]))
    by reflexivity.
  rewrite !(fold_left_appends _
              (fun emp => [cell 60 10 (name emp) 1 false "";
                           cell 60 10 (department emp) 1 false "";
                           cell 30 10 (Some (str_int (score emp))) 1 false "C";
                           ln None]))
    by reflexivity.
  cbn [app]. now rewrite <- !app_assoc.
Qed.

Lemma report_tail_app doc employees stats dept_avg :
  add_conclusion str_float
    (add_employee_table
       (add_department_analysis str_float
          (add_summary_section str_float (doc ++ [ln (Some 5)]) stats) dept_avg)
       employees)
    stats
  = doc ++ report_tail str_float employees stats dept_avg.
Proof.
  unfold report_tail, add_conclusion, add_summary_section.
  rewrite (add_employee_table_app (add_department_analysis _ _ _)).
  rewrite (add_employee_table_app (add_department_analysis _ ([ln (Some 5)] ++ _) _)).
  rewrite (add_department_analysis_app ((doc ++ _) ++ _)).
  rewrite (add_department_analysis_app ([ln (Some 5)] ++ _)).
  now rewrite <- !app_assoc.
Qed.

(** The controller is the analysis followed by the writing of a
    document that is fixed but for its date line. *)
Lemma generate_report_unfold w :
  generate_report int_of_str str_float strftime w
  = match analysis int_of_str w with
    | (Ok (employees, stats, dept_avg), w') =>
        (Ok tt,
         printed "PDF report generated successfully!"
           (with_file OUTPUT_FILE
              (PdfFile ([set_auto_page_break true PAGE_MARGIN; add_page;
                         set_font "Arial" "" 11]
                        ++ date_line (strftime (now w') "%B %d, %Y")
                        :: report_tail str_float employees stats dept_avg))
              w'))
    | (Raise e, w') => (Raise e, w')
    end.
Proof.
  unfold generate_report, analysis, bind.
  destruct (check_file_exists DATA_FILE w) as [[[]|e] w1]; [|reflexivity].
  destruct (read_csv_data int_of_str DATA_FILE w1) as [[employees|e] w2]; [|reflexivity].
  destruct (calculate_statistics employees w2) as [[stats|e] w3]; [|reflexivity].
  destruct (department_wise_average employees w3) as [[dept_avg|e] w4]; [|reflexivity].
  cbn [ret]. unfold add_report_metadata, bind, datetime_now, ret.
  change (([] ++ [set_auto_page_break true PAGE_MARGIN]) ++ [add_page])
    with [set_auto_page_break true PAGE_MARGIN; add_page].
  change ([set_auto_page_break true PAGE_MARGIN; add_page] ++ [set_font "Arial" "" 11])
    with [set_auto_page_break true PAGE_MARGIN; add_page; set_font "Arial" "" 11].
  set (head := [set_auto_page_break true PAGE_MARGIN; add_page; set_font "Arial" "" 11]).
  set (d := cell 0 8 _ 0 true "").
  change (head ++ [d; ln (Some 5)]) with (head ++ [d] ++ [ln (Some 5)]).
  rewrite (app_assoc head [d]), report_tail_app, <- app_assoc.
  reflexivity.
Qed.
End Controller.


(** ** The store: what the analysis writes *)

Module StoreFacts.
Import Store StoreSpec.

Section Rules.
Context {A B : Type} (m0 : gmap loc object).
Implicit Types (P : gmap loc object -> Prop).

Lemma keeps_bind P (c : H A) (k : A -> H B) Q R :
  keeps m0 P c Q -> (forall a, keeps m0 (Q a) (k a) R) ->
  keeps m0 P (bind c k) R.
Proof.
  intros Hc Hk h Hsub HP. unfold bind.
  destruct (Hc h Hsub HP) as [Hsub1 HQ].
  destruct (c h) as [[a|e] h1]; cbn [fst snd] in *.
  - apply (Hk a h1 Hsub1). now apply HQ.
  - split; [exact Hsub1 | discriminate].
Qed.

Lemma keeps_weaken P (c : H A) (Q Q' : A -> gmap loc object -> Prop) :
  keeps m0 P c Q -> (forall a m, Q a m -> Q' a m) -> keeps m0 P c Q'.
Proof.
  intros Hc HQ h Hsub HP. destruct (Hc h Hsub HP) as [Hsub1 Hq].
  split; [exact Hsub1|]. intros a Ha. now apply HQ, Hq.
Qed.

Lemma keeps_strengthen P P' (c : H A) Q :
  (forall m, P m -> P' m) -> keeps m0 P' c Q -> keeps m0 P c Q.
Proof. intros HP Hc h Hsub Hh. apply Hc; auto. Qed.

Lemma keeps_pure P (c : H A) Q (phi : Prop) :
  (forall m, P m -> phi) -> (phi -> keeps m0 P c Q) -> keeps m0 P c Q.
Proof. intros Hphi Hc h Hsub HP. apply Hc; eauto. Qed.

Lemma keeps_ret P (a : A) : keeps m0 P (ret a) (fun a' m => a' = a /\ P m).
Proof.
  intros h Hsub HP. split; [exact Hsub|]. intros a' [= <-]. now split.
Qed.

Lemma keeps_raise P e (Q : A -> gmap loc object -> Prop) :
  keeps m0 P (raise e) Q.
Proof. intros h Hsub HP. split; [exact Hsub | discriminate]. Qed.

Lemma keeps_lift P (r : result A) :
  keeps m0 P (lift r) (fun a m => r = Ok a /\ P m).
Proof.
  intros h Hsub HP. split; [exact Hsub|]. cbn. intros a ->. now split.
Qed.
End Rules.

Section Primitives.
Context (m0 : gmap loc object).
Implicit Types (P : gmap loc object -> Prop).

Lemma keeps_print P s : keeps m0 P (print s) (fun _ m => P m).
Proof. intros h Hsub HP. split; [exact Hsub|]. intros _ _. exact HP. Qed.

Lemma keeps_load P v :
  keeps m0 P (load v)
        (fun o m => P m /\ exists l, v = VRef l /\ m !! l = Some o).
Proof.
  intros h Hsub HP. unfold load.
  destruct v as [| | | |l]; try (split; [exact Hsub | discriminate]).
  destruct (objs h !! l) as [o|] eqn:Hl; cbn [fst snd].
  - split; [exact Hsub|]. intros o' [= <-]. split; [exact HP|]. eauto.
  - split; [exact Hsub | discriminate].
Qed.

Lemma keeps_alloc P o :
  keeps m0 P (alloc o)
        (fun v m' => exists l m, v = VRef l /\ m0 !! l = None
                                 /\ m !! l = None /\ P m
                                 /\ m' = <[l := o]> m).
Proof.
  intros h Hsub HP. unfold alloc. cbn [fst snd objs].
  set (l := fresh (dom (objs h))).
  assert (Hl : objs h !! l = None).
  { apply not_elem_of_dom. apply is_fresh. }
  assert (Hl0 : m0 !! l = None).
  { destruct (m0 !! l) as [o'|] eqn:H0; [|reflexivity].
    apply (lookup_weaken _ _ _ _ H0) in Hsub. congruence. }
  split.
  - now apply insert_subseteq_r.
  - intros v [= <-]. exists l, (objs h). auto.
Qed.

Lemma keeps_store_at P l o :
  m0 !! l = None ->
  keeps m0 P (store_at l o) (fun _ m' => exists m, P m /\ m' = <[l := o]> m).
Proof.
  intros Hl h Hsub HP. unfold store_at. cbn [fst snd objs]. split.
  - now apply insert_subseteq_r.
  - intros _ _. eauto.
Qed.

Lemma keeps_list_items P v :
  keeps m0 P (list_items v)
        (fun items m => P m /\ exists l, v = VRef l /\ m !! l = Some (OList items)).
Proof.
  unfold list_items. eapply keeps_bind; [apply keeps_load|].
  intros [items|items]; cbn beta.
  - eapply keeps_weaken; [apply keeps_ret|].
    intros a m [-> H]. exact H.
  - apply keeps_raise.
Qed.

Lemma keeps_dict_items P v :
  keeps m0 P (dict_items v)
        (fun items m => P m /\ exists l, v = VRef l /\ m !! l = Some (ODict items)).
Proof.
  unfold dict_items. eapply keeps_bind; [apply keeps_load|].
  intros [items|items]; cbn beta.
  - apply keeps_raise.
  - eapply keeps_weaken; [apply keeps_ret|].
    intros a m [-> H]. exact H.
Qed.

Lemma keeps_dict_getitem P d k :
  keeps m0 P (dict_getitem d k)
        (fun v m => P m /\ exists l items,
                      d = VRef l /\ m !! l = Some (ODict items)
                      /\ Dict.get k items = Some v).
Proof.
  unfold dict_getitem. eapply keeps_bind; [apply keeps_dict_items|].
  intros items. cbn beta. destruct (Dict.get k items) as [v|] eqn:Hget.
  - eapply keeps_weaken; [apply keeps_ret|].
    intros a m [-> [HP (l & -> & Hl)]]. split; [exact HP|]. eauto.
  - apply keeps_raise.
Qed.

Lemma keeps_dict_contains P d k :
  keeps m0 P (dict_contains d k) (fun _ m => P m).
Proof.
  unfold dict_contains. eapply keeps_bind; [apply keeps_dict_items|].
  intros items. cbn beta. eapply keeps_weaken; [apply keeps_ret|].
  intros a m [_ [HP _]]. exact HP.
Qed.

(** Writing a dict that was allocated after [m0]. *)
Lemma keeps_dict_setitem P l k v :
  m0 !! l = None ->
  keeps m0 P (dict_setitem (VRef l) k v)
        (fun _ m' => exists m items,
                       P m /\ m !! l = Some (ODict items)
                       /\ m' = <[l := ODict (Dict.set k v items)]> m).
Proof.
  intros Hl. unfold dict_setitem.
  eapply keeps_bind; [apply keeps_dict_items|].
  intros items. cbn beta.
  eapply keeps_weaken; [apply keeps_store_at, Hl|].
  intros _ m' (m & [HP (l' & [= <-] & Hm)] & ->). eauto.
Qed.

(** Appending to a list that was allocated after [m0]. *)
Lemma keeps_list_append P l x :
  m0 !! l = None ->
  keeps m0 P (list_append (VRef l) x)
        (fun _ m' => exists m items,
                       P m /\ m !! l = Some (OList items)
                       /\ m' = <[l := OList (items ++ [x])]> m).
Proof.
  intros Hl. unfold list_append.
  eapply keeps_bind; [apply keeps_list_items|].
  intros items. cbn beta.
  eapply keeps_weaken; [apply keeps_store_at, Hl|].
  intros _ m' (m & [HP (l' & [= <-] & Hm)] & ->). eauto.
Qed.
End Primitives.

Section Loops.
Context (m0 : gmap loc object) (P : gmap loc object -> Prop).

Lemma keeps_collect {A B} (f : A -> H B) (l : list A) :
  (forall x, keeps m0 P (f x) (fun _ m => P m)) ->
  keeps m0 P (collect f l) (fun _ m => P m).
Proof.
  intros Hf. induction l as [|x l IH]; cbn [collect].
  - eapply keeps_weaken; [apply keeps_ret|]. now intros a m [_ HP].
  - eapply keeps_bind; [apply Hf|]. intros y. cbn beta.
    eapply keeps_bind; [apply IH|]. intros ys. cbn beta.
    eapply keeps_weaken; [apply keeps_ret|]. now intros a m [_ HP].
Qed.

Lemma keeps_iterate fuel lst i (body : value -> H unit) :
  (forall x, keeps m0 P (body x) (fun _ m => P m)) ->
  keeps m0 P (iterate fuel lst i body) (fun _ m => P m).
Proof.
  intros Hbody. revert i. induction fuel as [|fuel IH]; intros i; cbn [iterate].
  - eapply keeps_weaken; [apply keeps_ret|]. now intros a m [_ HP].
  - eapply keeps_bind; [apply keeps_list_items|]. intros items. cbn beta.
    destruct (items !! i) as [x|].
    + eapply keeps_bind.
      * eapply keeps_strengthen; [|apply Hbody]. now intros m [HP _].
      * intros u. apply IH.
    + eapply keeps_weaken; [apply keeps_ret|]. now intros a m [_ [HP _]].
Qed.

Lemma keeps_for_in lst (body : value -> H unit) :
  (forall x, keeps m0 P (body x) (fun _ m => P m)) ->
  keeps m0 P (for_in lst body) (fun _ m => P m).
Proof.
  intros Hbody. unfold for_in.
  eapply keeps_bind; [apply keeps_list_items|]. intros items. cbn beta.
  eapply keeps_strengthen; [|now apply keeps_iterate]. now intros m [HP _].
Qed.
End Loops.

Lemma keeps_rounded_mean_at m0 P scores :
  keeps m0 P (rounded_mean_at scores) (fun _ m => P m).
Proof.
  unfold rounded_mean_at.
  eapply keeps_bind; [apply keeps_list_items|]. intros items. cbn beta.
  eapply keeps_bind; [apply keeps_lift|]. intros data. cbn beta.
  eapply keeps_bind; [apply keeps_lift|]. intros average. cbn beta.
  eapply keeps_weaken; [apply keeps_ret|].
  now intros a m (_ & _ & _ & HP & _).
Qed.

(** A step whose result the rest of the proof does not look at. *)
Ltac keeps_step rule :=
  eapply keeps_bind;
  [ eapply (keeps_weaken _ _ _ _ (fun _ _ => True));
    [ rule | intros ? ? _; exact I ]
  | intros ?; cbn beta ].

Lemma keeps_trivial {A} m0 (c : H A) Q :
  keeps m0 (fun _ => True) c Q -> keeps m0 (fun _ => True) c (fun _ _ => True).
Proof. intros Hc. eapply keeps_weaken; [exact Hc | auto]. Qed.

Lemma keeps_calculate_statistics m0 employees :
  keeps m0 (fun _ => True) (calculate_statistics employees) (fun _ _ => True).
Proof.
  unfold calculate_statistics.
  keeps_step ltac:(apply keeps_list_items).
  keeps_step ltac:(apply (keeps_collect m0 (fun _ => True));
                   intros emp; eapply keeps_trivial, keeps_dict_getitem).
  keeps_step ltac:(apply keeps_alloc).
  keeps_step ltac:(eapply keeps_bind;
                   [eapply keeps_trivial, keeps_list_items
                   | intros items; eapply keeps_trivial, keeps_ret]).
  keeps_step ltac:(apply keeps_rounded_mean_at).
  keeps_step ltac:(eapply keeps_bind;
                   [eapply keeps_trivial, keeps_list_items
                   | intros items; eapply keeps_trivial, keeps_lift]).
  keeps_step ltac:(apply keeps_lift).
  keeps_step ltac:(apply keeps_lift).
  keeps_step ltac:(apply keeps_alloc).
  keeps_step ltac:(apply keeps_print).
  eapply keeps_trivial, keeps_ret.
Qed.

(** ** The grouping loop writes only what the call allocated *)

Lemma groups_fresh_insert_other m0 dd m l o :
  groups_fresh m0 dd m -> l <> dd -> groups_fresh m0 dd (<[l := o]> m).
Proof.
  intros (items & Hdd & Hv) Hne. exists items.
  split; [|exact Hv]. now rewrite lookup_insert_ne.
Qed.

Lemma keeps_group_body m0 dd emp :
  m0 !! dd = None ->
  keeps m0 (groups_fresh m0 dd) (group_score (VRef dd) emp)
    (fun _ m => groups_fresh m0 dd m).
Proof.
  intros Hdd. unfold group_score.
  eapply keeps_bind.
  { eapply keeps_weaken; [apply keeps_dict_getitem|].
    intros a m [HP _]. exact HP. }
  intros dept. cbn beta.
  eapply keeps_bind.
  { eapply keeps_weaken; [apply keeps_dict_getitem|].
    intros a m [HP _]. exact HP. }
  intros score. cbn beta.
  eapply keeps_bind; [apply keeps_dict_contains|]. intros present. cbn beta.
  eapply keeps_bind.
  { instantiate (1 := fun _ m => groups_fresh m0 dd m).
    destruct (negb present).
    - eapply keeps_bind; [apply keeps_alloc|]. intros fresh_list. cbn beta.
      eapply keeps_pure.
      { intros m' (l & m & Hv & Hl0 & _).
        exact (ex_intro (fun l => fresh_list = VRef l /\ m0 !! l = None) l
                        (conj Hv Hl0)). }
      intros (l & -> & Hl0).
      eapply keeps_weaken; [apply keeps_dict_setitem, Hdd|].
      intros _ m' (m & items & (l' & m1 & [= <-] & _ & Hl1 & HP & ->) & Hm & ->).
      destruct HP as (items1 & Hdd1 & Hv1).
      assert (Hne : l <> dd) by congruence.
      rewrite lookup_insert_ne in Hm by exact Hne.
      assert (items = items1) by congruence. subst items1.
      exists (Dict.set dept (VRef l) items).
      split; [now rewrite lookup_insert_eq|].
      intros k v. rewrite get_set.
      destruct (bool_decide (dept = k)); [intros [= <-]; eauto | apply Hv1].
    - eapply keeps_weaken; [apply keeps_ret|]. now intros a m [_ HP]. }
  intros u.
  eapply keeps_bind; [apply keeps_dict_getitem|]. intros scores. cbn beta.
  eapply keeps_pure.
  { intros m [(items & Hm & Hv) (l & items' & [= <-] & Hm' & Hget)].
    assert (items' = items) by congruence. subst items'.
    exact (Hv _ _ Hget). }
  intros (l & -> & Hl0).
  eapply keeps_weaken; [apply keeps_list_append, Hl0|].
  intros _ m' (m & items & [HP _] & Hm & ->).
  apply groups_fresh_insert_other; [exact HP|].
  destruct HP as (items1 & Hdd1 & _). congruence.
Qed.

Lemma keeps_department_wise_average m0 employees :
  keeps m0 (fun _ => True) (department_wise_average employees)
        (fun _ _ => True).
Proof.
  unfold department_wise_average.
  eapply keeps_bind; [apply keeps_alloc|]. intros dept_data. cbn beta.
  eapply keeps_pure.
  { intros m' (l & m & Hv & Hl0 & _).
    exact (ex_intro (fun l => dept_data = VRef l /\ m0 !! l = None) l
                    (conj Hv Hl0)). }
  intros (dd & -> & Hdd).
  eapply keeps_bind.
  { eapply (keeps_strengthen _ _ (groups_fresh m0 dd)).
    - intros m (l & m1 & [= <-] & _ & _ & _ & ->).
      exists []. split; [now rewrite lookup_insert_eq | discriminate].
    - apply keeps_for_in. intros emp. now apply keeps_group_body. }
  intros ?.
  eapply keeps_bind; [apply keeps_alloc|]. intros dept_avg. cbn beta.
  eapply keeps_pure.
  { intros m' (l & m & Hv & Hl0 & _).
    exact (ex_intro (fun l => dept_avg = VRef l /\ m0 !! l = None) l
                    (conj Hv Hl0)). }
  intros (da & -> & Hda).
  keeps_step ltac:(apply keeps_dict_items).
  keeps_step ltac:(apply (keeps_collect m0 (fun _ => True));
                   intros [dept scores]; unfold average_group;
                   (eapply keeps_bind; [apply keeps_rounded_mean_at|]);
                   intros average;
                   eapply keeps_weaken; [apply keeps_dict_setitem, Hda | auto]).
  keeps_step ltac:(apply keeps_print).
  eapply keeps_trivial, keeps_ret.
Qed.

(** C10.  Every object of the store, and so the list of records passed
    in and every record in it, is after [calculate_statistics] and
    after [department_wise_average] what it was before. *)
Theorem analysis_leaves_objects_unchanged
        (h : store) (employees : value) (l : loc) (o : object) :
  objs h !! l = Some o ->
  objs (snd (calculate_statistics employees h)) !! l = Some o
  /\ objs (snd (department_wise_average employees h)) !! l = Some o.
Proof.
  intros Hl. split.
  - destruct (keeps_calculate_statistics (objs h) employees h) as [Hsub _];
      [reflexivity | exact I |].
    exact (lookup_weaken _ _ _ _ Hl Hsub).
  - destruct (keeps_department_wise_average (objs h) employees h) as [Hsub _];
      [reflexivity | exact I |].
    exact (lookup_weaken _ _ _ _ Hl Hsub).
Qed.
End StoreFacts.

(** ** The store: the functions compute what their value-level
    embeddings compute *)

Module StoreRefinement.
Import Store StoreSpec.

Lemma as_ints_VInt (zs : list Z) : as_ints (map VInt zs) = Ok zs.
Proof. induction zs as [|z zs IH]; cbn; [reflexivity|]. now rewrite IH. Qed.

Lemma bind_ok {S A B} (c : St S A) (k : A -> St S B) h a h' :
  c h = (Ok a, h') -> bind c k h = k a h'.
Proof. intros Hc. unfold bind. now rewrite Hc. Qed.

Lemma bind_raise {S A B} (c : St S A) (k : A -> St S B) h e h' :
  c h = (Raise e, h') -> bind c k h = (Raise e, h').
Proof. intros Hc. unfold bind. now rewrite Hc. Qed.

Lemma list_items_at h l items :
  objs h !! l = Some (OList items) -> list_items (VRef l) h = (Ok items, h).
Proof. intros Hl. unfold list_items, bind, load. now rewrite Hl. Qed.

Lemma dict_items_at h l items :
  objs h !! l = Some (ODict items) -> dict_items (VRef l) h = (Ok items, h).
Proof. intros Hl. unfold dict_items, bind, load. now rewrite Hl. Qed.

Lemma dict_getitem_at h l items k v :
  objs h !! l = Some (ODict items) -> Dict.get k items = Some v ->
  dict_getitem (VRef l) k h = (Ok v, h).
Proof.
  intros Hl Hk. unfold dict_getitem.
  rewrite (bind_ok _ _ _ _ _ (dict_items_at h l items Hl)). now rewrite Hk.
Qed.

Lemma collect_scores h locs employees :
  Forall2 (fun r emp => objs h !! r = Some (employee_object emp)) locs employees ->
  collect (fun emp => dict_getitem emp (VStr "score")) (map VRef locs) h
  = (Ok (map VInt (map score employees)), h).
Proof.
  induction 1 as [|r emp locs employees Hr _ IH]; cbn [collect map]; [reflexivity|].
  rewrite (bind_ok _ _ h (VInt (score emp)) h)
    by (now apply (dict_getitem_at h r _ _ _ Hr)).
  now rewrite (bind_ok _ _ h _ h IH).
Qed.

Lemma rounded_mean_at_list h l (zs : list Z) :
  objs h !! l = Some (OList (map VInt zs)) ->
  rounded_mean_at (VRef l) h
  = (match rounded_mean zs with Ok avg => Ok (of_num avg) | Raise e => Raise e end, h).
Proof.
  intros Hl. unfold rounded_mean_at.
  rewrite (bind_ok _ _ _ _ _ (list_items_at h l _ Hl)).
  unfold bind, lift. rewrite as_ints_VInt.
  now destruct (rounded_mean zs).
Qed.

Lemma calculate_statistics_refines h l employees :
  holds_records (objs h) l employees ->
  match statistics_of (map score employees) with
  | Ok stats =>
      exists r,
        fst (Store.calculate_statistics (VRef l) h) = Ok (VRef r)
        /\ objs (snd (Store.calculate_statistics (VRef l) h)) !! r
           = Some (statistics_object stats)
  | Raise e => fst (Store.calculate_statistics (VRef l) h) = Raise e
  end.
Proof.
  intros (locs & Hl & Hrecs).
  unfold Store.calculate_statistics.
  rewrite (bind_ok _ _ _ _ _ (list_items_at h l _ Hl)).
  rewrite (bind_ok _ _ _ _ _ (collect_scores h locs employees Hrecs)).
  set (scores := map score employees).
  set (l1 := fresh (dom (objs h))).
  assert (Hne : l1 <> l).
  { intros Heq. pose proof (is_fresh (dom (objs h))) as Hf.
    apply Hf. fold l1. rewrite Heq. apply elem_of_dom. eauto. }
  set (h1 := {| objs := <[l1 := OList (map VInt scores)]> (objs h);
                out := out h |}).
  rewrite (bind_ok _ _ h (VRef l1) h1) by reflexivity.
  assert (Hl1 : objs h1 !! l = Some (OList (map VRef locs)))
    by (cbn; now rewrite lookup_insert_ne).
  assert (Hs1 : objs h1 !! l1 = Some (OList (map VInt scores)))
    by (cbn; now rewrite lookup_insert_eq).
  rewrite (bind_ok _ _ h1 (VInt (len (map VRef locs))) h1)
    by (now rewrite (bind_ok _ _ _ _ _ (list_items_at h1 l _ Hl1))).
  unfold statistics_of.
  destruct (rounded_mean scores) as [avg|e] eqn:Havg; cbn [rbind].
  2:{ rewrite (bind_raise _ _ h1 e h1); [reflexivity|].
      now rewrite (rounded_mean_at_list h1 l1 scores Hs1), Havg. }
  rewrite (bind_ok _ _ h1 (of_num avg) h1)
    by (now rewrite (rounded_mean_at_list h1 l1 scores Hs1), Havg).
  rewrite (bind_ok _ _ h1 scores h1).
  2:{ rewrite (bind_ok _ _ _ _ _ (list_items_at h1 l1 _ Hs1)).
      unfold lift. now rewrite as_ints_VInt. }
  destruct (py_max scores) as [hi|e]; cbn [rbind];
    [rewrite (bind_ok _ _ h1 hi h1) by reflexivity
    |now rewrite (bind_raise _ _ h1 e h1) by reflexivity].
  destruct (py_min scores) as [lo|e]; cbn [rbind];
    [rewrite (bind_ok _ _ h1 lo h1) by reflexivity
    |now rewrite (bind_raise _ _ h1 e h1) by reflexivity].
  unfold bind, alloc, Store.print, ret. cbn [fst snd objs out].
  eexists. split; [reflexivity|].
  rewrite lookup_insert_eq. unfold statistics_object, len, scores. cbn.
  rewrite !length_map. now rewrite (Forall2_length _ _ _ Hrecs).
Qed.

Lemma of_text_inj d1 d2 : of_text d1 = of_text d2 -> d1 = d2.
Proof. destruct d1, d2; cbn; congruence. Qed.

Lemma get_dict_of idx dept :
  Dict.get (of_text dept) (dict_of idx) = VRef <$> Dict.get dept idx.
Proof.
  induction idx as [|[d r] idx IH]; cbn; [reflexivity|].
  destruct (decide (d = dept)) as [-> | Hne].
  - now rewrite !bool_decide_eq_true_2.
  - rewrite !bool_decide_eq_false_2; [exact IH | assumption |].
    intros Heq. now apply of_text_inj in Heq.
Qed.

Lemma set_dict_of idx dept r :
  Dict.set (of_text dept) (VRef r) (dict_of idx) = dict_of (Dict.set dept r idx).
Proof.
  induction idx as [|[d r'] idx IH]; cbn; [reflexivity|].
  destruct (decide (d = dept)) as [-> | Hne].
  - now rewrite !bool_decide_eq_true_2.
  - rewrite !bool_decide_eq_false_2; [cbn; f_equal; apply IH | assumption |].
    intros Heq. now apply of_text_inj in Heq.
Qed.

Lemma get_Some_elem_of {K} `{EqDecision K} {V} (d : Dict.t K V) k v :
  Dict.get k d = Some v -> (k, v) ∈ d.
Proof.
  induction d as [|[k' v'] d IH]; cbn; [discriminate|].
  destruct (decide (k' = k)) as [-> | Hne].
  - rewrite bool_decide_eq_true_2 by reflexivity. intros [= ->]. left.
  - rewrite bool_decide_eq_false_2 by assumption. intros Hg. right. auto.
Qed.

Lemma elem_of_get_Some {K} `{EqDecision K} {V} (d : Dict.t K V) k v :
  NoDup (Dict.keys d) -> (k, v) ∈ d -> Dict.get k d = Some v.
Proof.
  induction d as [|[k' v'] d IH]; cbn; [intros _ Hin; inversion Hin|].
  intros Hnd Hin. apply NoDup_cons in Hnd. destruct Hnd as [Hk Hnd].
  apply elem_of_cons in Hin. destruct Hin as [[= -> ->] | Hin].
  - now rewrite bool_decide_eq_true_2.
  - rewrite bool_decide_eq_false_2; [now apply IH|].
    intros ->. apply Hk. unfold Dict.keys.
    apply list_elem_of_fmap. exists (k, v). split; [reflexivity | exact Hin].
Qed.

Lemma snd_determines_key (idx : Dict.t pytext loc) d1 d2 r :
  NoDup (map snd idx) -> (d1, r) ∈ idx -> (d2, r) ∈ idx -> d1 = d2.
Proof.
  induction idx as [|[d r'] idx IH]; cbn; [intros _ Hin; inversion Hin|].
  intros Hnd H1 H2. apply NoDup_cons in Hnd. destruct Hnd as [Hr Hnd].
  apply elem_of_cons in H1, H2.
  assert (Hout : forall d', (d', r') ∈ idx -> False).
  { intros d' Hin. apply Hr. apply list_elem_of_fmap. exists (d', r'). auto. }
  destruct H1 as [H1 | H1], H2 as [H2 | H2].
  - congruence.
  - exfalso. injection H1 as -> ->. eauto.
  - exfalso. injection H2 as -> ->. eauto.
  - auto.
Qed.

Lemma dict_contains_at h l items k :
  objs h !! l = Some (ODict items) ->
  dict_contains (VRef l) k h = (Ok (Dict.contains k items), h).
Proof.
  intros Hl. unfold dict_contains.
  now rewrite (bind_ok _ _ _ _ _ (dict_items_at h l items Hl)).
Qed.

Lemma dict_setitem_at h l items k v :
  objs h !! l = Some (ODict items) ->
  dict_setitem (VRef l) k v h
  = (Ok tt, {| objs := <[l := ODict (Dict.set k v items)]> (objs h);
               out := out h |}).
Proof.
  intros Hl. unfold dict_setitem.
  now rewrite (bind_ok _ _ _ _ _ (dict_items_at h l items Hl)).
Qed.

Lemma list_append_at h l items x :
  objs h !! l = Some (OList items) ->
  list_append (VRef l) x h
  = (Ok tt, {| objs := <[l := OList (items ++ [x])]> (objs h); out := out h |}).
Proof.
  intros Hl. unfold list_append.
  now rewrite (bind_ok _ _ _ _ _ (list_items_at h l items Hl)).
Qed.

Lemma fresh_not_in (m : gmap loc object) : m !! fresh (dom m) = None.
Proof. apply not_elem_of_dom, is_fresh. Qed.

Lemma subseteq_None (m0 m : gmap loc object) l :
  m0 ⊆ m -> m !! l = None -> m0 !! l = None.
Proof.
  intros Hsub Hl. destruct (m0 !! l) as [o|] eqn:H0; [|reflexivity].
  apply (lookup_weaken _ _ _ _ H0) in Hsub. congruence.
Qed.

Lemma employee_fields emp :
  Dict.get (VStr "department")
    (match employee_object emp with ODict items => items | OList _ => [] end)
  = Some (of_text (department emp))
  /\ Dict.get (VStr "score")
       (match employee_object emp with ODict items => items | OList _ => [] end)
     = Some (VInt (score emp)).
Proof. split; reflexivity. Qed.

(** One turn of the grouping loop, on a record that the caller's store
    holds. *)
Lemma group_score_step m0 dd done idx h r emp :
  groups_at m0 dd done idx (objs h) ->
  m0 !! r = Some (employee_object emp) ->
  exists idx' h',
    group_score (VRef dd) (VRef r) h = (Ok tt, h')
    /\ groups_at m0 dd (done ++ [emp]) idx' (objs h').
Proof.
  intros (Hsub & Hdd0 & Hdd & Hkeys & Hnd & Hlists) Hr0.
  assert (Hr : objs h !! r = Some (employee_object emp))
    by exact (lookup_weaken _ _ _ _ Hr0 Hsub).
  assert (Hkeys_nd : NoDup (Dict.keys idx))
    by (rewrite Hkeys; apply first_seen_NoDup).
  unfold group_score.
  rewrite (bind_ok _ _ h (of_text (department emp)) h)
    by (now apply (dict_getitem_at h r _ _ _ Hr)).
  rewrite (bind_ok _ _ h (VInt (score emp)) h)
    by (now apply (dict_getitem_at h r _ _ _ Hr)).
  rewrite (bind_ok _ _ _ _ _ (dict_contains_at h dd _ _ Hdd)).
  unfold Dict.contains. rewrite get_dict_of.
  set (dept := department emp). set (sc := score emp).
  destruct (Dict.get dept idx) as [rl|] eqn:Hget; cbn [fmap option_fmap option_map negb].
  - (* the department has its list already *)
    rewrite (bind_ok _ _ h tt h) by reflexivity.
    assert (Hin : (dept, rl) ∈ idx) by now apply get_Some_elem_of.
    destruct (Hlists dept rl Hin) as [Hrl0 Hrl].
    rewrite (bind_ok _ _ h (VRef rl) h).
    2:{ apply (dict_getitem_at h dd _ _ _ Hdd). rewrite get_dict_of, Hget. reflexivity. }
    rewrite (list_append_at h rl _ _ Hrl).
    exists idx. eexists. split; [reflexivity|]. cbn [objs].
    assert (Hne : rl <> dd) by congruence.
    assert (Hseen : dept ∈ map department done).
    { apply first_seen_elem_of. rewrite <- Hkeys. unfold Dict.keys.
      apply list_elem_of_fmap. exists (dept, rl). auto. }
    refine (conj _ (conj Hdd0 (conj _ (conj _ (conj Hnd _))))).
    + now apply insert_subseteq_r.
    + now rewrite lookup_insert_ne.
    + rewrite Hkeys, map_app. cbn [map]. rewrite first_seen_snoc.
      fold dept. rewrite decide_True by assumption. now rewrite app_nil_r.
    + intros d r0 H. split; [now apply (Hlists d r0)|].
      destruct (Hlists d r0 H) as [_ Hl0]. rewrite scores_of_snoc. fold dept sc.
      destruct (decide (r0 = rl)) as [-> | Hner].
      * assert (d = dept) by (eapply snd_determines_key; eauto). subst d.
        rewrite lookup_insert_eq, bool_decide_eq_true_2 by reflexivity.
        now rewrite map_app.
      * rewrite lookup_insert_ne by congruence.
        rewrite bool_decide_eq_false_2; [now rewrite app_nil_r|].
        intros <-. apply Hner.
        pose proof (elem_of_get_Some idx dept r0 Hkeys_nd H) as Hg. congruence.
  - (* a new department: its list is allocated and entered in the dict *)
    set (lf := fresh (dom (objs h))).
    assert (Hlf : objs h !! lf = None) by apply fresh_not_in.
    assert (Hlf0 : m0 !! lf = None) by exact (subseteq_None _ _ _ Hsub Hlf).
    assert (Hlfdd : lf <> dd) by congruence.
    set (h1 := {| objs := <[lf := OList []]> (objs h); out := out h |}).
    assert (Hdd1 : objs h1 !! dd = Some (ODict (dict_of idx)))
      by (cbn; now rewrite lookup_insert_ne).
    set (idx' := Dict.set dept lf idx).
    set (h2 := {| objs := <[dd := ODict (dict_of idx')]> (objs h1); out := out h1 |}).
    rewrite (bind_ok _ _ h tt h2).
    2:{ rewrite (bind_ok _ _ h (VRef lf) h1) by reflexivity.
        rewrite (dict_setitem_at h1 dd _ _ _ Hdd1). now rewrite set_dict_of. }
    assert (Hidx' : idx' = idx ++ [(dept, lf)]) by (now apply set_absent).
    rewrite (bind_ok _ _ h2 (VRef lf) h2).
    2:{ apply (dict_getitem_at h2 dd (dict_of idx')).
        - cbn. now rewrite lookup_insert_eq.
        - rewrite get_dict_of. unfold idx'. rewrite get_set.
          now rewrite bool_decide_eq_true_2. }
    assert (Hlf2 : objs h2 !! lf = Some (OList [])).
    { cbn. rewrite lookup_insert_ne by congruence. now rewrite lookup_insert_eq. }
    rewrite (list_append_at h2 lf _ _ Hlf2).
    exists idx'. eexists. split; [reflexivity|]. cbn [objs h2 h1 app].
    assert (Hnew : dept ∉ map department done).
    { rewrite <- first_seen_elem_of, <- Hkeys. intros Hin.
      apply list_elem_of_In in Hin. revert Hin. now apply get_None_notin. }
    refine (conj _ (conj Hdd0 (conj _ (conj _ (conj _ _))))).
    + repeat apply insert_subseteq_r; assumption.
    + rewrite lookup_insert_ne by congruence. now rewrite lookup_insert_eq.
    + rewrite Hidx'. unfold Dict.keys. rewrite !map_app. cbn [map fst].
      rewrite first_seen_snoc. fold dept. rewrite decide_False by assumption.
      f_equal. exact Hkeys.
    + rewrite Hidx', map_app. cbn [map snd]. apply NoDup_app.
      split; [exact Hnd|]. split; [|apply NoDup_singleton].
      intros x Hx Hx'. apply list_elem_of_singleton in Hx'. subst x.
      apply list_elem_of_fmap in Hx. destruct Hx as ([d r0] & Hsnd & Hin).
      cbn in Hsnd. subst r0. destruct (Hlists d lf Hin) as [_ Hl0]. congruence.
    + intros d r0 H. rewrite Hidx' in H. apply elem_of_app in H. split.
      { destruct H as [H | H].
        - now apply (Hlists d r0).
        - apply list_elem_of_singleton in H. injection H as -> ->. exact Hlf0. }
      rewrite scores_of_snoc.
      fold dept sc. destruct H as [H | H].
      * destruct (Hlists d r0 H) as [_ Hl0].
        assert (r0 <> lf) by congruence. assert (r0 <> dd) by congruence.
        rewrite !lookup_insert_ne by congruence.
        rewrite bool_decide_eq_false_2; [now rewrite app_nil_r|].
        intros <-. pose proof (elem_of_get_Some idx dept r0 Hkeys_nd H). congruence.
      * apply list_elem_of_singleton in H. injection H as -> ->.
        rewrite lookup_insert_eq, bool_decide_eq_true_2 by reflexivity.
        now rewrite (scores_of_absent dept done Hnew).
Qed.

(** The grouping loop over the records that remain. *)
Lemma iterate_groups m0 dd l locs :
  m0 !! l = Some (OList (map VRef locs)) ->
  forall rest_locs rest,
    Forall2 (fun r emp => m0 !! r = Some (employee_object emp)) rest_locs rest ->
    forall done_locs done idx h,
      locs = done_locs ++ rest_locs ->
      groups_at m0 dd done idx (objs h) ->
      exists idx' h',
        iterate (S (length rest_locs)) (VRef l) (length done_locs)
                (group_score (VRef dd)) h = (Ok tt, h')
        /\ groups_at m0 dd (done ++ rest) idx' (objs h').
Proof.
  intros Hl0 rest_locs rest Hrest.
  induction Hrest as [|r emp rest_locs rest Hr _ IH];
    intros done_locs done idx h Hlocs Hinv.
  - assert (Hl : objs h !! l = Some (OList (map VRef locs))).
    { destruct Hinv as [Hsub _]. exact (lookup_weaken _ _ _ _ Hl0 Hsub). }
    exists idx, h. cbn [iterate length].
    rewrite (bind_ok _ _ _ _ _ (list_items_at h l _ Hl)).
    rewrite app_nil_r in Hlocs. subst locs.
    rewrite lookup_ge_None_2 by (now rewrite length_map).
    split; [reflexivity|]. now rewrite app_nil_r.
  - assert (Hl : objs h !! l = Some (OList (map VRef locs))).
    { destruct Hinv as [Hsub _]. exact (lookup_weaken _ _ _ _ Hl0 Hsub). }
    cbn [iterate length].
    rewrite (bind_ok _ _ _ _ _ (list_items_at h l _ Hl)).
    assert (Hi : map VRef locs !! length done_locs = Some (VRef r)).
    { subst locs. rewrite map_app. cbn [map].
      rewrite <- (length_map VRef done_locs). apply list_lookup_middle. reflexivity. }
    rewrite Hi.
    destruct (group_score_step m0 dd done idx h r emp Hinv Hr)
      as (idx1 & h1 & Hstep & Hinv1).
    rewrite (bind_ok _ _ _ _ _ Hstep).
    destruct (IH (done_locs ++ [r]) (done ++ [emp]) idx1 h1) as (idx' & h' & Hit & Hinv').
    + subst locs. now rewrite <- app_assoc.
    + exact Hinv1.
    + exists idx', h'. rewrite length_app, Nat.add_1_r in Hit.
      split; [exact Hit|]. now rewrite <- app_assoc in Hinv'.
Qed.

Lemma get_averages (acc : Dict.t pytext pynum) dept :
  Dict.get (of_text dept)
           (map (fun '(d, avg) => (of_text d, of_num avg)) acc)
  = of_num <$> Dict.get dept acc.
Proof.
  induction acc as [|[d avg] acc IH]; cbn; [reflexivity|].
  destruct (decide (d = dept)) as [-> | Hne].
  - now rewrite !bool_decide_eq_true_2.
  - rewrite !bool_decide_eq_false_2; [exact IH | assumption |].
    intros Heq. now apply of_text_inj in Heq.
Qed.

(** The averaging loop over the groups that remain. *)
Lemma collect_averages employees da :
  forall (rest : Dict.t pytext loc) (acc : Dict.t pytext pynum) h,
    NoDup (Dict.keys rest) ->
    (forall dept, dept ∈ Dict.keys rest -> Dict.get dept acc = None) ->
    objs h !! da = Some (averages_object acc) ->
    (forall dept r, (dept, r) ∈ rest ->
       r <> da
       /\ objs h !! r = Some (OList (map VInt (scores_of dept employees)))) ->
    match traverse (fun '(dept, r) =>
                      rbind (rounded_mean (scores_of dept employees))
                            (fun avg => Ok (dept, avg))) rest with
    | Ok entries =>
        exists ys h',
          collect (average_group (VRef da)) (dict_of rest) h = (Ok ys, h')
          /\ objs h' !! da = Some (averages_object (acc ++ entries))
    | Raise e =>
        exists h', collect (average_group (VRef da)) (dict_of rest) h = (Raise e, h')
    end.
Proof.
  induction rest as [|[dept r] rest IH]; intros acc h Hnd Hfresh Hda Hlists.
  - cbn. exists [], h. split; [reflexivity|]. now rewrite app_nil_r.
  - cbn [traverse dict_of map collect].
    cbn in Hnd. apply NoDup_cons in Hnd. destruct Hnd as [Hnotin Hnd].
    destruct (Hlists dept r) as [Hne Hr]; [left|].
    unfold average_group at 1.
    destruct (rounded_mean (scores_of dept employees)) as [avg|e] eqn:Havg;
      cbn [rbind].
    2:{ eexists. apply bind_raise. apply bind_raise.
        now rewrite (rounded_mean_at_list h r _ Hr), Havg. }
    set (acc1 := acc ++ [(dept, avg)]).
    set (h1 := {| objs := <[da := averages_object acc1]> (objs h); out := out h |}).
    assert (Hstep : bind (rounded_mean_at (VRef r))
                      (fun average => dict_setitem (VRef da) (of_text dept) average) h
                    = (Ok tt, h1)).
    { rewrite (bind_ok _ _ h (of_num avg) h)
        by (now rewrite (rounded_mean_at_list h r _ Hr), Havg).
      rewrite (dict_setitem_at h da _ _ _ Hda). unfold h1, acc1, averages_object.
      rewrite set_absent.
      - now rewrite map_app.
      - rewrite get_averages, Hfresh by left. reflexivity. }
    specialize (IH acc1 h1 Hnd).
    destruct (traverse _ rest) as [entries|e]; cbn [rbind].
    + destruct IH as (ys & h' & Hc & Hda').
      * intros d Hd. unfold acc1. rewrite get_app, Hfresh by (now right). cbn.
        rewrite bool_decide_eq_false_2; [reflexivity|]. intros ->. contradiction.
      * cbn. now rewrite lookup_insert_eq.
      * intros d r0 Hin. destruct (Hlists d r0) as [Hne0 Hr0]; [now right|].
        split; [exact Hne0|]. cbn. now rewrite lookup_insert_ne.
      * exists (tt :: ys), h'. rewrite (bind_ok _ _ _ _ _ Hstep).
        rewrite (bind_ok _ _ _ _ _ Hc). split; [reflexivity|].
        unfold acc1 in Hda'. now rewrite <- app_assoc in Hda'.
    + destruct IH as (h' & Hc).
      * intros d Hd. unfold acc1. rewrite get_app, Hfresh by (now right). cbn.
        rewrite bool_decide_eq_false_2; [reflexivity|]. intros ->. contradiction.
      * cbn. now rewrite lookup_insert_eq.
      * intros d r0 Hin. destruct (Hlists d r0) as [Hne0 Hr0]; [now right|].
        split; [exact Hne0|]. cbn. now rewrite lookup_insert_ne.
      * exists h'. rewrite (bind_ok _ _ _ _ _ Hstep). now apply bind_raise.
Qed.

Lemma traverse_ext {A B} (f g : A -> result B) (l : list A) :
  (forall x, f x = g x) -> traverse f l = traverse g l.
Proof.
  intros Hfg. induction l as [|x l IH]; cbn; [reflexivity|].
  now rewrite Hfg, IH.
Qed.

(** On a store that holds the records, the store-level
    [department_wise_average] returns the dict that the value-level one
    returns, and raises what it raises. *)
Lemma department_wise_average_refines h l employees :
  holds_records (objs h) l employees ->
  match averaged employees with
  | Ok dept_avg =>
      exists r,
        fst (Store.department_wise_average (VRef l) h) = Ok (VRef r)
        /\ objs (snd (Store.department_wise_average (VRef l) h)) !! r
           = Some (averages_object dept_avg)
  | Raise e => fst (Store.department_wise_average (VRef l) h) = Raise e
  end.
Proof.
  intros (locs & Hl & Hrecs).
  set (m0 := objs h) in *.
  unfold Store.department_wise_average.
  set (dd := fresh (dom m0)).
  assert (Hdd0 : m0 !! dd = None) by apply fresh_not_in.
  set (h1 := {| objs := <[dd := ODict []]> m0; out := out h |}).
  rewrite (bind_ok _ _ h (VRef dd) h1) by reflexivity.
  assert (Hinv1 : groups_at m0 dd [] [] (objs h1)).
  { refine (conj _ (conj Hdd0 (conj _ (conj eq_refl (conj _ _))))).
    - now apply insert_subseteq.
    - cbn. now rewrite lookup_insert_eq.
    - constructor.
    - intros d r Hin. inversion Hin. }
  destruct (iterate_groups m0 dd l locs Hl locs employees Hrecs [] [] [] h1
              eq_refl Hinv1) as (idx & h2 & Hit & Hinv2).
  cbn [app length] in Hit, Hinv2.
  assert (Hfor : for_in (VRef l) (group_score (VRef dd)) h1 = (Ok tt, h2)).
  { unfold for_in.
    assert (Hl1 : objs h1 !! l = Some (OList (map VRef locs))).
    { destruct Hinv1 as [Hsub _]. exact (lookup_weaken _ _ _ _ Hl Hsub). }
    rewrite (bind_ok _ _ _ _ _ (list_items_at h1 l _ Hl1)).
    now rewrite length_map. }
  rewrite (bind_ok _ _ _ _ _ Hfor).
  destruct Hinv2 as (Hsub2 & _ & Hdd2 & Hkeys & Hnd & Hlists).
  set (da := fresh (dom (objs h2))).
  assert (Hda : objs h2 !! da = None) by apply fresh_not_in.
  set (h3 := {| objs := <[da := ODict []]> (objs h2); out := out h2 |}).
  rewrite (bind_ok _ _ h2 (VRef da) h3) by reflexivity.
  assert (Hdd3 : objs h3 !! dd = Some (ODict (dict_of idx))).
  { cbn. rewrite lookup_insert_ne by congruence. exact Hdd2. }
  rewrite (bind_ok _ _ _ _ _ (dict_items_at h3 dd _ Hdd3)).
  pose proof (collect_averages employees da idx [] h3) as Hcol.
  unfold averaged. rewrite <- Hkeys. unfold Dict.keys. rewrite traverse_map.
  rewrite (traverse_ext _ (fun '(dept, r) =>
                             rbind (rounded_mean (scores_of dept employees))
                                   (fun avg => Ok (dept, avg))))
    by (now intros [d r]).
  destruct (traverse _ idx) as [entries|e].
  - destruct Hcol as (ys & h' & Hc & Hda').
    + fold (Dict.keys idx). rewrite Hkeys. apply first_seen_NoDup.
    + reflexivity.
    + cbn. now rewrite lookup_insert_eq.
    + intros d r Hin. destruct (Hlists d r Hin) as [_ Hr].
      assert (r <> da) by congruence. split; [assumption|].
      cbn. now rewrite lookup_insert_ne.
    + rewrite (bind_ok _ _ _ _ _ Hc).
      unfold bind, Store.print, ret. cbn [fst snd objs].
      exists da. split; [reflexivity | exact Hda'].
  - destruct Hcol as (h' & Hc).
    + fold (Dict.keys idx). rewrite Hkeys. apply first_seen_NoDup.
    + reflexivity.
    + cbn. now rewrite lookup_insert_eq.
    + intros d r Hin. destruct (Hlists d r Hin) as [_ Hr].
      assert (r <> da) by congruence. split; [assumption|].
      cbn. now rewrite lookup_insert_ne.
    + now rewrite (bind_raise _ _ _ _ _ Hc).
Qed.
End StoreRefinement.

(** ** Runs on the sample inputs *)

(** The run on the sample input file succeeds. *)
Lemma sample_run :
  fst (generate_report Builtins.int_of_str Builtins.str_float Builtins.strftime
         sample_world) = Ok tt.
Proof. reflexivity. Qed.

(** On the sample store the store-level functions return what the
    value-level ones do. *)
Lemma sample_store_statistics :
  let '(r, h) := Store.calculate_statistics (Store.VRef 1%positive)
                   StoreSpec.sample_store in
  r = Ok (Store.VRef 6%positive)
  /\ Store.objs h !! 6%positive
     = Some (Store.ODict [(Store.VStr "total_employees", Store.VInt 3);
                          (Store.VStr "average_score", Store.VInt 80);
                          (Store.VStr "highest_score", Store.VInt 90);
                          (Store.VStr "lowest_score", Store.VInt 70)]).
Proof. vm_compute. split; reflexivity. Qed.

Lemma sample_store_averages :
  let '(r, h) := Store.department_wise_average (Store.VRef 1%positive)
                   StoreSpec.sample_store in
  r = Ok (Store.VRef 8%positive)
  /\ Store.objs h !! 8%positive
     = Some (Store.ODict [(Store.VStr "A", Store.VInt 85);
                          (Store.VStr "B", Store.VInt 70)]).
Proof. vm_compute. split; reflexivity. Qed.

(** C10 for the first record of the sample store. *)
Lemma analysis_leaves_objects_unchanged_witness :
  Store.objs StoreSpec.sample_store !! 2%positive
  = Some (Store.employee_object (record "Ann" "A" 80))
  /\ (Store.objs (snd (Store.calculate_statistics (Store.VRef 1%positive)
                         StoreSpec.sample_store)) !! 2%positive
      = Some (Store.employee_object (record "Ann" "A" 80))
      /\ Store.objs (snd (Store.department_wise_average (Store.VRef 1%positive)
                            StoreSpec.sample_store)) !! 2%positive
         = Some (Store.employee_object (record "Ann" "A" 80))).
Proof.
  split; [reflexivity|].
  apply (StoreFacts.analysis_leaves_objects_unchanged StoreSpec.sample_store
           (Store.VRef 1%positive) 2%positive
           (Store.employee_object (record "Ann" "A" 80))).
  reflexivity.
Defined.

(* ================================================================== *)
(** * Part III. Further properties                                    *)
(* ================================================================== *)

(** ** Further properties of the analysis *)

Lemma calculate_statistics_run employees w :
  calculate_statistics employees w
  = match statistics_of (map score employees) with
    | Ok stats => (Ok stats, printed "Statistics calculated successfully." w)
    | Raise e => (Raise e, w)
    end.
Proof.
  unfold calculate_statistics, statistics_of, bind, lift, ret, print, printed, len.
  rewrite length_map.
  destruct (rounded_mean (map score employees)); cbn; [|reflexivity].
  destruct (py_max (map score employees)); cbn; [|reflexivity].
  destruct (py_min (map score employees)); cbn; reflexivity.
Qed.

(** X1.  Whenever [calculate_statistics] returns, for scores of any
    size: [total_employees] is the number of records, [lowest_score]
    and [highest_score] are the least and the greatest of the scores
    (each is one of the scores and bounds them all), and the call has
    printed the line "Statistics calculated successfully." and nothing
    else. *)
Theorem calculate_statistics_fields (employees : list employee) (w : world)
        (stats : statistics) :
  fst (calculate_statistics employees w) = Ok stats ->
  total_employees stats = len employees
  /\ is_minimum (lowest_score stats) (map score employees)
  /\ is_maximum (highest_score stats) (map score employees)
  /\ snd (calculate_statistics employees w)
     = printed "Statistics calculated successfully." w.
Proof.
  rewrite calculate_statistics_run.
  assert (Hne : employees <> [] -> map score employees <> [])
    by (destruct employees; [congruence | discriminate]).
  destruct (decide (employees = [])) as [-> | Hemp]; [discriminate|].
  specialize (Hne Hemp). unfold statistics_of.
  set (scores := map score employees) in *.
  destruct (py_min_spec scores Hne) as (lo & Hmin & Hlo).
  destruct (py_max_spec scores Hne) as (hi & Hmax & Hhi).
  rewrite Hmin, Hmax.
  destruct (rounded_mean scores) as [avg|e]; cbn [rbind fst snd]; [|discriminate].
  intros [= <-]. cbn [total_employees lowest_score highest_score].
  unfold len, scores. rewrite length_map. auto.
Qed.

Lemma calculate_statistics_fields_witness :
  fst (calculate_statistics sample_records empty_world)
  = Ok {| total_employees := 3; average_score := PyInt 80;
          highest_score := 90; lowest_score := 70 |}
  /\ (total_employees {| total_employees := 3; average_score := PyInt 80;
                         highest_score := 90; lowest_score := 70 |}
      = len sample_records
      /\ is_minimum (lowest_score {| total_employees := 3; average_score := PyInt 80;
                                     highest_score := 90; lowest_score := 70 |})
                    (map score sample_records)
      /\ is_maximum (highest_score {| total_employees := 3; average_score := PyInt 80;
                                      highest_score := 90; lowest_score := 70 |})
                    (map score sample_records)
      /\ snd (calculate_statistics sample_records empty_world)
         = printed "Statistics calculated successfully." empty_world).
Proof.
  split; [reflexivity|].
  apply (calculate_statistics_fields sample_records empty_world). reflexivity.
Defined.

(** X2.  On a non-empty list of records the only exception
    [calculate_statistics] raises is [OverflowError] (the mean does not
    fit a float); it is raised before anything is printed. *)
Theorem calculate_statistics_overflow_only (employees : list employee)
        (w : world) (e : exn) :
  employees <> [] ->
  fst (calculate_statistics employees w) = Raise e ->
  e = OverflowError /\ snd (calculate_statistics employees w) = w.
Proof.
  intros Hne. rewrite calculate_statistics_run.
  assert (Hs : map score employees <> [])
    by (destruct employees; [congruence | discriminate]).
  pose proof (statistics_of_rounded_mean _ Hs) as Hst.
  destruct (rounded_mean (map score employees)) as [avg|e'] eqn:Hm.
  - destruct Hst as (stats & -> & _). discriminate.
  - rewrite Hst. cbn. intros [= <-]. split; [|reflexivity].
    now apply (rounded_mean_raise _ _ Hs Hm).
Qed.

Lemma calculate_statistics_overflow_only_witness :
  overflow_records <> []
  /\ fst (calculate_statistics overflow_records empty_world) = Raise OverflowError
  /\ (OverflowError = OverflowError
      /\ snd (calculate_statistics overflow_records empty_world) = empty_world).
Proof.
  assert (H1 : overflow_records <> []) by discriminate.
  assert (H2 : fst (calculate_statistics overflow_records empty_world)
               = Raise OverflowError) by (vm_compute; reflexivity).
  split; [exact H1|]. split; [exact H2|].
  exact (calculate_statistics_overflow_only overflow_records empty_world
           OverflowError H1 H2).
Defined.

(** The mean is an [int] exactly when the count divides the sum. *)
Lemma mean_int_iff (data : list Z) :
  data <> [] ->
  (py_sum data mod len data = 0 ->
   mean data = Ok (PyInt (py_sum data / len data)))
  /\ (forall z, mean data = Ok (PyInt z) -> py_sum data mod len data = 0).
Proof.
  intros Hne. pose proof (len_pos data Hne) as Hn. unfold mean, Fraction.
  destruct (Z.ltb_spec (len data) 1); [lia|].
  set (n := len data) in *. set (total := py_sum data).
  pose proof (Z.gcd_nonneg total n) as Hg0.
  assert (Hg : 0 < Z.gcd total n).
  { destruct (Z.eq_dec (Z.gcd total n) 0) as [H0|]; [|lia].
    apply Z.gcd_eq_0_r in H0. lia. }
  destruct (Z.gcd_divide_r total n) as [n' Hn'].
  assert (Hden : n / Z.gcd total n = n') by (rewrite Hn' at 1; apply Z.div_mul; lia).
  split.
  - intros Hmod.
    assert (Hdiv : (n | total)) by (apply Z.mod_divide; lia).
    assert (Hgn : Z.gcd total n = n).
    { rewrite Z.gcd_comm. apply Z.divide_gcd_iff; [lia | exact Hdiv]. }
    rewrite Hgn. rewrite Z.div_same by lia. reflexivity.
  - intros z. rewrite Hden.
    destruct (Z.eqb_spec n' 1) as [-> | Hne1].
    + intros _. apply Z.mod_divide; [lia|].
      rewrite Z.mul_1_l in Hn'. rewrite Hn'. apply Z.gcd_divide_l.
    + destruct (Float.int_true_div _ _); cbn; discriminate.
Qed.

(** X3.  When the number of records divides the sum of their scores,
    [calculate_statistics] returns whatever the size of the scores, and
    [average_score] is the [int] quotient of the two, not a float. *)
Theorem integral_average_is_exact (employees : list employee) (w : world) :
  employees <> [] ->
  py_sum (map score employees) mod len employees = 0 ->
  exists stats,
    fst (calculate_statistics employees w) = Ok stats
    /\ average_score stats
       = PyInt (py_sum (map score employees) / len employees).
Proof.
  intros Hne Hmod. rewrite calculate_statistics_run.
  assert (Hs : map score employees <> [])
    by (destruct employees; [congruence | discriminate]).
  assert (Hlen : len (map score employees) = len employees)
    by (unfold len; now rewrite length_map).
  destruct (mean_int_iff _ Hs) as [Hint _].
  rewrite Hlen in Hint. specialize (Hint Hmod).
  pose proof (statistics_of_rounded_mean _ Hs) as Hst.
  unfold rounded_mean in Hst. rewrite Hint in Hst. cbn in Hst.
  destruct Hst as (stats & -> & Havg). exists stats. split; [reflexivity | exact Havg].
Qed.

Lemma integral_average_is_exact_witness :
  sample_records <> []
  /\ py_sum (map score sample_records) mod len sample_records = 0
  /\ exists stats,
       fst (calculate_statistics sample_records empty_world) = Ok stats
       /\ average_score stats
          = PyInt (py_sum (map score sample_records) / len sample_records).
Proof.
  assert (H1 : sample_records <> []) by discriminate.
  assert (H2 : py_sum (map score sample_records) mod len sample_records = 0)
    by reflexivity.
  split; [exact H1|]. split; [exact H2|].
  exact (integral_average_is_exact sample_records empty_world H1 H2).
Defined.

(** X4.  The [average_score] that [calculate_statistics] returns is
    an [int] exactly when the number of records divides the sum of the
    scores; in every other case it is a float. *)
Theorem average_is_int_iff_divisible (employees : list employee) (w : world)
        (stats : statistics) :
  fst (calculate_statistics employees w) = Ok stats ->
  (exists z, average_score stats = PyInt z)
  <-> py_sum (map score employees) mod len employees = 0.
Proof.
  rewrite calculate_statistics_run.
  destruct (decide (employees = [])) as [-> | Hemp]; [discriminate|].
  assert (Hs : map score employees <> [])
    by (destruct employees; [congruence | discriminate]).
  assert (Hlen : len (map score employees) = len employees)
    by (unfold len; now rewrite length_map).
  destruct (mean_int_iff _ Hs) as [Hint Hfloat]. rewrite Hlen in Hint, Hfloat.
  unfold statistics_of, rounded_mean.
  destruct (mean (map score employees)) as [[z|f]|e] eqn:Hm; cbn [rbind fst];
    [| |intros Hd; discriminate Hd];
    (destruct (py_max _); cbn [rbind fst]; [|intros Hd; discriminate Hd]);
    (destruct (py_min _); cbn [rbind fst]; [|intros Hd; discriminate Hd]);
    intros [= <-]; cbn [average_score py_round].
  - split; [intros _; now apply (Hfloat z) | eauto].
  - split; [intros [z Hz]; discriminate|].
    intros Hmod. pose proof (Hint Hmod) as Hc. discriminate Hc.
Qed.

Lemma average_is_int_iff_divisible_witness :
  fst (calculate_statistics sample_records empty_world)
  = Ok {| total_employees := 3; average_score := PyInt 80;
          highest_score := 90; lowest_score := 70 |}
  /\ ((exists z, average_score {| total_employees := 3; average_score := PyInt 80;
                                  highest_score := 90; lowest_score := 70 |}
                 = PyInt z)
      <-> py_sum (map score sample_records) mod len sample_records = 0).
Proof.
  split; [reflexivity|].
  apply (average_is_int_iff_divisible sample_records empty_world). reflexivity.
Defined.

(** A rounded mean of scores of at most 53 bits lies between the least
    and the greatest of them. *)
Lemma rounded_mean_ordered (scores : list Z) :
  scores <> [] -> Forall safe_score scores ->
  exists avg lo hi,
    rounded_mean scores = Ok avg
    /\ is_minimum lo scores /\ is_maximum hi scores
    /\ py_le (PyInt lo) avg = true /\ py_le avg (PyInt hi) = true.
Proof.
  intros Hs Hsafe.
  destruct (py_min_spec scores Hs) as (lo & _ & Hlo).
  destruct (py_max_spec scores Hs) as (hi & _ & Hhi).
  assert (Hlo53 : - 2 ^ 53 <= lo).
  { destruct Hlo as [Hin _]. rewrite List.Forall_forall in Hsafe. apply (Hsafe lo Hin). }
  assert (Hhi53 : hi <= 2 ^ 53).
  { destruct Hhi as [Hin _]. rewrite List.Forall_forall in Hsafe. apply (Hsafe hi Hin). }
  assert (Hall : Forall (fun x => lo <= x <= hi) scores).
  { destruct Hlo as [_ Hlo'], Hhi as [_ Hhi']. rewrite List.Forall_forall in *.
    intros x Hx. split; [now apply Hlo' | now apply Hhi']. }
  destruct (mean_between scores lo hi Hs Hlo53 Hhi53 Hall) as (m & Hm & Hbt).
  exists (py_round m 2), lo, hi. unfold rounded_mean. rewrite Hm.
  split; [reflexivity|]. split; [exact Hlo|]. split; [exact Hhi|].
  apply (num_between_le lo hi), py_round_between; assumption.
Qed.

Lemma scores_of_safe dept employees :
  Forall (fun emp => safe_score (score emp)) employees ->
  Forall safe_score (scores_of dept employees).
Proof.
  intros Hsafe. unfold scores_of, records_of.
  apply List.Forall_forall. intros z Hz. apply in_map_iff in Hz.
  destruct Hz as (emp & <- & Hin). apply filter_In in Hin.
  rewrite List.Forall_forall in Hsafe. now apply Hsafe.
Qed.

(** X5.  On records whose scores lie within [-2^53, 2^53],
    [department_wise_average] returns, and the average of every
    department of the result lies between the least and the greatest
    score of the records of that department. *)
Theorem department_averages_ordered (employees : list employee) (w : world) :
  Forall (fun emp => safe_score (score emp)) employees ->
  exists dept_avg,
    fst (department_wise_average employees w) = Ok dept_avg
    /\ forall dept avg,
         Dict.get dept dept_avg = Some avg ->
         exists lo hi,
           is_minimum lo (scores_of dept employees)
           /\ is_maximum hi (scores_of dept employees)
           /\ py_le (PyInt lo) avg = true /\ py_le avg (PyInt hi) = true.
Proof.
  intros Hsafe. rewrite department_wise_average_result.
  assert (Hmean : forall dept, dept ∈ map department employees ->
            exists avg lo hi,
              rounded_mean (scores_of dept employees) = Ok avg
              /\ is_minimum lo (scores_of dept employees)
              /\ is_maximum hi (scores_of dept employees)
              /\ py_le (PyInt lo) avg = true /\ py_le avg (PyInt hi) = true).
  { intros dept Hin. apply rounded_mean_ordered.
    - now apply scores_of_nonempty.
    - now apply scores_of_safe. }
  destruct (averaged employees) as [dept_avg|e] eqn:Ha.
  - exists dept_avg. split; [reflexivity|]. intros dept avg Hget.
    destruct (averaged_ok _ _ Ha) as [Hk Hg].
    assert (Hin : dept ∈ map department employees).
    { apply first_seen_elem_of. rewrite <- Hk. apply list_elem_of_In.
      destruct (in_dec (fun a b => decide (a = b)) dept (Dict.keys dept_avg))
        as [|Hn]; [assumption|].
      apply get_None_notin in Hn. congruence. }
    destruct (Hg dept Hin) as (avg' & Hm & Hget').
    destruct (Hmean dept Hin) as (avg'' & lo & hi & Hm' & Hrest).
    assert (avg = avg'') by congruence. subst avg''. eauto.
  - exfalso. destruct (averaged_raise _ _ Ha) as (dept & Hin & Hr).
    destruct (Hmean dept Hin) as (avg & _ & _ & Hm & _). congruence.
Qed.

Lemma department_averages_ordered_witness :
  Forall (fun emp => safe_score (score emp)) sample_records
  /\ exists dept_avg,
       fst (department_wise_average sample_records empty_world) = Ok dept_avg
       /\ forall dept avg,
            Dict.get dept dept_avg = Some avg ->
            exists lo hi,
              is_minimum lo (scores_of dept sample_records)
              /\ is_maximum hi (scores_of dept sample_records)
              /\ py_le (PyInt lo) avg = true /\ py_le avg (PyInt hi) = true.
Proof.
  assert (H1 : Forall (fun emp => safe_score (score emp)) sample_records).
  { repeat constructor; cbn; lia. }
  split; [exact H1|].
  exact (department_averages_ordered sample_records empty_world H1).
Defined.

(** Sizes of the groups. *)
Lemma list_sum_cons (n : nat) (l : list nat) :
  list_sum (n :: l) = (n + list_sum l)%nat.
Proof. reflexivity. Qed.

Lemma count_split {K} `{EqDecision K} (g : K -> nat) (l : list K) x :
  NoDup l ->
  list_sum (map g l)
  = ((if decide (x ∈ l) then g x else 0)
     + list_sum (map g (List.filter (fun y => negb (bool_decide (y = x))) l)))%nat.
Proof.
  induction 1 as [|y l Hy Hnd IH]; cbn [map List.filter].
  - now rewrite decide_False by (intros Hin; inversion Hin).
  - rewrite list_sum_cons, IH. destruct (decide (y = x)) as [-> | Hne].
    + rewrite bool_decide_eq_true_2 by reflexivity. cbn [negb].
      rewrite (decide_True (P := x ∈ x :: l)) by left.
      rewrite (decide_False (P := x ∈ l)) by assumption. lia.
    + rewrite bool_decide_eq_false_2 by assumption. cbn [negb map].
      rewrite list_sum_cons.
      destruct (decide (x ∈ l)) as [Hin | Hin].
      * rewrite (decide_True (P := x ∈ y :: l)) by (now right). lia.
      * rewrite (decide_False (P := x ∈ y :: l)); [lia|].
        rewrite not_elem_of_cons. split; congruence.
Qed.

Lemma group_sizes employees :
  list_sum (map (fun dept => length (scores_of dept employees))
                (first_seen (map department employees)))
  = length employees.
Proof.
  induction employees as [|emp rest IH]; [reflexivity|].
  cbn [map first_seen]. rewrite list_sum_cons.
  set (d := department emp).
  assert (Hcount : forall dept,
             length (scores_of dept (emp :: rest))
             = ((if bool_decide (d = dept) then 1 else 0)
                + length (scores_of dept rest))%nat).
  { intros dept. unfold scores_of, records_of. cbn [List.filter]. fold d.
    destruct (bool_decide (d = dept)); reflexivity. }
  rewrite Hcount, bool_decide_eq_true_2 by reflexivity.
  rewrite (count_split (fun dept => length (scores_of dept rest)) _ d
             (first_seen_NoDup (map department rest))) in IH.
  assert (Hrest : map (fun dept => length (scores_of dept (emp :: rest)))
                      (List.filter (fun y => negb (bool_decide (y = d)))
                                   (first_seen (map department rest)))
                  = map (fun dept => length (scores_of dept rest))
                        (List.filter (fun y => negb (bool_decide (y = d)))
                                     (first_seen (map department rest)))).
  { apply map_ext_in. intros dept Hin. apply filter_In in Hin.
    destruct Hin as [_ Hne]. rewrite Hcount.
    rewrite bool_decide_eq_false_2; [reflexivity|].
    intros <-. rewrite bool_decide_eq_true_2 in Hne by reflexivity. discriminate. }
  rewrite Hrest. cbn [length].
  destruct (decide (d ∈ first_seen (map department rest))) as [Hin | Hin].
  - lia.
  - assert (Hz : scores_of d rest = []).
    { apply scores_of_absent. now rewrite <- first_seen_elem_of. }
    rewrite Hz. cbn [length]. lia.
Qed.

(** X6.  The grouping loop of [department_wise_average] never fails
    and partitions the scores: the keys of [dept_data] are the
    departments in order of first occurrence, the list under a
    department holds the scores of its records in input order, a
    department without a record has no entry, and the lengths of the
    lists add up to the number of records. *)
Theorem grouping_partitions_scores (employees : list employee) :
  exists dept_data,
    group_scores employees = Ok dept_data
    /\ Dict.keys dept_data = first_seen (map department employees)
    /\ (forall dept,
          Dict.get dept dept_data
          = if decide (dept ∈ map department employees)
            then Some (scores_of dept employees) else None)
    /\ list_sum (map (fun group => length (snd group)) (Dict.items dept_data))
       = length employees.
Proof.
  exists (grouped employees). split; [apply group_scores_grouped|].
  split; [apply grouped_keys|]. split.
  - intros dept. unfold grouped.
    rewrite (get_tabulate (fun d => scores_of d employees)).
    destruct (decide (dept ∈ first_seen (map department employees))) as [Hin | Hin].
    + now rewrite decide_True by (now apply first_seen_elem_of).
    + rewrite decide_False; [reflexivity|]. now rewrite <- first_seen_elem_of.
  - unfold Dict.items, grouped. rewrite map_map. cbn [snd]. apply group_sizes.
Qed.

(** ** Further properties of the loader *)

Lemma fold_set_other {A} (fk : A -> pytext) (fv : A -> pytext) (l : list A)
      (d : Dict.t pytext pytext) k :
  (forall x, In x l -> fk x <> k) ->
  Dict.get k (fold_left (fun d x => Dict.set (fk x) (fv x) d) l d) = Dict.get k d.
Proof.
  revert d. induction l as [|x l IH]; intros d Hk; cbn; [reflexivity|].
  rewrite IH by (intros y Hy; apply Hk; now right).
  rewrite get_set. rewrite bool_decide_eq_false_2; [reflexivity|].
  apply Hk. now left.
Qed.

(** The field under a column of the header is the field at the column's
    position in the row, [None] when the row ends before it. *)
Lemma DictReader_row_field fieldnames row i column :
  NoDup fieldnames -> fieldnames !! i = Some column ->
  Dict.get (Some column) (DictReader_row fieldnames row) = Some (row !! i).
Proof.
  intros Hnd Hi. unfold DictReader_row.
  set (f1 := fun (d : Dict.t pytext pytext) '(k, v) => Dict.set (Some k) (Some v) d).
  destruct (decide (i < length row)%nat) as [Hlt | Hge].
  - (* the row has the field *)
    rewrite (fold_set_other (fun k => Some k) (fun _ => None)).
    2:{ intros k Hk [= ->]. apply list_elem_of_In, list_elem_of_lookup in Hk.
        destruct Hk as [j Hj]. rewrite lookup_drop in Hj.
        pose proof (NoDup_lookup _ _ _ _ Hnd Hi Hj). lia. }
    assert (Hgen : forall fieldnames, NoDup fieldnames ->
              forall row i (d : Dict.t pytext pytext),
                fieldnames !! i = Some column -> (i < length row)%nat ->
                Dict.get (Some column) (fold_left f1 (zip fieldnames row) d)
                = Some (row !! i)).
    { clear. intros fieldnames Hnd.
      induction Hnd as [|k ks Hk Hnd IH]; intros row i d Hi Hlt; [discriminate|].
      destruct row as [|v vs]; [cbn in Hlt; lia|].
      cbn [zip zip_with fold_left]. destruct i as [|j].
      - injection Hi as ->. cbn [lookup list_lookup].
        assert (Hrest : forall (pairs : list (string * string)) d',
                   (forall k' v', In (k', v') pairs -> k' <> column) ->
                   Dict.get (Some column) (fold_left f1 pairs d')
                   = Dict.get (Some column) d').
        { induction pairs as [|[k' v'] pairs IHp]; intros d' Hp; cbn; [reflexivity|].
          rewrite IHp by (intros k'' v'' Hin; apply (Hp k'' v''); now right).
          rewrite get_set. rewrite bool_decide_eq_false_2; [reflexivity|].
          intros [= ->]. apply (Hp column v'); [now left | reflexivity]. }
        rewrite Hrest.
        + unfold f1. rewrite get_set. now rewrite bool_decide_eq_true_2.
        + intros k' v' Hin ->. apply Hk.
          apply list_elem_of_In in Hin. apply (elem_of_zip_l _ _ _ _ Hin).
      - cbn in Hi, Hlt. cbn [lookup list_lookup]. apply IH; [exact Hi | lia]. }
    now apply Hgen.
  - (* the row is too short: the field is left unset *)
    rewrite (lookup_ge_None_2 row i) by lia.
    assert (Hin : column ∈ drop (length row) fieldnames).
    { apply list_elem_of_lookup. exists (i - length row)%nat.
      rewrite lookup_drop. rewrite <- Hi. f_equal. lia. }
    generalize (fold_left f1 (zip fieldnames row) Dict.empty).
    revert Hin. generalize (drop (length row) fieldnames). clear.
    induction l as [|k ks IH]; intros Hin d; [inversion Hin|].
    cbn [fold_left]. destruct (decide (column ∈ ks)) as [Hks | Hks].
    + now apply IH.
    + rewrite (fold_set_other (fun k => Some k) (fun _ => None)).
      * apply elem_of_cons in Hin. destruct Hin as [<- | Hin]; [|contradiction].
        rewrite get_set. now rewrite bool_decide_eq_true_2.
      * intros k' Hk' [= ->]. apply Hks. now apply list_elem_of_In.
Qed.

Section LoaderMore.
Variable int_of_str : string -> option Z.
Variable str_float : spec_float -> string.
Variable strftime : datetime -> string -> string.

Lemma load_rows_from fieldnames iN iD iS rows employees acc :
  NoDup fieldnames ->
  fieldnames !! iN = Some "Name"%string ->
  fieldnames !! iD = Some "Department"%string ->
  fieldnames !! iS = Some "Score"%string ->
  Forall2 (row_record int_of_str iN iD iS) rows employees ->
  for_each (load_row int_of_str) (map (DictReader_row fieldnames) rows) acc
  = Ok (acc ++ employees).
Proof.
  intros Hnd HN HD HS Hrows. revert acc.
  induction Hrows as [|row emp rows employees (Hn & Hd & s & Hs & Hint) _ IH];
    intros acc; cbn [map for_each].
  - now rewrite app_nil_r.
  - unfold load_row at 1. unfold getitem.
    rewrite (DictReader_row_field fieldnames row iN _ Hnd HN).
    rewrite (DictReader_row_field fieldnames row iD _ Hnd HD).
    rewrite (DictReader_row_field fieldnames row iS _ Hnd HS).
    cbn [rbind]. rewrite Hs. unfold py_int. rewrite Hint. cbn [rbind].
    rewrite IH, <- app_assoc. cbn [app]. rewrite <- Hn, <- Hd.
    now destruct emp.
Qed.

(** X7.  [read_csv_data] on a well-formed file: when the header has
    no repeated name and holds the columns Name, Department and Score,
    at any positions and among any other columns, and the Score field
    of every non-blank data row parses as an integer, the call returns
    one record per non-blank data row, in file order, built from the
    fields at those three positions (a missing Name or Department field
    gives [None]); it prints "CSV data read successfully." and leaves
    the files as they are. *)
Theorem read_csv_data_loads (w : world) (filename : string)
        (fieldnames : list string) (data : list (list string))
        (iN iD iS : nat) (employees : list employee) :
  fs w !! filename = Some (TextFile (fieldnames :: data)) ->
  NoDup fieldnames ->
  fieldnames !! iN = Some "Name"%string ->
  fieldnames !! iD = Some "Department"%string ->
  fieldnames !! iS = Some "Score"%string ->
  Forall2 (row_record int_of_str iN iD iS) (data_rows data) employees ->
  read_csv_data int_of_str filename w
  = (Ok employees, printed "CSV data read successfully." w).
Proof.
  intros Hfile Hnd HN HD HS Hrows.
  unfold read_csv_data, bind, open_csv, lift. rewrite Hfile.
  cbn [DictReader]. fold (data_rows data).
  rewrite (load_rows_from fieldnames iN iD iS _ employees [] Hnd HN HD HS Hrows).
  reflexivity.
Qed.

(** X8.  A data file with no data row (empty, header only, or blank
    rows only) makes the run end with [StatisticsError], raised by
    [calculate_statistics] on the empty list: the two diagnostics of
    the existence check and of the loader are printed, no report is
    written. *)
Theorem empty_dataset_aborts (w : world) (rows : list (list string)) :
  fs w !! DATA_FILE = Some (TextFile rows) ->
  DictReader rows = [] ->
  generate_report int_of_str str_float strftime w
  = (Raise StatisticsError,
     printed "CSV data read successfully."
       (printed "data.csv found successfully." w)).
Proof.
  intros Hfile Hempty.
  unfold generate_report, check_file_exists, bind at 1 2, path_exists.
  rewrite Hfile. rewrite bool_decide_eq_true_2 by eauto. cbn [negb].
  unfold print at 1. unfold bind at 1.
  unfold read_csv_data, bind at 1 2, open_csv, lift. cbn [fs].
  rewrite Hfile, Hempty. cbn [for_each]. unfold bind at 1 2. reflexivity.
Qed.

(** X9.  A run of [generate_report], successful or not, leaves
    every file other than the report as it was: the input file is
    neither changed nor removed. *)
Theorem generate_report_touches_only_output (w : world) (path : string) :
  path <> OUTPUT_FILE ->
  fs (snd (generate_report int_of_str str_float strftime w)) !! path
  = fs w !! path.
Proof.
  intros Hpath. rewrite generate_report_unfold.
  destruct (clock_blind_analysis int_of_str w) as (Hfs & _ & _).
  destruct (analysis int_of_str w) as [[[[employees stats] dept_avg]|e] w'];
    cbn [fst snd] in *.
  - cbn [fs printed with_file]. rewrite lookup_insert_ne by congruence.
    now rewrite Hfs.
  - now rewrite Hfs.
Qed.
End LoaderMore.

Lemma department_wise_average_run employees w :
  department_wise_average employees w
  = match averaged employees with
    | Ok dept_avg => (Ok dept_avg, printed "Department-wise averages calculated." w)
    | Raise e => (Raise e, w)
    end.
Proof.
  unfold department_wise_average, bind, lift, ret, print, printed.
  rewrite group_scores_grouped, average_groups_grouped.
  destruct (averaged employees); reflexivity.
Qed.

Lemma statistics_of_total scores stats :
  statistics_of scores = Ok stats -> total_employees stats = len scores.
Proof.
  unfold statistics_of.
  destruct (rounded_mean scores); cbn; [|discriminate].
  destruct (py_max scores); cbn; [|discriminate].
  destruct (py_min scores); cbn; [|discriminate].
  now intros [= <-].
Qed.

(** Scores of at most 53 bits: every department has an average. *)
Lemma averaged_safe employees :
  Forall (fun emp => safe_score (score emp)) employees ->
  exists dept_avg, averaged employees = Ok dept_avg.
Proof.
  intros Hsafe. destruct (averaged employees) as [dept_avg|e] eqn:Ha; [eauto|].
  exfalso. destruct (averaged_raise _ _ Ha) as (dept & Hin & Hr).
  destruct (rounded_mean_ordered (scores_of dept employees))
    as (avg & _ & _ & Hm & _).
  - now apply scores_of_nonempty.
  - now apply scores_of_safe.
  - congruence.
Qed.

Section RunMore.
Variable int_of_str : string -> option Z.
Variable str_float : spec_float -> string.
Variable strftime : datetime -> string -> string.

Lemma read_csv_data_world filename w employees :
  fst (read_csv_data int_of_str filename w) = Ok employees ->
  read_csv_data int_of_str filename w
  = (Ok employees, printed "CSV data read successfully." w).
Proof.
  unfold read_csv_data, bind, open_csv, lift.
  destruct (fs w !! filename) as [[rows|doc]|]; cbn; try discriminate.
  destruct (for_each _ _ _); cbn; [|discriminate].
  now intros [= ->].
Qed.

(** X10.  When the data file exists, the loader returns a non-empty
    list of records and the scores lie within [-2^53, 2^53], the run
    succeeds: the five diagnostics are printed in order, the report is
    written to [OUTPUT_FILE] and no other file changes, and the summary
    section of the report shows the number of records loaded. *)
Theorem well_formed_run_succeeds (w : world) (employees : list employee) :
  is_Some (fs w !! DATA_FILE) ->
  fst (read_csv_data int_of_str DATA_FILE
         (printed "data.csv found successfully." w)) = Ok employees ->
  employees <> [] ->
  Forall (fun emp => safe_score (score emp)) employees ->
  exists doc,
    generate_report int_of_str str_float strftime w
    = (Ok tt, {| fs := <[OUTPUT_FILE := PdfFile doc]> (fs w);
                 stdout := stdout w ++ success_messages;
                 now := now w |})
    /\ In (cell 0 8 (Some ("Total Employees: " +:+ str_int (len employees)))
                0 true "") doc.
Proof.
  intros Hfile Hload Hne Hsafe.
  assert (Hs : map score employees <> [])
    by (destruct employees; [congruence | discriminate]).
  assert (Hsafe' : Forall safe_score (map score employees))
    by (now apply List.Forall_map).
  destruct (rounded_mean_ordered _ Hs Hsafe') as (avg & lo & hi & Hm & _).
  pose proof (statistics_of_rounded_mean _ Hs) as Hst. rewrite Hm in Hst.
  destruct Hst as (stats & Hst & _).
  pose proof (statistics_of_total _ _ Hst) as Htotal.
  assert (Hlen : len (map score employees) = len employees)
    by (unfold len; now rewrite length_map).
  rewrite Hlen in Htotal.
  destruct (averaged_safe employees Hsafe) as (dept_avg & Hdept).
  rewrite generate_report_unfold.
  assert (Ha : analysis int_of_str w
               = (Ok (employees, stats, dept_avg),
                  printed "Department-wise averages calculated."
                    (printed "Statistics calculated successfully."
                       (printed "CSV data read successfully."
                          (printed "data.csv found successfully." w))))).
  { unfold analysis.
    unfold bind at 1. unfold check_file_exists, bind at 1, path_exists.
    rewrite bool_decide_eq_true_2 by exact Hfile. cbn [negb].
    change (print (DATA_FILE +:+ " found successfully.") w)
      with (Ok tt, printed "data.csv found successfully." w).
    cbn iota beta.
    unfold bind at 1. rewrite (read_csv_data_world _ _ _ Hload).
    unfold bind at 1. rewrite calculate_statistics_run, Hst.
    unfold bind at 1. rewrite department_wise_average_run, Hdept.
    reflexivity. }
  rewrite Ha. eexists. split.
  - unfold printed, with_file, success_messages. cbn [fs stdout now].
    rewrite <- !app_assoc. reflexivity.
  - apply in_or_app. right. right. unfold report_tail.
    unfold add_conclusion. apply in_or_app. left.
    rewrite add_employee_table_app. apply in_or_app. left.
    rewrite add_department_analysis_app. apply in_or_app. left.
    unfold add_summary_section. rewrite Htotal. cbn. auto 10.
Qed.
End RunMore.

Lemma read_csv_data_loads_witness :
  fs sample_world !! DATA_FILE
  = Some (TextFile (["Name"; "Department"; "Score"]%string
                    :: [["Ann"; "A"; "80"]; ["Bob"; "A"; "90"]; ["Cy"; "B"; "70"]]%string))
  /\ NoDup ["Name"; "Department"; "Score"]%string
  /\ ["Name"; "Department"; "Score"]%string !! 0%nat = Some "Name"%string
  /\ ["Name"; "Department"; "Score"]%string !! 1%nat = Some "Department"%string
  /\ ["Name"; "Department"; "Score"]%string !! 2%nat = Some "Score"%string
  /\ Forall2 (row_record Builtins.int_of_str 0 1 2)
       (data_rows [["Ann"; "A"; "80"]; ["Bob"; "A"; "90"]; ["Cy"; "B"; "70"]]%string)
       sample_records
  /\ read_csv_data Builtins.int_of_str DATA_FILE sample_world
     = (Ok sample_records, printed "CSV data read successfully." sample_world).
Proof.
  assert (H1 : fs sample_world !! DATA_FILE
               = Some (TextFile (["Name"; "Department"; "Score"]%string
                                 :: [["Ann"; "A"; "80"]; ["Bob"; "A"; "90"];
                                     ["Cy"; "B"; "70"]]%string)))
    by reflexivity.
  assert (H2 : NoDup ["Name"; "Department"; "Score"]%string).
  { apply (bool_decide_unpack _). vm_compute. exact I. }
  assert (H6 : Forall2 (row_record Builtins.int_of_str 0 1 2)
                 (data_rows [["Ann"; "A"; "80"]; ["Bob"; "A"; "90"];
                             ["Cy"; "B"; "70"]]%string)
                 sample_records).
  { repeat (apply List.Forall2_cons;
            [split; [reflexivity|]; split; [reflexivity|];
             eexists; split; reflexivity|]).
    apply List.Forall2_nil. }
  split; [exact H1|]. split; [exact H2|].
  split; [reflexivity|]. split; [reflexivity|]. split; [reflexivity|].
  split; [exact H6|].
  exact (read_csv_data_loads Builtins.int_of_str sample_world DATA_FILE _ _
           0%nat 1%nat 2%nat sample_records H1 H2 eq_refl eq_refl eq_refl H6).
Defined.

Lemma empty_dataset_aborts_witness :
  fs empty_table_world !! DATA_FILE
  = Some (TextFile [["Name"; "Department"; "Score"]; []]%string)
  /\ DictReader [["Name"; "Department"; "Score"]; []]%string = []
  /\ generate_report Builtins.int_of_str Builtins.str_float Builtins.strftime
       empty_table_world
     = (Raise StatisticsError,
        printed "CSV data read successfully."
          (printed "data.csv found successfully." empty_table_world)).
Proof.
  split; [reflexivity|]. split; [reflexivity|].
  apply (empty_dataset_aborts Builtins.int_of_str Builtins.str_float
           Builtins.strftime empty_table_world
           [["Name"; "Department"; "Score"]; []]%string);
    reflexivity.
Defined.

Lemma generate_report_touches_only_output_witness :
  DATA_FILE <> OUTPUT_FILE
  /\ fs (snd (generate_report Builtins.int_of_str Builtins.str_float
                Builtins.strftime sample_world)) !! DATA_FILE
     = fs sample_world !! DATA_FILE.
Proof.
  assert (H1 : DATA_FILE <> OUTPUT_FILE) by discriminate.
  split; [exact H1|].
  exact (generate_report_touches_only_output Builtins.int_of_str
           Builtins.str_float Builtins.strftime sample_world DATA_FILE H1).
Defined.

Lemma well_formed_run_succeeds_witness :
  is_Some (fs sample_world !! DATA_FILE)
  /\ fst (read_csv_data Builtins.int_of_str DATA_FILE
            (printed "data.csv found successfully." sample_world))
     = Ok sample_records
  /\ sample_records <> []
  /\ Forall (fun emp => safe_score (score emp)) sample_records
  /\ exists doc,
       generate_report Builtins.int_of_str Builtins.str_float Builtins.strftime
         sample_world
       = (Ok tt, {| fs := <[OUTPUT_FILE := PdfFile doc]> (fs sample_world);
                    stdout := stdout sample_world ++ success_messages;
                    now := now sample_world |})
       /\ In (cell 0 8 (Some ("Total Employees: "
                              +:+ str_int (len sample_records))) 0 true "") doc.
Proof.
  assert (H1 : is_Some (fs sample_world !! DATA_FILE)) by (eexists; reflexivity).
  assert (H2 : fst (read_csv_data Builtins.int_of_str DATA_FILE
                      (printed "data.csv found successfully." sample_world))
               = Ok sample_records) by reflexivity.
  assert (H3 : sample_records <> []) by discriminate.
  assert (H4 : Forall (fun emp => safe_score (score emp)) sample_records).
  { repeat constructor; cbn; lia. }
  split; [exact H1|]. split; [exact H2|]. split; [exact H3|]. split; [exact H4|].
  exact (well_formed_run_succeeds Builtins.int_of_str Builtins.str_float
           Builtins.strftime sample_world sample_records H1 H2 H3 H4).
Defined.

(** ** Further properties of the renderer *)

Section RenderMore.
Variable str_float : spec_float -> string.

(** X12.  The employee table lists the records in input order, one
    row of three bordered cells (name, department, score) per record,
    after the heading and the header row; an empty list gives a table
    with no row. *)
Theorem employee_table_rows (employees : list employee) :
  add_employee_table [] employees
  = table_heading ++ concat (map table_row employees) ++ [ln (Some 5)].
Proof.
  unfold add_employee_table.
  rewrite (fold_left_appends _
             (fun i => [cell (nth i [60; 60; 30] 0) 10
                             (Some (nth i ["Name"; "Department"; "Score"]%string
                                        ""%string)) 1 false "C"]))
    by reflexivity.
  rewrite (fold_left_appends _ table_row) by reflexivity.
  cbn [length seq map concat app nth]. unfold table_heading.
  rewrite <- ?app_assoc. reflexivity.
Qed.

(** X13.  Rendering what [department_wise_average] returned: the
    department section has one line per department, in the order in
    which the departments first occur in the records, and the line of a
    department shows the rounded mean of the scores of its records. *)
Theorem department_lines_first_seen (employees : list employee) (w : world)
        (dept_avg : Dict.t pytext pynum) :
  fst (department_wise_average employees w) = Ok dept_avg ->
  exists lines,
    add_department_analysis str_float [] dept_avg
    = department_heading ++ lines ++ [ln (Some 5)]
    /\ Forall2 (fun dept line =>
                  exists avg,
                    rounded_mean (scores_of dept employees) = Ok avg
                    /\ line = cell 0 8 (Some (str_text dept
                                              +:+ ": Average Score = "
                                              +:+ str_num str_float avg))
                                   0 true "")
               (first_seen (map department employees)) lines.
Proof.
  rewrite department_wise_average_result. unfold averaged. intros Ht.
  apply traverse_ok in Ht.
  exists (map (fun '(dept, avg) =>
                 cell 0 8 (Some (str_text dept +:+ ": Average Score = "
                                 +:+ str_num str_float avg)) 0 true "") dept_avg).
  split.
  - unfold add_department_analysis, Dict.items.
    rewrite (fold_left_appends _
               (fun '(dept, avg) =>
                  [cell 0 8 (Some (str_text dept +:+ ": Average Score = "
                                   +:+ str_num str_float avg)) 0 true ""]))
      by (intros ? [? ?]; reflexivity).
    cbn [app]. unfold department_heading. cbn [app]. repeat f_equal.
    clear Ht.
    induction dept_avg as [|[d a] rest IH]; cbn; [reflexivity|].
    now rewrite IH.
  - induction Ht as [|dept [d avg] depts rest Hd _ IH]; cbn [map]; constructor.
    + destruct (rounded_mean (scores_of dept employees)) as [avg'|] eqn:Hm;
        cbn in Hd; [|discriminate].
      injection Hd as <- <-. eauto.
    + exact IH.
Qed.
End RenderMore.

Lemma department_lines_first_seen_witness :
  fst (department_wise_average sample_records empty_world)
  = Ok [(Some "A"%string, PyInt 85); (Some "B"%string, PyInt 70)]
  /\ exists lines,
       add_department_analysis Builtins.str_float []
         [(Some "A"%string, PyInt 85); (Some "B"%string, PyInt 70)]
       = department_heading ++ lines ++ [ln (Some 5)]
       /\ Forall2 (fun dept line =>
                     exists avg,
                       rounded_mean (scores_of dept sample_records) = Ok avg
                       /\ line = cell 0 8 (Some (str_text dept
                                                 +:+ ": Average Score = "
                                                 +:+ str_num Builtins.str_float avg))
                                      0 true "")
                  (first_seen (map department sample_records)) lines.
Proof.
  split; [reflexivity|].
  apply (department_lines_first_seen Builtins.str_float sample_records empty_world).
  reflexivity.
Defined.

(** What [read_csv_data] does is decided by the file under its name. *)
Lemma read_csv_data_run int_of_str filename w :
  read_csv_data int_of_str filename w
  = match rbind (match fs w !! filename with
                 | None => Raise (FileNotFoundError filename)
                 | Some (TextFile rows) => Ok rows
                 | Some (PdfFile _) => Raise UnicodeDecodeError
                 end)
                (fun rows => for_each (load_row int_of_str) (DictReader rows) [])
    with
    | Ok employees => (Ok employees, printed "CSV data read successfully." w)
    | Raise e => (Raise e, w)
    end.
Proof.
  unfold read_csv_data, bind, open_csv, lift.
  destruct (fs w !! filename) as [[rows|doc]|]; reflexivity.
Qed.

Section RunTwice.
Variable int_of_str : string -> option Z.
Variable str_float : spec_float -> string.
Variable strftime : datetime -> string -> string.

(** The stages before the rendering, as a function of the data file. *)
Lemma analysis_run (w : world) :
  analysis int_of_str w
  = match fs w !! DATA_FILE with
    | None =>
        (Raise (SystemExit None), printed "ERROR: data.csv not found!" w)
    | Some f =>
        let w1 := printed "data.csv found successfully." w in
        match rbind (match f with
                     | TextFile rows => Ok rows
                     | PdfFile _ => Raise UnicodeDecodeError
                     end)
                    (fun rows =>
                       for_each (load_row int_of_str) (DictReader rows) [])
        with
        | Raise e => (Raise e, w1)
        | Ok employees =>
            let w2 := printed "CSV data read successfully." w1 in
            match statistics_of (map score employees) with
            | Raise e => (Raise e, w2)
            | Ok stats =>
                let w3 := printed "Statistics calculated successfully." w2 in
                match averaged employees with
                | Raise e => (Raise e, w3)
                | Ok dept_avg =>
                    (Ok (employees, stats, dept_avg),
                     printed "Department-wise averages calculated." w3)
                end
            end
        end
    end.
Proof.
  unfold analysis.
  unfold bind at 1. unfold check_file_exists, bind at 1, path_exists.
  destruct (fs w !! DATA_FILE) as [f|] eqn:Hf.
  2:{ rewrite bool_decide_eq_false_2 by (intros [? ?]; discriminate).
      reflexivity. }
  rewrite bool_decide_eq_true_2 by eauto. cbn [negb].
  change (print (DATA_FILE +:+ " found successfully.") w)
    with (Ok tt, printed "data.csv found successfully." w).
  cbn iota beta zeta.
  unfold bind at 1. rewrite read_csv_data_run. cbn [fs printed]. rewrite Hf.
  destruct (rbind _ _) as [employees|e1]; [|reflexivity].
  unfold bind at 1. rewrite calculate_statistics_run.
  destruct (statistics_of (map score employees)) as [stats|e2]; [|reflexivity].
  unfold bind at 1. rewrite department_wise_average_run.
  destruct (averaged employees) as [dept_avg|e3]; reflexivity.
Qed.

(** The stages before the rendering read the data file and nothing
    else of the world: two worlds that hold the same data file give the
    same result and the same diagnostics. *)
Lemma analysis_reads_data_file (w1 w2 : world) :
  fs w1 !! DATA_FILE = fs w2 !! DATA_FILE ->
  fst (analysis int_of_str w1) = fst (analysis int_of_str w2)
  /\ exists msgs,
       stdout (snd (analysis int_of_str w1)) = stdout w1 ++ msgs
       /\ stdout (snd (analysis int_of_str w2)) = stdout w2 ++ msgs
       /\ (fst (analysis int_of_str w1) = Raise (SystemExit None)
           /\ msgs = ["ERROR: data.csv not found!"%string]
           \/ exists n, (1 <= n <= 4)%nat /\ msgs = take n success_messages
                        /\ (n = 4%nat <-> exists a, fst (analysis int_of_str w1) = Ok a)).
Proof.
  intros Hfile. rewrite !analysis_run, <- Hfile.
  destruct (fs w1 !! DATA_FILE) as [f|].
  2:{ split; [reflexivity|].
      exists ["ERROR: data.csv not found!"%string]. auto. }
  destruct (rbind _ _) as [employees|e1].
  2:{ split; [reflexivity|].
      exists (take 1 success_messages). split; [reflexivity|]. split; [reflexivity|].
      right. exists 1%nat. split; [lia|]. split; [reflexivity|].
      split; [lia | intros [a Ha]; discriminate Ha]. }
  destruct (statistics_of (map score employees)) as [stats|e2].
  2:{ cbn [fst snd stdout printed]. split; [reflexivity|].
      exists (take 2 success_messages). rewrite <- !app_assoc.
      split; [reflexivity|]. split; [reflexivity|].
      right. exists 2%nat. split; [lia|]. split; [reflexivity|].
      split; [lia | intros [a Ha]; discriminate Ha]. }
  destruct (averaged employees) as [dept_avg|e3].
  2:{ cbn [fst snd stdout printed]. split; [reflexivity|].
      exists (take 3 success_messages). rewrite <- !app_assoc.
      split; [reflexivity|]. split; [reflexivity|].
      right. exists 3%nat. split; [lia|]. split; [reflexivity|].
      split; [lia | intros [a Ha]; discriminate Ha]. }
  cbn [fst snd stdout printed]. split; [reflexivity|].
  exists (take 4 success_messages). rewrite <- !app_assoc.
  split; [reflexivity|]. split; [reflexivity|].
  right. exists 4%nat. split; [lia|]. split; [reflexivity|].
  split; [eauto | reflexivity].
Qed.

(** X14.  When a stage before the rendering raises (the existence
    check, the loader, [calculate_statistics] or
    [department_wise_average]), the run ends with that exception and
    writes no file; what it printed is either the ERROR line of the
    existence check or the first one, two or three diagnostics of a
    successful run. *)
Theorem failure_before_rendering_writes_nothing (w : world) (e : exn) :
  fst (analysis int_of_str w) = Raise e ->
  fst (generate_report int_of_str str_float strftime w) = Raise e
  /\ fs (snd (generate_report int_of_str str_float strftime w)) = fs w
  /\ exists msgs,
       stdout (snd (generate_report int_of_str str_float strftime w))
       = stdout w ++ msgs
       /\ (msgs = ["ERROR: data.csv not found!"%string]
           \/ exists n, (1 <= n <= 3)%nat /\ msgs = take n success_messages).
Proof.
  intros Hfail. rewrite generate_report_unfold.
  destruct (clock_blind_analysis int_of_str w) as (Hfs & _ & _).
  destruct (analysis_reads_data_file w w eq_refl)
    as (_ & msgs & Hout & _ & Hmsgs).
  destruct (analysis int_of_str w) as [[a|e'] w'] eqn:Ha;
    cbn [fst snd] in *; [discriminate|].
  injection Hfail as ->.
  split; [reflexivity|]. split; [exact Hfs|].
  exists msgs. split; [exact Hout|].
  destruct Hmsgs as [[_ ->] | (n & Hn & -> & Hok)]; [now left|].
  right. exists n. split; [|reflexivity].
  assert (n <> 4%nat).
  { intros H4. apply Hok in H4. destruct H4 as [a Hx]. discriminate Hx. }
  lia.
Qed.

(** X17.  The run reads the data file and nothing else of the world:
    from two worlds that hold the same data file, whatever else they
    hold, have printed, and whatever their clocks show, the run ends
    alike and prints the same diagnostics; when it writes the report,
    the calls it made on the document are the same in both runs but for
    the date line, which shows the date of each run.  A second run in
    place, with the first report in the file system, is an instance. *)
Theorem report_calls_determined_by_data_file (w1 w2 : world) :
  fs w1 !! DATA_FILE = fs w2 !! DATA_FILE ->
  fst (generate_report int_of_str str_float strftime w1)
  = fst (generate_report int_of_str str_float strftime w2)
  /\ (exists msgs,
        stdout (snd (generate_report int_of_str str_float strftime w1))
        = stdout w1 ++ msgs
        /\ stdout (snd (generate_report int_of_str str_float strftime w2))
           = stdout w2 ++ msgs)
  /\ match fst (generate_report int_of_str str_float strftime w1) with
     | Raise _ =>
         fs (snd (generate_report int_of_str str_float strftime w1)) = fs w1
         /\ fs (snd (generate_report int_of_str str_float strftime w2)) = fs w2
     | Ok _ =>
         exists before after,
           fs (snd (generate_report int_of_str str_float strftime w1))
           = <[OUTPUT_FILE :=
                 PdfFile (before
                          ++ date_line (strftime (now w1) "%B %d, %Y")
                          :: after)]> (fs w1)
           /\ fs (snd (generate_report int_of_str str_float strftime w2))
              = <[OUTPUT_FILE :=
                    PdfFile (before
                             ++ date_line (strftime (now w2) "%B %d, %Y")
                             :: after)]> (fs w2)
     end.
Proof.
  intros Hfile. rewrite !generate_report_unfold.
  destruct (clock_blind_analysis int_of_str w1) as (Hfs1 & Hnow1 & _).
  destruct (clock_blind_analysis int_of_str w2) as (Hfs2 & Hnow2 & _).
  destruct (analysis_reads_data_file w1 w2 Hfile)
    as (Hres & msgs & Hout1 & Hout2 & _).
  destruct (analysis int_of_str w1) as [[[[employees stats] dept_avg]|e] w1'];
    destruct (analysis int_of_str w2) as [[[[employees2 stats2] dept_avg2]|e2] w2'];
    cbn [fst snd] in *; try discriminate.
  - injection Hres as <- <- <-.
    split; [reflexivity|]. split.
    + exists (msgs ++ ["PDF report generated successfully!"%string]).
      cbn [stdout printed with_file]. rewrite Hout1, Hout2, <- !app_assoc.
      split; reflexivity.
    + eexists _, _. cbn [fs printed with_file].
      rewrite Hfs1, Hfs2, Hnow1, Hnow2. split; reflexivity.
  - injection Hres as <-.
    split; [reflexivity|]. split; [eauto|]. split; assumption.
Qed.
End RunTwice.

Lemma failure_before_rendering_writes_nothing_witness :
  fst (analysis Builtins.int_of_str bad_score_world) = Raise ValueError
  /\ (fst (generate_report Builtins.int_of_str Builtins.str_float
             Builtins.strftime bad_score_world) = Raise ValueError
      /\ fs (snd (generate_report Builtins.int_of_str Builtins.str_float
                    Builtins.strftime bad_score_world)) = fs bad_score_world
      /\ exists msgs,
           stdout (snd (generate_report Builtins.int_of_str Builtins.str_float
                          Builtins.strftime bad_score_world))
           = stdout bad_score_world ++ msgs
           /\ (msgs = ["ERROR: data.csv not found!"%string]
               \/ exists n, (1 <= n <= 3)%nat /\ msgs = take n success_messages)).
Proof.
  assert (H1 : fst (analysis Builtins.int_of_str bad_score_world)
               = Raise ValueError) by reflexivity.
  split; [exact H1|].
  exact (failure_before_rendering_writes_nothing Builtins.int_of_str
           Builtins.str_float Builtins.strftime bad_score_world ValueError H1).
Defined.

Lemma report_calls_determined_by_data_file_witness :
  fs sample_world !! DATA_FILE = fs rerun_world !! DATA_FILE
  /\ (fst (generate_report Builtins.int_of_str Builtins.str_float
             Builtins.strftime sample_world)
      = fst (generate_report Builtins.int_of_str Builtins.str_float
               Builtins.strftime rerun_world)
      /\ (exists msgs,
            stdout (snd (generate_report Builtins.int_of_str Builtins.str_float
                           Builtins.strftime sample_world))
            = stdout sample_world ++ msgs
            /\ stdout (snd (generate_report Builtins.int_of_str
                              Builtins.str_float Builtins.strftime rerun_world))
               = stdout rerun_world ++ msgs)
      /\ match fst (generate_report Builtins.int_of_str Builtins.str_float
                      Builtins.strftime sample_world) with
         | Raise _ =>
             fs (snd (generate_report Builtins.int_of_str Builtins.str_float
                        Builtins.strftime sample_world)) = fs sample_world
             /\ fs (snd (generate_report Builtins.int_of_str Builtins.str_float
                           Builtins.strftime rerun_world)) = fs rerun_world
         | Ok _ =>
             exists before after,
               fs (snd (generate_report Builtins.int_of_str Builtins.str_float
                          Builtins.strftime sample_world))
               = <[OUTPUT_FILE :=
                     PdfFile (before
                              ++ date_line (Builtins.strftime (now sample_world)
                                              "%B %d, %Y")
                              :: after)]> (fs sample_world)
               /\ fs (snd (generate_report Builtins.int_of_str
                             Builtins.str_float Builtins.strftime rerun_world))
                  = <[OUTPUT_FILE :=
                        PdfFile (before
                                 ++ date_line (Builtins.strftime (now rerun_world)
                                                 "%B %d, %Y")
                                 :: after)]> (fs rerun_world)
         end).
Proof.
  assert (H1 : fs sample_world !! DATA_FILE = fs rerun_world !! DATA_FILE)
    by (vm_compute; reflexivity).
  split; [exact H1|].
  exact (report_calls_determined_by_data_file Builtins.int_of_str
           Builtins.str_float Builtins.strftime sample_world rerun_world H1).
Defined.

Module StoreResults.
Import Store StoreSpec StoreFacts StoreRefinement.

(** What [calculate_statistics] returns is a reference to an object
    allocated during the call. *)
Lemma keeps_calculate_statistics_new m0 employees :
  keeps m0 (fun _ => True) (calculate_statistics employees)
        (fun v _ => exists l, v = VRef l /\ m0 !! l = None).
Proof.
  unfold calculate_statistics.
  keeps_step ltac:(apply keeps_list_items).
  keeps_step ltac:(apply (keeps_collect m0 (fun _ => True));
                   intros emp; eapply keeps_trivial, keeps_dict_getitem).
  keeps_step ltac:(apply keeps_alloc).
  keeps_step ltac:(eapply keeps_bind;
                   [eapply keeps_trivial, keeps_list_items
                   | intros items; eapply keeps_trivial, keeps_ret]).
  keeps_step ltac:(apply keeps_rounded_mean_at).
  keeps_step ltac:(eapply keeps_bind;
                   [eapply keeps_trivial, keeps_list_items
                   | intros items; eapply keeps_trivial, keeps_lift]).
  keeps_step ltac:(apply keeps_lift).
  keeps_step ltac:(apply keeps_lift).
  eapply keeps_bind; [apply keeps_alloc|]. intros stats. cbn beta.
  eapply keeps_pure.
  { intros m' (l & m & Hv & Hl0 & _).
    exact (ex_intro (fun l => stats = VRef l /\ m0 !! l = None) l
                    (conj Hv Hl0)). }
  intros Hnew.
  keeps_step ltac:(apply keeps_print).
  eapply keeps_weaken; [apply keeps_ret|].
  intros ? ? [-> _]. exact Hnew.
Qed.

Lemma keeps_department_wise_average_new m0 employees :
  keeps m0 (fun _ => True) (department_wise_average employees)
        (fun v _ => exists l, v = VRef l /\ m0 !! l = None).
Proof.
  unfold department_wise_average.
  eapply keeps_bind; [apply keeps_alloc|]. intros dept_data. cbn beta.
  eapply keeps_pure.
  { intros m' (l & m & Hv & Hl0 & _).
    exact (ex_intro (fun l => dept_data = VRef l /\ m0 !! l = None) l
                    (conj Hv Hl0)). }
  intros (dd & -> & Hdd).
  eapply keeps_bind.
  { eapply (keeps_strengthen _ _ (groups_fresh m0 dd)).
    - intros m (l & m1 & [= <-] & _ & _ & _ & ->).
      exists []. split; [now rewrite lookup_insert_eq | discriminate].
    - apply keeps_for_in. intros emp. now apply keeps_group_body. }
  intros ?.
  eapply keeps_bind; [apply keeps_alloc|]. intros dept_avg. cbn beta.
  eapply keeps_pure.
  { intros m' (l & m & Hv & Hl0 & _).
    exact (ex_intro (fun l => dept_avg = VRef l /\ m0 !! l = None) l
                    (conj Hv Hl0)). }
  intros (da & -> & Hda).
  keeps_step ltac:(apply keeps_dict_items).
  keeps_step ltac:(apply (keeps_collect m0 (fun _ => True));
                   intros [dept scores]; unfold average_group;
                   (eapply keeps_bind; [apply keeps_rounded_mean_at|]);
                   intros average;
                   eapply keeps_weaken; [apply keeps_dict_setitem, Hda | auto]).
  keeps_step ltac:(apply keeps_print).
  eapply keeps_weaken; [apply keeps_ret|].
  intros ? ? [-> _]. eauto.
Qed.

(** X15.  On a store that holds the records, when the statistics
    exist, [calculate_statistics] returns a reference to a dict
    allocated by the call (its address was free before), which holds
    the four statistics: the result shares no object with the input. *)
Theorem statistics_returned_in_new_object
        (h : store) (l : loc) (employees : list employee) (stats : statistics) :
  holds_records (objs h) l employees ->
  statistics_of (map score employees) = Ok stats ->
  exists r,
    fst (calculate_statistics (VRef l) h) = Ok (VRef r)
    /\ objs h !! r = None
    /\ objs (snd (calculate_statistics (VRef l) h)) !! r
       = Some (statistics_object stats).
Proof.
  intros Hrec Hst.
  pose proof (calculate_statistics_refines h l employees Hrec) as Href.
  rewrite Hst in Href. destruct Href as (r & Hr & Hobj).
  exists r. split; [exact Hr|]. split; [|exact Hobj].
  destruct (keeps_calculate_statistics_new (objs h) (VRef l) h) as [_ Hnew];
    [reflexivity | exact I |].
  destruct (Hnew _ Hr) as (r' & [= <-] & Hnone). exact Hnone.
Qed.

(** X16.  On a store that holds the records, when the averages
    exist, [department_wise_average] returns a reference to a dict
    allocated by the call (its address was free before), which holds
    the averages in first-seen order. *)
Theorem averages_returned_in_new_object
        (h : store) (l : loc) (employees : list employee)
        (dept_avg : Dict.t pytext pynum) :
  holds_records (objs h) l employees ->
  averaged employees = Ok dept_avg ->
  exists r,
    fst (department_wise_average (VRef l) h) = Ok (VRef r)
    /\ objs h !! r = None
    /\ objs (snd (department_wise_average (VRef l) h)) !! r
       = Some (averages_object dept_avg).
Proof.
  intros Hrec Hst.
  pose proof (department_wise_average_refines h l employees Hrec) as Href.
  rewrite Hst in Href. destruct Href as (r & Hr & Hobj).
  exists r. split; [exact Hr|]. split; [|exact Hobj].
  destruct (keeps_department_wise_average_new (objs h) (VRef l) h) as [_ Hnew];
    [reflexivity | exact I |].
  destruct (Hnew _ Hr) as (r' & [= <-] & Hnone). exact Hnone.
Qed.
End StoreResults.

Lemma sample_store_holds_records :
  StoreSpec.holds_records (Store.objs StoreSpec.sample_store) 1%positive
                          sample_records.
Proof.
  exists [2%positive; 3%positive; 4%positive]. split; [reflexivity|].
  repeat (apply List.Forall2_cons; [reflexivity|]). apply List.Forall2_nil.
Defined.

Lemma statistics_returned_in_new_object_witness :
  StoreSpec.holds_records (Store.objs StoreSpec.sample_store) 1%positive
                          sample_records
  /\ statistics_of (map score sample_records)
     = Ok {| total_employees := 3; average_score := PyInt 80;
             highest_score := 90; lowest_score := 70 |}
  /\ exists r,
       fst (Store.calculate_statistics (Store.VRef 1%positive)
              StoreSpec.sample_store) = Ok (Store.VRef r)
       /\ Store.objs StoreSpec.sample_store !! r = None
       /\ Store.objs (snd (Store.calculate_statistics (Store.VRef 1%positive)
                             StoreSpec.sample_store)) !! r
          = Some (StoreSpec.statistics_object
                    {| total_employees := 3; average_score := PyInt 80;
                       highest_score := 90; lowest_score := 70 |}).
Proof.
  split; [exact sample_store_holds_records|]. split; [reflexivity|].
  apply (StoreResults.statistics_returned_in_new_object StoreSpec.sample_store
           1%positive sample_records);
    [exact sample_store_holds_records | reflexivity].
Defined.

Lemma averages_returned_in_new_object_witness :
  StoreSpec.holds_records (Store.objs StoreSpec.sample_store) 1%positive
                          sample_records
  /\ averaged sample_records
     = Ok [(Some "A"%string, PyInt 85); (Some "B"%string, PyInt 70)]
  /\ exists r,
       fst (Store.department_wise_average (Store.VRef 1%positive)
              StoreSpec.sample_store) = Ok (Store.VRef r)
       /\ Store.objs StoreSpec.sample_store !! r = None
       /\ Store.objs (snd (Store.department_wise_average (Store.VRef 1%positive)
                             StoreSpec.sample_store)) !! r
          = Some (StoreSpec.averages_object
                    [(Some "A"%string, PyInt 85); (Some "B"%string, PyInt 70)]).
Proof.
  split; [exact sample_store_holds_records|]. split; [reflexivity|].
  apply (StoreResults.averages_returned_in_new_object StoreSpec.sample_store
           1%positive sample_records);
    [exact sample_store_holds_records | reflexivity].
Defined.
